(** * Data-quality checker, loader and analysis scripts: a shallow embedding

    The Python scripts [scripts/data_quality_check.py],
    [scripts/load_data.py] and [scripts/eda_analysis.py] are embedded as
    functions in a small state-and-exception monad.  The warehouse, the
    file system and the process environment are external collaborators:
    their answers are fields of an environment record, and every call
    made to them is recorded in the state, next to the log lines (the
    charts and the summary file of the analysis are answers only).

    Conventions.
    - A Python [int] is a [Z].  Python's true division and the
      percentages derived from it are exact rationals ([Q]); division by
      zero raises, as in Python.  On binary64 floats the comparisons with
      the thresholds give the same answers as long as the counts stay
      far below 10^14; the examples at the end evaluate the source's
      expressions on such floats.
    - The pandas statistics of the consistency check are real numbers
      extended with the IEEE special values ([npfloat]).
    - [try ... except Exception] is [try_except]; a run that is still
      polling when its fuel is spent is [Unfinished], which no handler
      catches.
    - Log texts are the source's texts without the decorations and the
      interpolated numbers. *)

From Stdlib Require Import String List ZArith QArith Floats Reals Bool Lia Psatz.
From Stdlib Require Import Permutation.
Import ListNotations.
Local Open Scope string_scope.

Set Implicit Arguments.

(* ================================================================== *)
(** ** Results and exceptions *)

(** What a run of a function gives: a value, an exception carrying its
    message, or nothing yet, when the run is still waiting (the polling
    loop of the loader has no timeout). *)
Inductive result (A : Type) : Type :=
| Ret (a : A)
| Raise (msg : string)
| Unfinished.
Arguments Ret {A} a.
Arguments Raise {A} msg.
Arguments Unfinished {A}.

(** What an external collaborator answers to a call: a value, or a
    failure that the client library raises as an exception. *)
Inductive answer (A : Type) : Type :=
| Ok (a : A)
| Fails (msg : string).
Arguments Ok {A} a.
Arguments Fails {A} msg.

(** ** Insertion-ordered dictionaries (Python [dict]) *)

Definition dict (V : Type) := list (string * V).

Fixpoint dict_set {V} (k : string) (v : V) (d : dict V) : dict V :=
  match d with
  | [] => [(k, v)]
  | (k', v') :: d' =>
      if String.eqb k k' then (k, v) :: d' else (k', v') :: dict_set k v d'
  end.

Fixpoint dict_get {V} (k : string) (d : dict V) : option V :=
  match d with
  | [] => None
  | (k', v') :: d' => if String.eqb k k' then Some v' else dict_get k d'
  end.

Definition keys {V} (d : dict V) : list string := map fst d.
Definition values {V} (d : dict V) : list V := map snd d.

(* ================================================================== *)
(** ** The report (data_quality_check.py, lines 208-248) *)

Inductive Status := Passed | Failed | Error.

Definition Status_eqb (a b : Status) : bool :=
  match a, b with
  | Passed, Passed | Failed, Failed | Error, Error => true
  | _, _ => false
  end.

Record CheckEntry := mkEntry {
  status : Status;
  error : option string;
  timestamp : nat
}.

Record Summary := mkSummary {
  total_checks : Z;
  passed_checks : Z;
  failed_checks : Z;
  quality_score : Q
}.

Record Report := mkReport {
  report_timestamp : nat;
  project_id : string;
  dataset : string;
  checks : dict CheckEntry;
  overall_score : Q;
  summary : Summary
}.

(* ================================================================== *)
(** ** State: clock, log lines and external calls, most recent first *)

Inductive Level := INFO | WARNING | ERROR.

Inductive Event :=
| Log (lvl : Level) (text : string)
| Query (what : string)
| Makedirs (dir : string)
| WriteJson (stamp : nat) (content : Report)
| ClientInit
| CreateDataset
| LoadSubmit
| JobDone
| Sleep (seconds : nat)
| GetTable.

Record State := mkState {
  clock : nat;
  polls : nat;
  trace : list Event
}.

Definition M (A : Type) : Type := State -> result A * State.

Definition ret {A} (a : A) : M A := fun s => (Ret a, s).

Definition bind {A B} (c : M A) (k : A -> M B) : M B :=
  fun s =>
    match c s with
    | (Ret a, s') => k a s'
    | (Raise e, s') => (Raise e, s')
    | (Unfinished, s') => (Unfinished, s')
    end.

Definition raise {A} (msg : string) : M A := fun s => (Raise msg, s).

Definition unfinished {A} : M A := fun s => (Unfinished, s).

(** [try: c except Exception as e: h e] *)
Definition try_except {A} (c : M A) (h : string -> M A) : M A :=
  fun s =>
    match c s with
    | (Ret a, s') => (Ret a, s')
    | (Raise e, s') => h e s'
    | (Unfinished, s') => (Unfinished, s')
    end.

Declare Scope monad_scope.
Delimit Scope monad_scope with monad.
Notation "x <- c ;; k" := (bind c (fun x => k))
  (at level 61, c at next level, right associativity) : monad_scope.
Notation "c ;; k" := (bind c (fun _ => k))
  (at level 61, right associativity) : monad_scope.
Local Open Scope monad_scope.

Definition emit (e : Event) : M unit :=
  fun s => (Ret tt, mkState (clock s) (polls s) (e :: trace s)).

Definition log (lvl : Level) (text : string) : M unit := emit (Log lvl text).

(** [datetime.now()]: reads the clock, which then moves on. *)
Definition now : M nat :=
  fun s => (Ret (clock s), mkState (S (clock s)) (polls s) (trace s)).

(** A call to an external collaborator: recorded, then answered. *)
Definition external {A} (e : Event) (reply : answer A) : M A :=
  emit e ;;
  match reply with
  | Ok a => ret a
  | Fails msg => raise msg
  end.

(** Python's [a / b] on integers. *)
Definition py_truediv (a b : Z) : M Q :=
  if (b =? 0)%Z then raise "division by zero"
  else ret (inject_Z a / inject_Z b)%Q.

Definition Qlt_bool (x y : Q) : bool := negb (Qle_bool y x).

Definition initial_state : State := mkState 0 0 [].

(** The exit status of the process whose entry point ran as [r]. *)
Definition exit_code {A} (r : result A) : option Z :=
  match r with
  | Ret _ => Some 0%Z
  | Raise _ => Some 1%Z
  | Unfinished => None
  end.

Definition truthy (v : option bool) : bool :=
  match v with
  | Some true => true
  | _ => false
  end.

(* ================================================================== *)
(** * scripts/data_quality_check.py *)

Module DataQualityCheck.

(** ** The warehouse as the quality checker sees it *)

Record FreshnessRow := mkFreshnessRow {
  latest_partition : option nat;
  current_time : nat;
  hours_since_update : option Z
}.

Record CompletenessRow := mkCompletenessRow {
  total_records : Z;
  valid_timestamps : Z;
  valid_filenames : Z;
  valid_loadtimes : Z
}.

Record DailyRow := mkDailyRow {
  date : nat;
  daily_records : Z;
  daily_files : Z;
  moving_avg_7d : Q
}.

Record Warehouse := mkWarehouse {
  env_project_id : option string;
  client_init : answer unit;
  q_freshness : answer (list FreshnessRow);
  q_completeness : answer (list CompletenessRow);
  q_consistency : answer (list DailyRow);
  q_model_count : string -> answer (list Z);
  fs_makedirs : answer unit;
  fs_write : answer unit
}.

(** [os.getenv('PROJECT_ID') or 'your-project-id'] *)
Definition PROJECT_ID (w : Warehouse) : string :=
  match env_project_id w with
  | Some "" | None => "your-project-id"
  | Some p => p
  end.

Definition DATASET_NAME : string := "acero_analysis".

(* ================================================================== *)
(** ** check_data_freshness (lines 34-69) *)

(** [f"{hours_since:.1f}"]: formatting [None] raises a [TypeError]. *)
Definition format_hours (h : option Z) : M Z :=
  match h with
  | Some n => ret n
  | None => raise "unsupported format string passed to NoneType.__format__"
  end.

Definition check_data_freshness (w : Warehouse) : M (option bool) :=
  log INFO "Verificando frescura de los datos..." ;;
  try_except
    (results <- external (Query "data_freshness") (q_freshness w) ;;
     match results with
     | [] => ret None
     | row :: _ =>
         log INFO "Ultima actualizacion" ;;
         hours_since <- format_hours (hours_since_update row) ;;
         log INFO "Hace horas" ;;
         if (hours_since <? 24)%Z
         then log INFO "Datos estan actualizados" ;; ret (Some true)
         else log WARNING "Datos desactualizados" ;; ret (Some false)
     end)
    (fun e => log ERROR "Error verificando frescura" ;; ret (Some false)).

(* ================================================================== *)
(** ** check_data_completeness (lines 71-114) *)

(** [(valid / total) * 100] *)
Definition completeness_pct (valid total : Z) : M Q :=
  ratio <- py_truediv valid total ;;
  ret (ratio * 100)%Q.

Definition check_data_completeness (w : Warehouse) : M (option bool) :=
  log INFO "Verificando completitud de los datos..." ;;
  try_except
    (results <- external (Query "data_completeness") (q_completeness w) ;;
     match results with
     | [] => ret None
     | row :: _ =>
         let total := total_records row in
         timestamp_completeness <- completeness_pct (valid_timestamps row) total ;;
         filename_completeness <- completeness_pct (valid_filenames row) total ;;
         loadtime_completeness <- completeness_pct (valid_loadtimes row) total ;;
         log INFO "Completitud de datos:" ;;
         log INFO "   - Timestamps" ;;
         log INFO "   - Nombres de archivo" ;;
         log INFO "   - Tiempos de carga" ;;
         if Qlt_bool 95 timestamp_completeness && Qlt_bool 95 filename_completeness
         then log INFO "Completitud de datos aceptable" ;; ret (Some true)
         else log WARNING "Completitud de datos por debajo del umbral" ;;
              ret (Some false)
     end)
    (fun e => log ERROR "Error verificando completitud" ;; ret (Some false)).

(* ================================================================== *)
(** ** check_dbt_models (lines 163-202) *)

Definition models_to_check : list string :=
  ["stg_cdo_challenge"; "int_daily_metrics"; "mart_business_insights"].

(** [for row in count_result: results[model] = row.record_count; log] *)
Fixpoint record_counts (model : string) (rows : list Z) (results : dict Z)
  : M (dict Z) :=
  match rows with
  | [] => ret results
  | record_count :: rest =>
      let results' := dict_set model record_count results in
      log INFO model ;;
      record_counts model rest results'
  end.

(** One turn of the loop over [models_to_check], with its own [try]. *)
Definition check_model (w : Warehouse) (model : string) (results : dict Z)
  : M (dict Z) :=
  try_except
    (count_result <- external (Query model) (q_model_count w model) ;;
     record_counts model count_result results)
    (fun e => log ERROR "Error verificando modelo" ;;
              ret (dict_set model 0%Z results)).

Fixpoint check_models (w : Warehouse) (models : list string) (results : dict Z)
  : M (dict Z) :=
  match models with
  | [] => ret results
  | model :: rest =>
      results' <- check_model w model results ;;
      check_models w rest results'
  end.

Definition check_dbt_models (w : Warehouse) : M (option bool) :=
  log INFO "Verificando modelos dbt..." ;;
  results <- check_models w models_to_check [] ;;
  let all_models_have_data := forallb (fun count => (0 <? count)%Z) (values results) in
  if all_models_have_data
  then log INFO "Todos los modelos dbt tienen datos" ;; ret (Some true)
  else log WARNING "Algunos modelos dbt no tienen datos" ;; ret (Some false).

(* ================================================================== *)
(** ** check_data_consistency (lines 116-161) *)

(** A numpy [float64]: a real number or one of the special values. *)
Inductive npfloat :=
| Fin (x : R)
| PInf
| NInf
| NaN.

Definition np_of_sign (negative : bool) : npfloat :=
  if negative then NInf else PInf.

Definition R_neg (x : R) : bool := if Rlt_dec x 0 then true else false.
Definition R_zero (x : R) : bool := if Req_dec_T x 0 then true else false.

(** [a / b] on [float64]: no exception, the special values instead. *)
Definition np_div (a b : npfloat) : npfloat :=
  match a, b with
  | NaN, _ | _, NaN => NaN
  | Fin x, Fin y =>
      if R_zero y
      then (if R_zero x then NaN else np_of_sign (R_neg x))
      else Fin (x / y)
  | Fin _, (PInf | NInf) => Fin 0
  | PInf, Fin y => np_of_sign (R_neg y)
  | NInf, Fin y => np_of_sign (negb (R_neg y))
  | (PInf | NInf), (PInf | NInf) => NaN
  end.

Definition np_mul (a b : npfloat) : npfloat :=
  match a, b with
  | NaN, _ | _, NaN => NaN
  | Fin x, Fin y => Fin (x * y)
  | Fin x, PInf | PInf, Fin x =>
      if R_zero x then NaN else np_of_sign (R_neg x)
  | Fin x, NInf | NInf, Fin x =>
      if R_zero x then NaN else np_of_sign (negb (R_neg x))
  | PInf, PInf | NInf, NInf => PInf
  | PInf, NInf | NInf, PInf => NInf
  end.

(** [a < b]: false as soon as one side is [nan]. *)
Definition np_lt (a b : npfloat) : bool :=
  match a, b with
  | NaN, _ | _, NaN => false
  | Fin x, Fin y => if Rlt_dec x y then true else false
  | Fin _, PInf | NInf, Fin _ | NInf, PInf => true
  | _, _ => false
  end.

Definition Zsum (xs : list Z) : Z := fold_right Z.add 0%Z xs.

Definition Rsum (xs : list R) : R := fold_right Rplus 0%R xs.

(** [Series.mean()] of an integer column. *)
Definition series_mean (xs : list Z) : npfloat :=
  match xs with
  | [] => NaN
  | _ => Fin (IZR (Zsum xs) / INR (length xs))
  end.

(** [Series.std()]: the sample standard deviation ([ddof=1]), [nan]
    when the column has fewer than two values. *)
Definition series_std (xs : list Z) : npfloat :=
  match xs with
  | [] | [_] => NaN
  | _ =>
      let m := (IZR (Zsum xs) / INR (length xs))%R in
      Fin (sqrt (Rsum (map (fun x => (IZR x - m) * (IZR x - m))%R xs)
                 / (INR (length xs) - 1)))
  end.

(** [(std / mean) * 100] of the column [daily_records]. *)
Definition coefficient_variation (df : list DailyRow) : npfloat :=
  let daily_records_std := series_std (map daily_records df) in
  let daily_records_mean := series_mean (map daily_records df) in
  np_mul (np_div daily_records_std daily_records_mean) (Fin 100).

Definition check_data_consistency (w : Warehouse) : M (option bool) :=
  log INFO "Verificando consistencia de los datos..." ;;
  try_except
    (df <- external (Query "data_consistency") (q_consistency w) ;;
     if (length df =? 0)%nat
     then log WARNING "No hay datos para verificar consistencia" ;;
          ret (Some false)
     else
       log INFO "Consistencia de datos:" ;;
       log INFO "   - Promedio diario" ;;
       log INFO "   - Desviacion estandar" ;;
       log INFO "   - Coeficiente de variacion" ;;
       if np_lt (coefficient_variation df) (Fin 50)
       then log INFO "Consistencia de datos aceptable" ;; ret (Some true)
       else log WARNING "Alta variabilidad en los datos diarios" ;;
            ret (Some false))
    (fun e => log ERROR "Error verificando consistencia" ;; ret (Some false)).

(* ================================================================== *)
(** ** generate_quality_report (lines 204-271) *)

Definition Check : Type := string * M (option bool).

(** One turn of the loop of lines 223-235. *)
Definition run_check (c : Check) (d : dict CheckEntry) : M (dict CheckEntry) :=
  let (check_name, check_function) := c in
  try_except
    (result <- check_function ;;
     t <- now ;;
     ret (dict_set check_name
            (mkEntry (if truthy result then Passed else Failed) None t) d))
    (fun e =>
       t <- now ;;
       ret (dict_set check_name (mkEntry Error (Some e) t) d)).

Fixpoint run_checks (cs : list Check) (d : dict CheckEntry)
  : M (dict CheckEntry) :=
  match cs with
  | [] => ret d
  | c :: rest => d' <- run_check c d ;; run_checks rest d'
  end.

(** The list [checks] of lines 216-221. *)
Definition registered_checks (w : Warehouse) : list Check :=
  [ ("data_freshness", check_data_freshness w);
    ("data_completeness", check_data_completeness w);
    ("data_consistency", check_data_consistency w);
    ("dbt_models", check_dbt_models w) ].

Definition count_passed (d : dict CheckEntry) : Z :=
  Z.of_nat (length (filter (fun e => Status_eqb (status e) Passed) (values d))).

(** Lines 237-248: score and summary over the collected entries. *)
Definition score_report (w : Warehouse) (t0 : nat) (d : dict CheckEntry)
  : M Report :=
  let passed := count_passed d in
  let total := Z.of_nat (length d) in
  ratio <- py_truediv passed total ;;
  let score := (ratio * 100)%Q in
  ret (mkReport t0 (PROJECT_ID w) DATASET_NAME d score
         (mkSummary total passed (total - passed) score)).

(** Lines 206-248: the report as it stands before it is saved. *)
Definition assemble_report_with (w : Warehouse) (cs : list Check) : M Report :=
  log INFO "Generando reporte de calidad..." ;;
  t0 <- now ;;
  d <- run_checks cs [] ;;
  score_report w t0 d.

(** Lines 250-257: [os.makedirs], [open] and [json.dump]. *)
Definition save_report (w : Warehouse) (report : Report) : M unit :=
  external (Makedirs "reports") (fs_makedirs w) ;;
  stamp <- now ;;
  external (WriteJson stamp report) (fs_write w) ;;
  log INFO "Reporte de calidad guardado".

(** Lines 259-269: the summary lines and the tier. *)
Definition log_summary (report : Report) : M unit :=
  log INFO "RESUMEN DE CALIDAD:" ;;
  log INFO "   - Score general" ;;
  log INFO "   - Verificaciones pasadas" ;;
  if Qle_bool 80 (overall_score report)
  then log INFO "Calidad de datos EXCELENTE"
  else if Qle_bool 60 (overall_score report)
       then log INFO "Calidad de datos ACEPTABLE"
       else log WARNING "Calidad de datos REQUIERE ATENCION".

Definition generate_quality_report_with (w : Warehouse) (cs : list Check)
  : M Report :=
  report <- assemble_report_with w cs ;;
  save_report w report ;;
  log_summary report ;;
  ret report.

Definition assemble_report (w : Warehouse) : M Report :=
  assemble_report_with w (registered_checks w).

Definition generate_quality_report (w : Warehouse) : M Report :=
  generate_quality_report_with w (registered_checks w).

(** [DataQualityChecker()] and [main] (lines 25-32, 273-285). *)
Definition DataQualityChecker (w : Warehouse) : M unit :=
  try_except
    (external ClientInit (client_init w) ;;
     log INFO "Cliente BigQuery inicializado")
    (fun e => log ERROR "Error inicializando BigQuery" ;; raise e).

Definition main (w : Warehouse) : M unit :=
  log INFO "Iniciando verificacion de calidad de datos..." ;;
  try_except
    (DataQualityChecker w ;;
     report <- generate_quality_report w ;;
     log INFO "Verificacion de calidad completada")
    (fun e => log ERROR "Error critico" ;; raise e).

End DataQualityCheck.

(* ================================================================== *)
(** * scripts/load_data.py *)

Module LoadData.

Definition TABLE_NAME : string := "cdo_challenge".
Definition SOURCE_URI : string :=
  "gs://desafio-deacero-143d30a0-d8f8-4154-b7df-1773cf286d32/cdo_challenge.csv.gz".

Inductive SourceFormat := CSV.
Inductive WriteDisposition := WRITE_TRUNCATE.

Record LoadJobConfig := mkLoadJobConfig {
  source_format : SourceFormat;
  skip_leading_rows : Z;
  autodetect : bool;
  write_disposition : WriteDisposition;
  max_bad_records : Z
}.

(** The handle of a load job: what the n-th call to [done()] answers
    (counting from 0), and the error list of the job. *)
Record LoadJob := mkLoadJob {
  done_at : nat -> answer bool;
  job_errors : list string
}.

Record Table := mkTable {
  num_rows : Z;
  num_bytes : Z;
  schema : list (string * string)
}.

Record ValidationRow := mkValidationRow {
  total_rows : Z;
  files_processed : Z;
  earliest_load : option nat;
  latest_load : option nat
}.

Record Cloud := mkCloud {
  env_project_id : option string;
  new_client : answer unit;
  create_dataset : answer unit;
  load_table_from_uri : answer LoadJob;
  get_table_loaded : answer Table;
  q_validation : answer (list ValidationRow);
  get_table_validated : answer Table
}.

Definition PROJECT_ID (c : Cloud) : string :=
  match env_project_id c with
  | Some "" | None => "your-project-id"
  | Some p => p
  end.

Definition DATASET_NAME : string := "acero_analysis".

(** create_bigquery_client (lines 25-33) *)
Definition create_bigquery_client (c : Cloud) : M unit :=
  try_except
    (client <- external ClientInit (new_client c) ;;
     log INFO "Cliente BigQuery creado" ;;
     ret client)
    (fun e => log ERROR "Error creando cliente BigQuery" ;; raise e).

(** create_dataset_and_table (lines 35-59) *)
Definition create_dataset_and_table (c : Cloud) : M (string * LoadJobConfig) :=
  try_except
    (let dataset_id := PROJECT_ID c ++ "." ++ DATASET_NAME in
     external CreateDataset (create_dataset c) ;;
     log INFO "Dataset creado" ;;
     let table_id := dataset_id ++ "." ++ TABLE_NAME in
     let job_config := mkLoadJobConfig CSV 1 true WRITE_TRUNCATE 1000 in
     log INFO "Tabla configurada" ;;
     ret (table_id, job_config))
    (fun e => log ERROR "Error creando dataset/tabla" ;; raise e).

(** [load_job.done()]: the next answer of the job. *)
Definition job_done (job : LoadJob) : M bool :=
  n <- (fun s => (Ret (polls s), mkState (clock s) (S (polls s)) (trace s))) ;;
  external JobDone (done_at job n).

(** The loop of lines 76-78; [fuel] bounds the calls to [done()]. *)
Fixpoint wait_for_job (fuel : nat) (job : LoadJob) : M unit :=
  match fuel with
  | O => unfinished
  | S fuel' =>
      finished <- job_done job ;;
      if finished then ret tt
      else emit (Sleep 30) ;;
           log INFO "Estado" ;;
           wait_for_job fuel' job
  end.

(** load_data_from_gcs (lines 61-95) *)
Definition load_data_from_gcs (fuel : nat) (c : Cloud) (table_id : string)
    (job_config : LoadJobConfig) : M bool :=
  try_except
    (log INFO "Iniciando carga de datos" ;;
     log INFO "Este proceso puede tomar varias horas" ;;
     load_job <- external LoadSubmit (load_table_from_uri c) ;;
     log INFO "Monitoreando progreso de la carga..." ;;
     wait_for_job fuel load_job ;;
     match job_errors load_job with
     | _ :: _ => log ERROR "Errores en la carga" ;; ret false
     | [] =>
         table <- external GetTable (get_table_loaded c) ;;
         log INFO "Carga completada exitosamente!" ;;
         log INFO "Registros cargados" ;;
         log INFO "Tamano de tabla" ;;
         ret true
     end)
    (fun e => log ERROR "Error en la carga de datos" ;; ret false).

Fixpoint log_each {A} (lvl : Level) (text : string) (xs : list A) : M unit :=
  match xs with
  | [] => ret tt
  | _ :: rest => log lvl text ;; log_each lvl text rest
  end.

(** [for row in results:] and its three log lines (lines 115-118). *)
Fixpoint log_rows (rows : list ValidationRow) : M unit :=
  match rows with
  | [] => ret tt
  | _ :: rest =>
      log INFO "Total de filas" ;;
      log INFO "Archivos procesados" ;;
      log INFO "Rango de carga" ;;
      log_rows rest
  end.

(** validate_data_quality (lines 97-130) *)
Definition validate_data_quality (c : Cloud) (table_id : string) : M bool :=
  try_except
    (log INFO "Validando calidad de los datos..." ;;
     results <- external (Query "validation") (q_validation c) ;;
     log_rows results ;;
     table <- external GetTable (get_table_validated c) ;;
     log INFO "Esquema de tabla:" ;;
     log_each INFO "   - campo" (schema table) ;;
     ret true)
    (fun e => log ERROR "Error en validacion" ;; ret false).

(** main (lines 132-155) *)
Definition main (fuel : nat) (c : Cloud) : M unit :=
  log INFO "Iniciando proceso de carga de datos..." ;;
  try_except
    (client <- create_bigquery_client c ;;
     cfg <- create_dataset_and_table c ;;
     let (table_id, job_config) := cfg in
     success <- load_data_from_gcs fuel c table_id job_config ;;
     if success
     then validate_data_quality c table_id ;;
          log INFO "Proceso de carga completado exitosamente!"
     else log ERROR "Fallo en el proceso de carga")
    (fun e => log ERROR "Error critico" ;; raise e).

End LoadData.

(* ================================================================== *)
(** * scripts/eda_analysis.py *)

(** The calls to the plotting library and the writing of the summary
    file are answered by the environment; they leave no event in the
    trace. *)

Module EdaAnalysis.

Definition DATASET_NAME : string := "acero_analysis".
Definition TABLE_NAME : string := "cdo_challenge".

(** Dates are day numbers; both are NULL on an empty table. *)
Record OverviewRow := mkOverviewRow {
  total_records : Z;
  unique_dates : Z;
  earliest_date : option Z;
  latest_date : option Z;
  source_files : Z
}.

Record Field := mkField {
  name : string;
  field_type : string;
  is_nullable : bool
}.

Record Table := mkTable {
  table_name : string;
  schema : list Field
}.

Record TemporalRow := mkTemporalRow {
  date : Z;
  daily_records : Z;
  daily_files : Z
}.

Record ColumnRow := mkColumnRow {
  total_rows : Z;
  null_count : Z;
  empty_count : Z;
  unique_values : Z
}.

Record Warehouse := mkWarehouse {
  env_project_id : option string;
  client_init : answer unit;
  q_overview : answer (list OverviewRow);
  get_table : answer Table;
  q_temporal : answer (list TemporalRow);
  plot_temporal : answer unit;
  plot_monthly : answer unit;
  q_column : string -> answer (list ColumnRow);
  write_summary : answer unit
}.

Definition PROJECT_ID (w : Warehouse) : string :=
  match env_project_id w with
  | Some "" | None => "your-project-id"
  | Some p => p
  end.

(** A call that the trace does not record. *)
Definition untraced {A} (reply : answer A) : M A :=
  match reply with
  | Ok a => ret a
  | Fails msg => raise msg
  end.

(** [SteelCompanyEDA()] (lines 37-45) *)
Definition SteelCompanyEDA (w : Warehouse) : M unit :=
  try_except
    (external ClientInit (client_init w) ;;
     log INFO "Cliente BigQuery inicializado")
    (fun e => log ERROR "Error inicializando BigQuery" ;; raise e).

(** [(latest - earliest).days]: subtracting a NULL date raises a
    [TypeError]. *)
Definition days_between (latest earliest : option Z) : M Z :=
  match latest, earliest with
  | Some l, Some e => ret (l - e)%Z
  | _, _ => raise "unsupported operand type(s) for -"
  end.

(** get_data_overview (lines 47-79) *)
Definition get_data_overview (w : Warehouse) : M (option OverviewRow) :=
  log INFO "Obteniendo vista general de los datos..." ;;
  try_except
    (results <- external (Query "data_overview") (q_overview w) ;;
     match results with
     | [] => ret None
     | row :: _ =>
         log INFO "Total de registros" ;;
         log INFO "Fechas unicas" ;;
         log INFO "Rango temporal" ;;
         log INFO "Archivos fuente" ;;
         duration <- days_between (latest_date row) (earliest_date row) ;;
         log INFO "Duracion del dataset" ;;
         ret (Some row)
     end)
    (fun e => log ERROR "Error obteniendo vista general" ;; ret None).

(** analyze_schema (lines 81-96) *)
Definition analyze_schema (w : Warehouse) : M (option (list Field)) :=
  log INFO "Analizando esquema de la tabla..." ;;
  try_except
    (table <- external GetTable (get_table w) ;;
     log INFO "Esquema de la tabla" ;;
     LoadData.log_each INFO "   - campo" (schema table) ;;
     ret (Some (schema table)))
    (fun e => log ERROR "Error analizando esquema" ;; ret None).

(** analyze_temporal_patterns (lines 98-161): the query, the chart of
    the daily volumes, the chart of the monthly averages. *)
Definition analyze_temporal_patterns (w : Warehouse)
  : M (option (list TemporalRow)) :=
  log INFO "Analizando patrones temporales..." ;;
  try_except
    (df <- external (Query "temporal_patterns") (q_temporal w) ;;
     untraced (plot_temporal w) ;;
     log INFO "Grafico de patrones temporales guardado" ;;
     untraced (plot_monthly w) ;;
     ret (Some df))
    (fun e => log ERROR "Error analizando patrones temporales" ;; ret None).

Record ColumnMetrics := mkColumnMetrics {
  m_total_rows : Z;
  m_null_count : Z;
  null_percentage : Q;
  m_empty_count : Z;
  empty_percentage : Q;
  m_unique_values : Z
}.

(** [(count / total) * 100 if total > 0 else 0] *)
Definition percentage (count total : Z) : M Q :=
  if (0 <? total)%Z
  then ratio <- py_truediv count total ;; ret (ratio * 100)%Q
  else ret 0%Q.

(** [for row in results:] of lines 187-200. *)
Fixpoint record_rows (column : string) (rows : list ColumnRow)
    (quality_metrics : dict ColumnMetrics) : M (dict ColumnMetrics) :=
  match rows with
  | [] => ret quality_metrics
  | row :: rest =>
      null_pct <- percentage (null_count row) (total_rows row) ;;
      empty_pct <- percentage (empty_count row) (total_rows row) ;;
      let quality_metrics' :=
        dict_set column
          (mkColumnMetrics (total_rows row) (null_count row) null_pct
             (empty_count row) empty_pct (unique_values row))
          quality_metrics in
      log INFO column ;;
      record_rows column rest quality_metrics'
  end.

(** One turn of the loop over the columns, with its own [try]. *)
Definition analyze_column (w : Warehouse) (column : string)
    (quality_metrics : dict ColumnMetrics) : M (dict ColumnMetrics) :=
  try_except
    (results <- external (Query column) (q_column w column) ;;
     record_rows column results quality_metrics)
    (fun e => log WARNING "No se pudo analizar columna" ;; ret quality_metrics).

Fixpoint analyze_columns (w : Warehouse) (columns : list string)
    (quality_metrics : dict ColumnMetrics) : M (dict ColumnMetrics) :=
  match columns with
  | [] => ret quality_metrics
  | column :: rest =>
      quality_metrics' <- analyze_column w column quality_metrics ;;
      analyze_columns w rest quality_metrics'
  end.

(** analyze_data_quality (lines 163-206): the lookup of the table is
    outside every [try]. *)
Definition analyze_data_quality (w : Warehouse) : M (dict ColumnMetrics) :=
  log INFO "Analizando calidad de los datos..." ;;
  table <- external GetTable (get_table w) ;;
  let columns := map name (schema table) in
  analyze_columns w (firstn 10 columns) [].

Record Overview := mkOverview {
  o_total_records : Z;
  o_unique_dates : Z;
  date_range : option Z * option Z;
  duration_years : Q
}.

Record SchemaSummary := mkSchemaSummary {
  total_columns : Z;
  columns : list string
}.

Record SummaryReport := mkSummaryReport {
  timestamp : nat;
  project_id : string;
  dataset : string;
  table : string;
  data_overview : option Overview;
  schema_summary : option SchemaSummary;
  data_quality : option (dict ColumnMetrics)
}.

(** generate_summary_report (lines 208-249) *)
Definition generate_summary_report (w : Warehouse) : M SummaryReport :=
  log INFO "Generando reporte resumen..." ;;
  t <- now ;;
  overview <- get_data_overview w ;;
  overview_part <-
    match overview with
    | Some row =>
        days <- days_between (latest_date row) (earliest_date row) ;;
        ret (Some (mkOverview (total_records row) (unique_dates row)
                     (earliest_date row, latest_date row)
                     (inject_Z days / 365)%Q))
    | None => ret None
    end ;;
  schema <- analyze_schema w ;;
  let schema_part :=
    match schema with
    | Some (f :: fs) =>
        Some (mkSchemaSummary (Z.of_nat (length (f :: fs))) (map name (f :: fs)))
    | _ => None
    end in
  quality <- analyze_data_quality w ;;
  let quality_part :=
    match quality with
    | [] => None
    | _ :: _ => Some quality
    end in
  untraced (write_summary w) ;;
  log INFO "Reporte resumen guardado" ;;
  ret (mkSummaryReport t (PROJECT_ID w) DATASET_NAME TABLE_NAME
         overview_part schema_part quality_part).

(** run_complete_eda (lines 251-276) *)
Definition run_complete_eda (w : Warehouse) : M unit :=
  log INFO "Iniciando analisis EDA completo..." ;;
  try_except
    (get_data_overview w ;;
     analyze_schema w ;;
     analyze_temporal_patterns w ;;
     analyze_data_quality w ;;
     generate_summary_report w ;;
     log INFO "Analisis EDA completado exitosamente!" ;;
     log INFO "Revisa los archivos generados en la carpeta notebooks/")
    (fun e => log ERROR "Error en analisis EDA" ;; raise e).

(** main (lines 278-288) *)
Definition main (w : Warehouse) : M unit :=
  log INFO "Iniciando analisis EDA para empresa de aceros..." ;;
  try_except
    (SteelCompanyEDA w ;;
     run_complete_eda w)
    (fun e => log ERROR "Error critico" ;; raise e).

End EdaAnalysis.

(* ================================================================== *)
(** * Vocabulary of the statements *)

Unset Implicit Arguments.

(** [c] ends, from every state, with a value or with an exception. *)
Definition settles {A} (c : M A) : Prop :=
  forall s, fst (c s) <> Unfinished.

(** [c] ends, from every state, with a value. *)
Definition returns {A} (c : M A) : Prop :=
  forall s, exists a s', c s = (Ret a, s').

(** The clock after one more reading. *)
Definition tick (s : State) : State :=
  mkState (S (clock s)) (polls s) (trace s).

(** The verdict the aggregator records for what a check gave. *)
Definition verdict (r : result (option bool)) : option Status :=
  match r with
  | Ret v => Some (if truthy v then Passed else Failed)
  | Raise _ => Some Error
  | Unfinished => None
  end.

Definition check_names (cs : list DataQualityCheck.Check) : list string :=
  map fst cs.

(** The row count a downstream table reports: the count of the last
    row received, zero when the query failed. *)
Definition reported_count (w : DataQualityCheck.Warehouse) (model : string) : Z :=
  match DataQualityCheck.q_model_count w model with
  | Ok rows => last rows 0%Z
  | Fails _ => 0%Z
  end.

(** What the loop of [check_dbt_models] leaves in [results]. *)
Definition model_results (w : DataQualityCheck.Warehouse)
    (models : list string) (results : dict Z) : dict Z :=
  fold_left
    (fun results model =>
       match DataQualityCheck.q_model_count w model with
       | Ok rows => fold_left (fun r c => dict_set model c r) rows results
       | Fails _ => dict_set model 0%Z results
       end)
    models results.

(** Whether the loop over [count_result] ran at all for [model]: it
    does not when the query answers with no row. *)
Definition has_entry (w : DataQualityCheck.Warehouse) (model : string) : bool :=
  match DataQualityCheck.q_model_count w model with
  | Ok [] => false
  | _ => true
  end.

(** The share of non-null values of a field among [total] records. *)
Definition fraction (valid total : Z) : Q := inject_Z valid / inject_Z total.

(** [(valid / total) * 100] as Python evaluates it, on binary64 floats. *)
Definition binary64_pct (valid total : float) : float :=
  PrimFloat.mul (PrimFloat.div valid total) 100%float.


(** The status recorded for a check that returned [v]. *)
Definition status_of (v : option bool) : Status :=
  if truthy v then Passed else Failed.

(** ** The coefficient of variation of a series, as real numbers *)

Definition column (df : list DataQualityCheck.DailyRow) : list Z :=
  map DataQualityCheck.daily_records df.

Definition sample_mean (xs : list Z) : R :=
  (IZR (DataQualityCheck.Zsum xs) / INR (length xs))%R.

(** The sample standard deviation (divisor [n - 1]). *)
Definition sample_std (xs : list Z) : R :=
  sqrt (DataQualityCheck.Rsum
          (map (fun x => (IZR x - sample_mean xs) * (IZR x - sample_mean xs))%R xs)
        / (INR (length xs) - 1))%R.

(** [stddev / mean * 100] *)
Definition cv_percent (xs : list Z) : R :=
  (sample_std xs / sample_mean xs * 100)%R.

(** The coefficient of variation is defined when the series has at least
    two values and a mean other than zero. *)
Definition cv_defined (xs : list Z) : Prop :=
  (2 <= length xs)%nat /\ sample_mean xs <> 0%R.

(** The same comparison with 50, decided on integers: with [n] values
    of sum [t], the squared deviations [n * x - t] are compared with
    [(n - 1) * t * t]. *)
Definition scaled_deviations (n t : Z) (xs : list Z) : Z :=
  fold_right (fun x acc => ((n * x - t) * (n * x - t) + acc)%Z) 0%Z xs.

Definition cv_below_50 (xs : list Z) : bool :=
  let n := Z.of_nat (length xs) in
  let t := DataQualityCheck.Zsum xs in
  ((2 <=? n)
   && ((t <? 0)
       || ((0 <? t) && (4 * scaled_deviations n t xs <? (n - 1) * t * t))))%Z.

Definition daily (counts : list Z) : list DataQualityCheck.DailyRow :=
  map (fun c => DataQualityCheck.mkDailyRow 0 c 1 (inject_Z c)) counts.

(** ** Scenarios *)

(** A warehouse in good order, all of whose queries answer. *)
Definition healthy : DataQualityCheck.Warehouse :=
  DataQualityCheck.mkWarehouse (Some "acero-prod") (Ok tt)
    (Ok [DataQualityCheck.mkFreshnessRow (Some 700%nat) 703%nat (Some 3%Z)])
    (Ok [DataQualityCheck.mkCompletenessRow 100 96 96 96])
    (Ok [])
    (fun _ => Ok [5%Z])
    (Ok tt) (Ok tt).


(** The same warehouse on a machine whose disk is full. *)
Definition disk_full : DataQualityCheck.Warehouse :=
  DataQualityCheck.mkWarehouse (Some "acero-prod") (Ok tt)
    (Ok [DataQualityCheck.mkFreshnessRow (Some 700%nat) 703%nat (Some 3%Z)])
    (Ok [DataQualityCheck.mkCompletenessRow 100 96 96 96])
    (Ok [])
    (fun _ => Ok [5%Z])
    (Ok tt) (Fails "No space left on device").

(** ** The loader: vocabulary and scenarios *)

(** The state the polling loop leaves when the job answers "not done"
    [n] times and then "done". *)
Fixpoint polled (n : nat) (s : State) : State :=
  match n with
  | O => mkState (clock s) (S (polls s)) (JobDone :: trace s)
  | S n' =>
      polled n'
        (mkState (clock s) (S (polls s))
           (Log INFO "Estado" :: Sleep 30 :: JobDone :: trace s))
  end.

(** The state [s] after the events [es], the most recent first. *)
Definition push (es : list Event) (s : State) : State :=
  mkState (clock s) (polls s) (es ++ trace s).

(** The state in which [load_data_from_gcs], entered in [s], has
    submitted the job and seen it reach its terminal state. *)
Definition load_polled (n : nat) (s : State) : State :=
  polled n
    (push [ Log INFO "Monitoreando progreso de la carga..."; LoadSubmit;
            Log INFO "Este proceso puede tomar varias horas";
            Log INFO "Iniciando carga de datos" ] s).

(** The state in which [main], started in [s], calls
    [load_data_from_gcs]. *)
Definition before_load (s : State) : State :=
  push [ Log INFO "Tabla configurada"; Log INFO "Dataset creado"; CreateDataset;
         Log INFO "Cliente BigQuery creado"; ClientInit;
         Log INFO "Iniciando proceso de carga de datos..." ] s.

(** The name of the destination table. *)
Definition table_id_of (c : LoadData.Cloud) : string :=
  (LoadData.PROJECT_ID c ++ "." ++ LoadData.DATASET_NAME)
  ++ "." ++ LoadData.TABLE_NAME.

Definition the_job_config : LoadData.LoadJobConfig :=
  LoadData.mkLoadJobConfig LoadData.CSV 1 true LoadData.WRITE_TRUNCATE 1000.

(** Running [c] keeps every event already in the trace. *)
Definition grows {A} (c : M A) : Prop :=
  forall s e, In e (trace s) -> In e (trace (snd (c s))).

(** The job reaches its terminal state at the call number [n] of
    [done()], having answered "not done" until then. *)
Definition terminal_after (job : LoadData.LoadJob) (n : nat) : Prop :=
  LoadData.done_at job n = Ok true
  /\ forall k, (k < n)%nat -> LoadData.done_at job k = Ok false.

(** The validation step has run: its query reached the warehouse. *)
Definition validation_ran (s : State) : Prop :=
  In (Query "validation") (trace s).

Definition logged (lvl : Level) (text : string) (s : State) : Prop :=
  In (Log lvl text) (trace s).

Definition loaded_table : LoadData.Table :=
  LoadData.mkTable 1250000 4096 [("sku", "STRING"); ("peso", "FLOAT")].

(** A job that is done at the third call to [done()]. *)
Definition job_with (errors : list string) : LoadData.LoadJob :=
  LoadData.mkLoadJob (fun n => Ok (2 <=? n)%nat) errors.

(** A load that goes well. *)
Definition good_cloud : LoadData.Cloud :=
  LoadData.mkCloud (Some "acero-prod") (Ok tt) (Ok tt)
    (Ok (job_with []))
    (Ok loaded_table)
    (Ok [LoadData.mkValidationRow 1250000 1 (Some 10%nat) (Some 20%nat)])
    (Ok loaded_table).

(** A load job that ends with errors. *)
Definition rejected_load : LoadData.Cloud :=
  LoadData.mkCloud (Some "acero-prod") (Ok tt) (Ok tt)
    (Ok (job_with ["Too many bad records"]))
    (Ok loaded_table)
    (Ok [LoadData.mkValidationRow 1250000 1 (Some 10%nat) (Some 20%nat)])
    (Ok loaded_table).

(** A load whose submission is refused. *)
Definition refused_submission : LoadData.Cloud :=
  LoadData.mkCloud (Some "acero-prod") (Ok tt) (Ok tt)
    (Fails "403 Access Denied")
    (Ok loaded_table)
    (Ok [LoadData.mkValidationRow 1250000 1 (Some 10%nat) (Some 20%nat)])
    (Ok loaded_table).

(** A job without errors, followed by a failing table lookup. *)
Definition lookup_failure : LoadData.Cloud :=
  LoadData.mkCloud (Some "acero-prod") (Ok tt) (Ok tt)
    (Ok (job_with []))
    (Fails "500 Internal Server Error")
    (Ok [LoadData.mkValidationRow 1250000 1 (Some 10%nat) (Some 20%nat)])
    (Ok loaded_table).

(** A project in which no client can be created. *)
Definition no_credentials : LoadData.Cloud :=
  LoadData.mkCloud None (Fails "DefaultCredentialsError") (Ok tt)
    (Ok (job_with []))
    (Ok loaded_table)
    (Ok [LoadData.mkValidationRow 1250000 1 (Some 10%nat) (Some 20%nat)])
    (Ok loaded_table).

(** ** Vocabulary of the further properties *)

(** The healthy warehouse with a table none of whose rows has a load
    time. *)
Definition no_load_times : DataQualityCheck.Warehouse :=
  DataQualityCheck.mkWarehouse (Some "acero-prod") (Ok tt)
    (Ok [DataQualityCheck.mkFreshnessRow (Some 700%nat) 703%nat (Some 3%Z)])
    (Ok [DataQualityCheck.mkCompletenessRow 100 96 96 0])
    (Ok [])
    (fun _ => Ok [5%Z])
    (Ok tt) (Ok tt).

(** A warehouse whose table is empty. *)
Definition empty_table : DataQualityCheck.Warehouse :=
  DataQualityCheck.mkWarehouse (Some "acero-prod") (Ok tt)
    (Ok [DataQualityCheck.mkFreshnessRow None 703%nat None])
    (Ok [DataQualityCheck.mkCompletenessRow 0 0 0 0])
    (Ok [])
    (fun _ => Ok [0%Z])
    (Ok tt) (Ok tt).





(** A machine on which the directory of the reports cannot be made. *)
Definition read_only_disk : DataQualityCheck.Warehouse :=
  DataQualityCheck.mkWarehouse (Some "acero-prod") (Ok tt)
    (Ok [DataQualityCheck.mkFreshnessRow (Some 700%nat) 703%nat (Some 3%Z)])
    (Ok [DataQualityCheck.mkCompletenessRow 100 96 96 96])
    (Ok [])
    (fun _ => Ok [5%Z])
    (Fails "Read-only file system") (Ok tt).


(** The queries a trace holds, the oldest first. *)
Fixpoint queries_of (t : list Event) : list string :=
  match t with
  | [] => []
  | Query what :: rest => (queries_of rest ++ [what])%list
  | _ :: rest => queries_of rest
  end.

(** The seconds a trace spent in [time.sleep]. *)
Fixpoint slept (t : list Event) : nat :=
  match t with
  | [] => 0
  | Sleep seconds :: rest => seconds + slept rest
  | _ :: rest => slept rest
  end.

(** The calls to [done()] a trace holds. *)
Fixpoint done_calls (t : list Event) : nat :=
  match t with
  | [] => 0
  | JobDone :: rest => S (done_calls rest)
  | _ :: rest => done_calls rest
  end.

(** Running [c] neither sleeps nor polls the job. *)
Definition quiet {A} (c : M A) : Prop :=
  forall s,
    slept (trace (snd (c s))) = slept (trace s)
    /\ done_calls (trace (snd (c s))) = done_calls (trace s).

(** An event other than a sleep or a call to [done()]. *)
Definition silent (e : Event) : Prop :=
  match e with
  | Sleep _ | JobDone => False
  | _ => True
  end.

(** A job that never reports that it is done. *)
Definition endless_job : LoadData.LoadJob :=
  LoadData.mkLoadJob (fun _ => Ok false) [].

Definition stuck_load : LoadData.Cloud :=
  LoadData.mkCloud (Some "acero-prod") (Ok tt) (Ok tt)
    (Ok endless_job)
    (Ok loaded_table)
    (Ok [LoadData.mkValidationRow 1250000 1 (Some 10%nat) (Some 20%nat)])
    (Ok loaded_table).

(** A load that goes well, followed by a validation whose query fails. *)
Definition validation_outage : LoadData.Cloud :=
  LoadData.mkCloud (Some "acero-prod") (Ok tt) (Ok tt)
    (Ok (job_with []))
    (Ok loaded_table)
    (Fails "503 Service Unavailable")
    (Ok loaded_table).




(** ** The exploratory analysis: vocabulary and scenarios *)

(** [(count / total) * 100 if total > 0 else 0], as a rational. *)
Definition pct (count total : Z) : Q :=
  if (0 <? total)%Z then (inject_Z count / inject_Z total * 100)%Q else 0%Q.

(** The metrics recorded for a row of counts. *)
Definition column_metrics (row : EdaAnalysis.ColumnRow) : EdaAnalysis.ColumnMetrics :=
  EdaAnalysis.mkColumnMetrics
    (EdaAnalysis.total_rows row) (EdaAnalysis.null_count row)
    (pct (EdaAnalysis.null_count row) (EdaAnalysis.total_rows row))
    (EdaAnalysis.empty_count row)
    (pct (EdaAnalysis.empty_count row) (EdaAnalysis.total_rows row))
    (EdaAnalysis.unique_values row).

(** What the scan of one column contributes: the metrics of the last
    row of the answer, nothing when the query fails or has no row. *)
Definition analysed (w : EdaAnalysis.Warehouse) (column : string)
  : option EdaAnalysis.ColumnMetrics :=
  match EdaAnalysis.q_column w column with
  | Ok (row :: rows) =>
      Some (column_metrics (last (row :: rows) row))
  | _ => None
  end.

(** What the loop over the columns leaves in [quality_metrics]. *)
Definition scanned (w : EdaAnalysis.Warehouse) (columns : list string)
    (quality_metrics : dict EdaAnalysis.ColumnMetrics)
  : dict EdaAnalysis.ColumnMetrics :=
  fold_left
    (fun metrics column =>
       match analysed w column with
       | Some v => dict_set column v metrics
       | None => metrics
       end)
    columns quality_metrics.

(** The columns the scan looks at: the first ten of the schema. *)
Definition scanned_columns (t : EdaAnalysis.Table) : list string :=
  firstn 10 (map EdaAnalysis.name (EdaAnalysis.schema t)).

(** Running [c] sends no query. *)
Definition mute {A} (c : M A) : Prop :=
  forall s, queries_of (trace (snd (c s))) = queries_of (trace s).

(** The three optional parts of the summary, from the answers. *)
Definition overview_of (w : EdaAnalysis.Warehouse) : option EdaAnalysis.Overview :=
  match EdaAnalysis.q_overview w with
  | Ok (row :: _) =>
      match EdaAnalysis.latest_date row, EdaAnalysis.earliest_date row with
      | Some l, Some e =>
          Some (EdaAnalysis.mkOverview
                  (EdaAnalysis.total_records row) (EdaAnalysis.unique_dates row)
                  (Some e, Some l) (inject_Z (l - e) / 365)%Q)
      | _, _ => None
      end
  | _ => None
  end.

Definition schema_of (t : EdaAnalysis.Table) : option EdaAnalysis.SchemaSummary :=
  match EdaAnalysis.schema t with
  | [] => None
  | fields =>
      Some (EdaAnalysis.mkSchemaSummary (Z.of_nat (length fields))
              (map EdaAnalysis.name fields))
  end.

Definition quality_of (w : EdaAnalysis.Warehouse) (t : EdaAnalysis.Table)
  : option (dict EdaAnalysis.ColumnMetrics) :=
  match scanned w (scanned_columns t) [] with
  | [] => None
  | metrics => Some metrics
  end.

Definition twelve_columns : EdaAnalysis.Table :=
  EdaAnalysis.mkTable "cdo_challenge"
    (map (fun n => EdaAnalysis.mkField n "STRING" true)
       [ "c01"; "c02"; "c03"; "c04"; "c05"; "c06";
         "c07"; "c08"; "c09"; "c10"; "c11"; "c12" ]).

(** A table of twelve columns; the scan of [c02] fails (it is not a
    string column), [c03] is empty of rows. *)
Definition steel_table : EdaAnalysis.Warehouse :=
  EdaAnalysis.mkWarehouse (Some "acero-prod") (Ok tt)
    (Ok [EdaAnalysis.mkOverviewRow 5000 1825 (Some 18000%Z) (Some 19825%Z) 60])
    (Ok twelve_columns)
    (Ok [EdaAnalysis.mkTemporalRow 18000 3 1])
    (Ok tt) (Ok tt)
    (fun column =>
       if String.eqb column "c02" then Fails "No matching signature for operator ="
       else if String.eqb column "c03" then Ok []
       else Ok [EdaAnalysis.mkColumnRow 5000 50 25 400])
    (Ok tt).

(** The same project when the table cannot be looked up. *)
Definition missing_table : EdaAnalysis.Warehouse :=
  EdaAnalysis.mkWarehouse (Some "acero-prod") (Ok tt)
    (Ok [EdaAnalysis.mkOverviewRow 5000 1825 (Some 18000%Z) (Some 19825%Z) 60])
    (Fails "404 Not found: Table")
    (Ok [EdaAnalysis.mkTemporalRow 18000 3 1])
    (Ok tt) (Ok tt)
    (fun _ => Ok [EdaAnalysis.mkColumnRow 5000 50 25 400])
    (Ok tt).

(* ================================================================== *)
(** * Properties *)

(** ** The monad *)

Lemma bind_Ret {A B} (c : M A) (k : A -> M B) s a s' :
  c s = (Ret a, s') -> bind c k s = k a s'.
Proof. intros H. unfold bind. now rewrite H. Qed.

Lemma bind_Raise {A B} (c : M A) (k : A -> M B) s e s' :
  c s = (Raise e, s') -> bind c k s = (Raise e, s').
Proof. intros H. unfold bind. now rewrite H. Qed.

Lemma try_Ret {A} (c : M A) h s a s' :
  c s = (Ret a, s') -> try_except c h s = (Ret a, s').
Proof. intros H. unfold try_except. now rewrite H. Qed.

Lemma try_Raise {A} (c : M A) h s e s' :
  c s = (Raise e, s') -> try_except c h s = h e s'.
Proof. intros H. unfold try_except. now rewrite H. Qed.

Lemma returns_settles {A} (c : M A) : returns c -> settles c.
Proof.
  intros H s. destruct (H s) as (a & s' & E). rewrite E. discriminate.
Qed.

Lemma returns_ret {A} (a : A) : returns (ret a).
Proof. intros s. now exists a, s. Qed.

Lemma returns_log lvl text : returns (log lvl text).
Proof. intros s. eexists. eexists. reflexivity. Qed.

Lemma returns_now : returns now.
Proof. intros s. eexists. eexists. reflexivity. Qed.

Lemma returns_bind {A B} (c : M A) (k : A -> M B) :
  returns c -> (forall a, returns (k a)) -> returns (bind c k).
Proof.
  intros Hc Hk s. destruct (Hc s) as (a & s' & E).
  rewrite (bind_Ret _ _ _ _ _ E). apply Hk.
Qed.

Lemma settles_ret {A} (a : A) : settles (ret a).
Proof. intros s. discriminate. Qed.

Lemma settles_raise {A} e : settles (@raise A e).
Proof. intros s. discriminate. Qed.

Lemma settles_bind {A B} (c : M A) (k : A -> M B) :
  settles c -> (forall a, settles (k a)) -> settles (bind c k).
Proof.
  intros Hc Hk s. unfold bind. specialize (Hc s).
  destruct (c s) as [[a | e | ] s']; cbn in *.
  - apply Hk.
  - discriminate.
  - congruence.
Qed.

Lemma settles_external {A} e (reply : answer A) : settles (external e reply).
Proof.
  intros s. unfold external. destruct reply; cbn; discriminate.
Qed.

Lemma returns_try {A} (c : M A) (h : string -> M A) :
  settles c -> (forall e, returns (h e)) -> returns (try_except c h).
Proof.
  intros Hc Hh s. unfold try_except. specialize (Hc s).
  destruct (c s) as [[a | e | ] s']; cbn in *.
  - now exists a, s'.
  - apply Hh.
  - congruence.
Qed.

Lemma returns_if {A} (b : bool) (c1 c2 : M A) :
  returns c1 -> returns c2 -> returns (if b then c1 else c2).
Proof. now destruct b. Qed.

Lemma settles_if {A} (b : bool) (c1 c2 : M A) :
  settles c1 -> settles c2 -> settles (if b then c1 else c2).
Proof. now destruct b. Qed.

Create HintDb monad.

#[local] Hint Resolve returns_ret returns_log returns_now returns_bind
  returns_try returns_if settles_ret settles_raise settles_bind
  settles_external settles_if returns_settles : monad.

Ltac settle := repeat (intros; auto 6 with monad;
  first [ apply returns_bind | apply returns_try | apply settles_bind
        | apply returns_if | apply settles_if ]).

(** ** Dictionaries *)

Lemma keys_dict_set_in {V} k (v : V) d :
  In k (keys d) -> keys (dict_set k v d) = keys d.
Proof.
  induction d as [| [k' v'] d IH]; cbn; [tauto |].
  intros H. destruct (String.eqb_spec k k') as [-> | N]; cbn; [reflexivity |].
  f_equal. apply IH. destruct H; [congruence | assumption].
Qed.

Lemma keys_dict_set_new {V} k (v : V) d :
  ~ In k (keys d) -> keys (dict_set k v d) = (keys d ++ [k])%list.
Proof.
  induction d as [| [k' v'] d IH]; cbn; [reflexivity |].
  intros H. destruct (String.eqb_spec k k') as [-> | N]; cbn; [tauto |].
  f_equal. apply IH. tauto.
Qed.

Lemma dict_get_set_same {V} k (v : V) d : dict_get k (dict_set k v d) = Some v.
Proof.
  induction d as [| [k' v'] d IH]; cbn.
  - now rewrite String.eqb_refl.
  - destruct (String.eqb_spec k k') as [-> | N]; cbn.
    + now rewrite String.eqb_refl.
    + destruct (String.eqb_spec k k'); [contradiction | exact IH].
Qed.

Lemma dict_get_set_other {V} k k' (v : V) d :
  k <> k' -> dict_get k' (dict_set k v d) = dict_get k' d.
Proof.
  intros N. induction d as [| [k0 v0] d IH]; cbn.
  - destruct (String.eqb_spec k' k); [congruence | reflexivity].
  - destruct (String.eqb_spec k k0) as [-> | N0]; cbn.
    + destruct (String.eqb_spec k' k0); [congruence | reflexivity].
    + destruct (String.eqb_spec k' k0); [reflexivity | exact IH].
Qed.

Lemma dict_get_in_keys {V} k (d : dict V) :
  In k (keys d) <-> dict_get k d <> None.
Proof.
  induction d as [| [k' v'] d IH]; cbn; [tauto |].
  destruct (String.eqb_spec k k') as [-> | N].
  - split; [discriminate | tauto].
  - rewrite <- IH. split; [intros [E | H]; [congruence | exact H] | tauto].
Qed.

Lemma values_dict_set {V} k (v : V) d e :
  In e (values (dict_set k v d)) -> e = v \/ In e (values d).
Proof.
  induction d as [| [k' v'] d IH]; cbn.
  - intros [E | []]. now left.
  - destruct (String.eqb_spec k k') as [-> | N]; cbn.
    + intros [E | H]; [now left | right; now right].
    + intros [E | H]; [right; now left |].
      destruct (IH H); [now left | right; now right].
Qed.

(** ** The four checks always give a value *)

Import DataQualityCheck.

Lemma settles_format_hours h : settles (format_hours h).
Proof. destruct h; cbn; auto with monad. Qed.

Lemma settles_py_truediv a b : settles (py_truediv a b).
Proof. unfold py_truediv. destruct (b =? 0)%Z; auto with monad. Qed.

Lemma settles_completeness_pct a b : settles (completeness_pct a b).
Proof.
  unfold completeness_pct. apply settles_bind; intros;
    auto using settles_py_truediv with monad.
Qed.

#[local] Hint Resolve settles_format_hours settles_completeness_pct : monad.

Lemma check_data_freshness_returns w : returns (check_data_freshness w).
Proof.
  unfold check_data_freshness. settle.
  destruct a0; settle.
Qed.

Lemma check_data_completeness_returns w : returns (check_data_completeness w).
Proof.
  unfold check_data_completeness. settle.
  destruct a0; settle.
Qed.

Lemma check_data_consistency_returns w : returns (check_data_consistency w).
Proof. unfold check_data_consistency. settle. Qed.

Lemma record_counts_returns model rows results :
  returns (record_counts model rows results).
Proof.
  revert results. induction rows as [| c rows IH]; intros results; cbn.
  - auto with monad.
  - apply returns_bind; auto with monad.
Qed.

Lemma check_model_returns w model results :
  returns (check_model w model results).
Proof.
  unfold check_model. settle.
  intros rows. apply returns_settles, record_counts_returns.
Qed.

Lemma check_models_returns w models results :
  returns (check_models w models results).
Proof.
  revert results. induction models as [| m models IH]; intros results; cbn.
  - auto with monad.
  - apply returns_bind; auto using check_model_returns.
Qed.

Lemma check_dbt_models_returns w : returns (check_dbt_models w).
Proof.
  unfold check_dbt_models.
  apply returns_bind; [auto with monad | intros _].
  apply returns_bind; [apply check_models_returns | settle].
Qed.

Lemma registered_checks_return w :
  Forall (fun c => returns (snd c)) (registered_checks w).
Proof.
  unfold registered_checks. repeat constructor; cbn.
  - apply check_data_freshness_returns.
  - apply check_data_completeness_returns.
  - apply check_data_consistency_returns.
  - apply check_dbt_models_returns.
Qed.

(** ** The aggregator loop *)

Lemma run_check_Ret name f d s v s1 :
  f s = (Ret v, s1) ->
  run_check (name, f) d s =
  (Ret (dict_set name (mkEntry (if truthy v then Passed else Failed) None (clock s1)) d),
   tick s1).
Proof.
  intros E. unfold run_check, try_except, bind. rewrite E. reflexivity.
Qed.

Lemma run_check_Raise name f d s e s1 :
  f s = (Raise e, s1) ->
  run_check (name, f) d s =
  (Ret (dict_set name (mkEntry Error (Some e) (clock s1)) d), tick s1).
Proof.
  intros E. unfold run_check, try_except, bind. rewrite E. reflexivity.
Qed.


(** What one turn of the loop leaves: the entry of the check, written
    under its name, whatever the check did short of not finishing. *)
Lemma run_check_settled c d s :
  settles (snd c) ->
  exists st e s',
    run_check c d s = (Ret (dict_set (fst c) (mkEntry st e (clock s')) d), tick s')
    /\ snd (snd c s) = s'
    /\ verdict (fst (snd c s)) = Some st.
Proof.
  destruct c as [name f]. unfold fst, snd. intros H. specialize (H s).
  destruct (f s) as [[v | msg | ] s1] eqn:E; cbn in H; [| | congruence].
  - exists (if truthy v then Passed else Failed), None, s1.
    split; [exact (run_check_Ret name f d s v s1 E) | now split].
  - exists Error, (Some msg), s1.
    split; [exact (run_check_Raise name f d s msg s1 E) | now split].
Qed.

Lemma run_checks_cons c cs d s :
  run_checks (c :: cs) d s =
  match run_check c d s with
  | (Ret d1, s1) => run_checks cs d1 s1
  | (Raise e, s1) => (Raise e, s1)
  | (Unfinished, s1) => (Unfinished, s1)
  end.
Proof. reflexivity. Qed.

Lemma run_checks_app cs1 cs2 d s d1 s1 :
  run_checks cs1 d s = (Ret d1, s1) ->
  run_checks (cs1 ++ cs2) d s = run_checks cs2 d1 s1.
Proof.
  revert d s. induction cs1 as [| c cs1 IH]; intros d s.
  - cbn. unfold ret. now intros [= -> ->].
  - rewrite <- app_comm_cons, !run_checks_cons.
    destruct (run_check c d s) as [[d' | e | ] s']; try discriminate.
    apply IH.
Qed.

Lemma run_checks_settled cs :
  Forall (fun c => settles (snd c)) cs ->
  forall d s, exists d' s', run_checks cs d s = (Ret d', s').
Proof.
  induction 1 as [| c cs Hc _ IH]; intros d s.
  - now exists d, s.
  - destruct (run_check_settled c d s Hc) as (st & e & s' & E & _).
    rewrite run_checks_cons, E. apply IH.
Qed.

Lemma run_checks_keys cs :
  forall d s d' s',
    NoDup (keys d ++ check_names cs) ->
    run_checks cs d s = (Ret d', s') ->
    keys d' = (keys d ++ check_names cs)%list.
Proof.
  induction cs as [| [name f] cs IH]; intros d s d' s' ND.
  - cbn. unfold ret. intros [= -> _]. now rewrite app_nil_r.
  - rewrite run_checks_cons.
    destruct (run_check (name, f) d s) as [[d1 | e | ] s1] eqn:E; try discriminate.
    intros R. cbn in ND.
    assert (K : keys d1 = (keys d ++ [name])%list).
    { apply NoDup_remove_2 in ND.
      assert (~ In name (keys d)) by (intros ?; apply ND, in_or_app; now left).
      unfold run_check, try_except, bind in E.
      destruct (f s) as [[v | msg | ] s2]; cbn in E; inversion E; subst;
        now apply keys_dict_set_new. }
    assert (ND1 : NoDup (keys d1 ++ check_names cs)).
    { rewrite K, <- app_assoc. exact ND. }
    rewrite (IH d1 s1 d' s' ND1 R), K, <- app_assoc. reflexivity.
Qed.

Lemma run_checks_statuses cs (P : Status -> Prop) :
  (forall c s, In c cs -> exists st, verdict (fst (snd c s)) = Some st /\ P st) ->
  forall d s d' s',
    Forall (fun e => P (status e)) (values d) ->
    run_checks cs d s = (Ret d', s') ->
    Forall (fun e => P (status e)) (values d').
Proof.
  induction cs as [| [name f] cs IH]; intros HP d s d' s' Hd.
  - cbn. unfold ret. now intros [= <- _].
  - rewrite run_checks_cons.
    destruct (run_check (name, f) d s) as [[d1 | e | ] s1] eqn:E; try discriminate.
    apply IH; [intros; apply HP; now right |].
    destruct (HP (name, f) s (or_introl eq_refl)) as (st & V & Pst).
    cbn in V. unfold run_check, try_except, bind in E.
    destruct (f s) as [[v | msg | ] s2]; cbn in *; inversion E; subst;
      inversion V; subst; clear E V;
      apply Forall_forall; intros x Hx;
      apply values_dict_set in Hx; destruct Hx as [-> | Hx]; auto;
      rewrite Forall_forall in Hd; auto.
Qed.

(** ** The score *)

Lemma count_passed_bounds d :
  (0 <= count_passed d <= Z.of_nat (length d))%Z.
Proof.
  unfold count_passed, values. split; [lia |].
  apply inj_le. etransitivity; [apply filter_length_le |].
  now rewrite length_map.
Qed.

Lemma score_report_Ret w t0 d s :
  d <> [] ->
  score_report w t0 d s =
  (Ret (mkReport t0 (PROJECT_ID w) DATASET_NAME d
          (inject_Z (count_passed d) / inject_Z (Z.of_nat (length d)) * 100)
          (mkSummary (Z.of_nat (length d)) (count_passed d)
             (Z.of_nat (length d) - count_passed d)
             (inject_Z (count_passed d) / inject_Z (Z.of_nat (length d)) * 100))),
   s).
Proof.
  intros N. unfold score_report, py_truediv.
  destruct (Z.eqb_spec (Z.of_nat (length d)) 0) as [E | _].
  - destruct d; [congruence | cbn in E; lia].
  - reflexivity.
Qed.


(** The in-memory report over a list of checks that all settle. *)
Lemma assemble_report_with_settled w cs s :
  cs <> [] ->
  NoDup (check_names cs) ->
  Forall (fun c => settles (snd c)) cs ->
  exists d s',
    run_checks cs []
      (tick (mkState (clock s) (polls s)
               (Log INFO "Generando reporte de calidad..." :: trace s)))
    = (Ret d, s')
    /\ keys d = check_names cs
    /\ assemble_report_with w cs s =
       (Ret (mkReport (clock s) (PROJECT_ID w) DATASET_NAME d
               (inject_Z (count_passed d) / inject_Z (Z.of_nat (length d)) * 100)
               (mkSummary (Z.of_nat (length d)) (count_passed d)
                  (Z.of_nat (length d) - count_passed d)
                  (inject_Z (count_passed d) / inject_Z (Z.of_nat (length d)) * 100))),
        s').
Proof.
  intros NE ND HS.
  destruct (run_checks_settled cs HS []
              (tick (mkState (clock s) (polls s)
                 (Log INFO "Generando reporte de calidad..." :: trace s))))
    as (d & s' & R).
  exists d, s'. split; [exact R |].
  assert (K : keys d = check_names cs).
  { now apply (run_checks_keys cs [] _ d s' ND R). }
  split; [exact K |].
  unfold assemble_report_with, bind, log, emit, now. cbn.
  unfold tick in R. cbn in R. rewrite R.
  apply score_report_Ret.
  intros ->. cbn in K. destruct cs; [congruence | discriminate].
Qed.

Lemma registered_names w :
  check_names (registered_checks w) =
  ["data_freshness"; "data_completeness"; "data_consistency"; "dbt_models"].
Proof. reflexivity. Qed.

Lemma registered_NoDup w : NoDup (check_names (registered_checks w)).
Proof.
  rewrite registered_names.
  repeat constructor; cbn; intuition discriminate.
Qed.

Lemma registered_settle w :
  Forall (fun c => settles (snd c)) (registered_checks w).
Proof.
  eapply Forall_impl; [| apply registered_checks_return].
  intros c. apply returns_settles.
Qed.


Lemma returned_verdict (c : Check) s :
  returns (snd c) ->
  exists st, verdict (fst (snd c s)) = Some st /\ (st = Passed \/ st = Failed).
Proof.
  intros H. destruct (H s) as (v & s' & E). rewrite E. cbn.
  eexists. split; [reflexivity |]. destruct (truthy v); auto.
Qed.


(** ** Fault isolation in the loop *)

Lemma in_keys_dict_set {V} k k' (v : V) d :
  In k (keys (dict_set k' v d)) <-> k = k' \/ In k (keys d).
Proof.
  rewrite !dict_get_in_keys.
  destruct (string_dec k' k) as [-> | N].
  - rewrite dict_get_set_same. split; [now left | discriminate].
  - rewrite (dict_get_set_other k' k v d N). split; [now right |].
    intros [E | H]; [congruence | exact H].
Qed.

Lemma run_check_shape name f d s d1 s1 :
  run_check (name, f) d s = (Ret d1, s1) ->
  exists e, d1 = dict_set name e d.
Proof.
  unfold run_check, try_except, bind.
  destruct (f s) as [[v | msg | ] s2]; cbn; intros E; inversion E; eauto.
Qed.

Lemma run_checks_records cs :
  forall d s d' s',
    run_checks cs d s = (Ret d', s') ->
    (forall k, In k (keys d) -> In k (keys d'))
    /\ (forall c, In c cs -> In (fst c) (keys d'))
    /\ (forall k, ~ In k (check_names cs) -> dict_get k d' = dict_get k d).
Proof.
  induction cs as [| [name f] cs IH]; intros d s d' s'.
  - cbn. unfold ret. intros [= <- _]. repeat split; auto. intros c [].
  - rewrite run_checks_cons.
    destruct (run_check (name, f) d s) as [[d1 | e | ] s1] eqn:E; try discriminate.
    intros R. destruct (IH d1 s1 d' s' R) as (K & C & G).
    destruct (run_check_shape name f d s d1 s1 E) as (e & ->).
    repeat split.
    + intros k Hk. apply K, in_keys_dict_set. now right.
    + intros c [<- | Hc]; [| now apply C].
      apply K, in_keys_dict_set. now left.
    + intros k Hk. cbn in Hk. rewrite G by tauto.
      apply dict_get_set_other. tauto.
Qed.

(** C2. For every position k of a list of checks, an exception raised
    while check k is evaluated is caught by the aggregator: the loop
    records the error under the name of check k and goes on with the
    checks k+1..N from the state check k left, so that (when these
    settle) the loop ends normally and each of them has its result
    recorded in the report. *)
Theorem exception_does_not_stop_later_checks :
  forall pre name f post d s d1 s1 msg s2,
    run_checks pre d s = (Ret d1, s1) ->
    f s1 = (Raise msg, s2) ->
    Forall (fun c => settles (snd c)) post ->
    run_checks (pre ++ (name, f) :: post) d s =
    run_checks post
      (dict_set name (mkEntry Error (Some msg) (clock s2)) d1) (tick s2)
    /\ exists d' s',
         run_checks (pre ++ (name, f) :: post) d s = (Ret d', s')
         /\ (forall c, In c post -> exists e, dict_get (fst c) d' = Some e)
         /\ (~ In name (check_names post) ->
             dict_get name d' = Some (mkEntry Error (Some msg) (clock s2))).
Proof.
  intros pre name f post d s d1 s1 msg s2 Hpre Hf Hpost.
  assert (Step : run_checks (pre ++ (name, f) :: post) d s =
                 run_checks post
                   (dict_set name (mkEntry Error (Some msg) (clock s2)) d1)
                   (tick s2)).
  { rewrite (run_checks_app pre ((name, f) :: post) d s d1 s1 Hpre).
    rewrite run_checks_cons.
    now rewrite (run_check_Raise name f d1 s1 msg s2 Hf). }
  split; [exact Step |].
  destruct (run_checks_settled post Hpost
              (dict_set name (mkEntry Error (Some msg) (clock s2)) d1) (tick s2))
    as (d' & s' & R).
  exists d', s'. rewrite Step. split; [exact R |].
  destruct (run_checks_records post _ _ _ _ R) as (_ & C & G).
  split.
  - intros c Hc. specialize (C c Hc). apply dict_get_in_keys in C.
    destruct (dict_get (fst c) d'); [eauto | congruence].
  - intros N. rewrite (G name N). apply dict_get_set_same.
Qed.

Lemma exception_does_not_stop_later_checks_witness :
  exists d' s',
    run_checks ([("first", ret (Some true))]
                ++ ("second", raise "warehouse unreachable")
                :: [("third", ret (Some false)); ("fourth", ret (Some true))])
      [] initial_state = (Ret d', s')
    /\ (forall c, In c [("third", ret (Some false)); ("fourth", ret (Some true))] ->
        exists e, dict_get (fst c) d' = Some e)
    /\ (~ In "second"
          (check_names [("third", ret (Some false)); ("fourth", ret (Some true))]) ->
        dict_get "second" d'
        = Some (mkEntry Error (Some "warehouse unreachable") 1)).
Proof.
  apply (exception_does_not_stop_later_checks
           [("first", ret (Some true))] "second" (raise "warehouse unreachable")
           [("third", ret (Some false)); ("fourth", ret (Some true))]
           [] initial_state
           [("first", mkEntry Passed None 0)] (mkState 1 0 [])
           "warehouse unreachable" (mkState 1 0 [])).
  - reflexivity.
  - reflexivity.
  - repeat constructor; apply settles_ret.
Defined.

(** ** What the four checks leave in the report *)

Lemma registered_entries w s :
  exists r s' v1 t1 v2 t2 v3 t3 v4 t4 s1 s2 s3 s4,
    assemble_report w s = (Ret r, s')
    /\ fst (check_data_freshness w s1) = Ret v1
    /\ fst (check_data_completeness w s2) = Ret v2
    /\ fst (check_data_consistency w s3) = Ret v3
    /\ fst (check_dbt_models w s4) = Ret v4
    /\ checks r =
       [ ("data_freshness", mkEntry (status_of v1) None t1);
         ("data_completeness", mkEntry (status_of v2) None t2);
         ("data_consistency", mkEntry (status_of v3) None t3);
         ("dbt_models", mkEntry (status_of v4) None t4) ].
Proof.
  set (s1 := tick (mkState (clock s) (polls s)
                     (Log INFO "Generando reporte de calidad..." :: trace s))).
  destruct (check_data_freshness_returns w s1) as (v1 & s1' & E1).
  destruct (check_data_completeness_returns w (tick s1')) as (v2 & s2' & E2).
  destruct (check_data_consistency_returns w (tick s2')) as (v3 & s3' & E3).
  destruct (check_dbt_models_returns w (tick s3')) as (v4 & s4' & E4).
  assert (R : run_checks (registered_checks w) [] s1 =
              (Ret [ ("data_freshness", mkEntry (status_of v1) None (clock s1'));
                     ("data_completeness", mkEntry (status_of v2) None (clock s2'));
                     ("data_consistency", mkEntry (status_of v3) None (clock s3'));
                     ("dbt_models", mkEntry (status_of v4) None (clock s4')) ],
               tick s4')).
  { unfold registered_checks.
    rewrite run_checks_cons, (run_check_Ret _ _ _ _ _ _ E1).
    rewrite run_checks_cons, (run_check_Ret _ _ _ _ _ _ E2).
    rewrite run_checks_cons, (run_check_Ret _ _ _ _ _ _ E3).
    rewrite run_checks_cons, (run_check_Ret _ _ _ _ _ _ E4).
    reflexivity. }
  destruct (assemble_report_with_settled w (registered_checks w) s)
    as (d & s' & R0 & K & A);
    [discriminate | apply registered_NoDup | apply registered_settle |].
  fold s1 in R0. rewrite R in R0. inversion R0; subst d s'; clear R0.
  eexists. exists (tick s4'), v1, (clock s1'), v2, (clock s2'), v3, (clock s3'),
    v4, (clock s4'), s1, (tick s1'), (tick s2'), (tick s3').
  rewrite E1, E2, E3, E4. cbn [fst].
  split; [exact A | repeat split].
Qed.

(** C10. With the four built-in checks the 'error' branch of the
    aggregator is never taken: every check function catches what is
    raised during its evaluation and returns a value, so every recorded
    status is 'passed' or 'failed', no entry carries an error message,
    and overall_score is one of 0, 25, 50, 75, 100. *)
Theorem error_branch_unreachable : forall w s,
  Forall (fun c => returns (snd c)) (registered_checks w)
  /\ exists r s',
       assemble_report w s = (Ret r, s')
       /\ Forall (fun e => (status e = Passed \/ status e = Failed)
                           /\ error e = None)
            (values (checks r))
       /\ (overall_score r == 0 \/ overall_score r == 25
           \/ overall_score r == 50 \/ overall_score r == 75
           \/ overall_score r == 100)%Q.
Proof.
  intros w s. split; [apply registered_checks_return |].
  destruct (registered_entries w s)
    as (r & s' & v1 & t1 & v2 & t2 & v3 & t3 & v4 & t4 & s1 & s2 & s3 & s4
        & A & _ & _ & _ & _ & C).
  exists r, s'. split; [exact A |]. split.
  - rewrite C. cbn.
    repeat (apply Forall_cons;
            [split; [cbn; unfold status_of; destruct (truthy _); auto
                    | reflexivity] |]).
    apply Forall_nil.
  - destruct (assemble_report_with_settled w (registered_checks w) s)
      as (d & s0 & _ & K & A');
      [discriminate | apply registered_NoDup | apply registered_settle |].
    unfold assemble_report in A. rewrite A in A'. injection A' as -> _.
    cbn [overall_score checks] in *.
    assert (L : length d = 4%nat) by (rewrite C; reflexivity).
    pose proof (count_passed_bounds d) as B. rewrite L in B.
    assert (P : (count_passed d = 0 \/ count_passed d = 1 \/ count_passed d = 2
                 \/ count_passed d = 3 \/ count_passed d = 4)%Z) by lia.
    rewrite L.
    destruct P as [-> | [-> | [-> | [-> | ->]]]];
      [left | right; left | right; right; left
       | right; right; right; left | right; right; right; right];
      reflexivity.
Qed.

(** ** The value each check returns *)

Lemma check_data_freshness_value w s :
  fst (check_data_freshness w s) =
  Ret (match q_freshness w with
       | Fails _ => Some false
       | Ok [] => None
       | Ok (row :: _) =>
           match hours_since_update row with
           | None => Some false
           | Some h => Some (h <? 24)%Z
           end
       end).
Proof.
  unfold check_data_freshness, external, try_except, bind, log, emit. cbn.
  destruct (q_freshness w) as [[| row rest] | m]; cbn; try reflexivity.
  destruct (hours_since_update row) as [h |]; cbn; try reflexivity.
  destruct (h <? 24)%Z; reflexivity.
Qed.

Lemma check_data_completeness_value w s :
  fst (check_data_completeness w s) =
  Ret (match q_completeness w with
       | Fails _ => Some false
       | Ok [] => None
       | Ok (row :: _) =>
           if (total_records row =? 0)%Z then Some false
           else Some (Qlt_bool 95 (fraction (valid_timestamps row) (total_records row) * 100)
                      && Qlt_bool 95 (fraction (valid_filenames row) (total_records row) * 100))
       end).
Proof.
  unfold check_data_completeness, external, try_except, bind, log, emit. cbn.
  destruct (q_completeness w) as [[| row rest] | m]; cbn; try reflexivity.
  unfold completeness_pct, py_truediv, bind, fraction.
  destruct (total_records row =? 0)%Z; cbn; try reflexivity.
  match goal with |- context [if ?b then _ else _] => destruct b end; reflexivity.
Qed.

Lemma check_data_consistency_value w s :
  fst (check_data_consistency w s) =
  Ret (match q_consistency w with
       | Fails _ => Some false
       | Ok df =>
           if (length df =? 0)%nat then Some false
           else Some (np_lt (coefficient_variation df) (Fin 50))
       end).
Proof.
  unfold check_data_consistency, external, try_except, bind, log, emit. cbn.
  destruct (q_consistency w) as [df | m]; cbn; try reflexivity.
  destruct (length df =? 0)%nat; cbn; try reflexivity.
  destruct (np_lt (coefficient_variation df) (Fin 50)); reflexivity.
Qed.

Lemma record_counts_value model rows results s :
  fst (record_counts model rows results s) =
  Ret (fold_left (fun r c => dict_set model c r) rows results).
Proof.
  revert results s. induction rows as [| c rows IH]; intros results s.
  - reflexivity.
  - cbn [record_counts fold_left]. unfold bind, log, emit. apply IH.
Qed.

Lemma check_models_value w models results s :
  fst (check_models w models results s) = Ret (model_results w models results).
Proof.
  revert results s. induction models as [| m models IH]; intros results s.
  - reflexivity.
  - cbn [check_models]. unfold model_results. cbn [fold_left].
    fold (model_results w models).
    unfold bind. unfold check_model at 1, external, try_except, bind, emit.
    destruct (q_model_count w m) as [rows | msg]; cbn.
    + pose proof (record_counts_value m rows results
                    (mkState (clock s) (polls s) (Query m :: trace s))) as RC.
      destruct (record_counts m rows results _) as [[r | e | ] s1];
        cbn in RC; inversion RC; subst. apply IH.
    + apply IH.
Qed.

Lemma check_dbt_models_value w s :
  fst (check_dbt_models w s) =
  Ret (Some (forallb (fun count => (0 <? count)%Z)
               (values (model_results w models_to_check [])))).
Proof.
  unfold check_dbt_models. unfold bind at 1. unfold log at 1, emit.
  unfold bind at 1.
  pose proof (check_models_value w models_to_check []
                (mkState (clock s) (polls s)
                   (Log INFO "Verificando modelos dbt..." :: trace s))) as CM.
  destruct (check_models w models_to_check [] _) as [[r | e | ] s1];
    cbn in CM; inversion CM; subst.
  destruct (forallb _ _); reflexivity.
Qed.

(** ** The dictionary of row counts of [check_dbt_models] *)

Lemma dict_set_twice {V} k (v1 v2 : V) d :
  dict_set k v2 (dict_set k v1 d) = dict_set k v2 d.
Proof.
  induction d as [| [k' v'] d IH]; cbn.
  - now rewrite String.eqb_refl.
  - destruct (String.eqb_spec k k') as [-> | N]; cbn.
    + now rewrite String.eqb_refl.
    + destruct (String.eqb_spec k k'); [contradiction | now rewrite IH].
Qed.

Lemma values_dict_set_new {V} k (v : V) d :
  ~ In k (keys d) -> values (dict_set k v d) = (values d ++ [v])%list.
Proof.
  induction d as [| [k' v'] d IH]; cbn; [reflexivity |].
  intros H. destruct (String.eqb_spec k k') as [-> | N]; cbn; [tauto |].
  f_equal. apply IH. tauto.
Qed.

Lemma record_all_rows model rows results :
  fold_left (fun r c => dict_set model c r) rows results =
  match rows with
  | [] => results
  | _ => dict_set model (last rows 0%Z) results
  end.
Proof.
  revert results. induction rows as [| c rows IH]; intros results; [reflexivity |].
  cbn [fold_left]. rewrite IH. destruct rows as [| c' rows]; [reflexivity |].
  now rewrite dict_set_twice.
Qed.

Lemma model_step w model results :
  match q_model_count w model with
  | Ok rows => fold_left (fun r c => dict_set model c r) rows results
  | Fails _ => dict_set model 0%Z results
  end =
  if has_entry w model then dict_set model (reported_count w model) results
  else results.
Proof.
  unfold has_entry, reported_count.
  destruct (q_model_count w model) as [rows | m]; [| reflexivity].
  rewrite record_all_rows. now destruct rows.
Qed.

Lemma model_results_cons w m models results :
  model_results w (m :: models) results =
  model_results w models
    (if has_entry w m then dict_set m (reported_count w m) results else results).
Proof. rewrite <- model_step. reflexivity. Qed.

Lemma model_results_entries w models :
  forall results,
    NoDup (keys results ++ models) ->
    keys (model_results w models results)
    = (keys results ++ filter (has_entry w) models)%list
    /\ values (model_results w models results)
       = (values results ++ map (reported_count w) (filter (has_entry w) models))%list.
Proof.
  induction models as [| m models IH]; intros results ND.
  - cbn. now rewrite !app_nil_r.
  - rewrite model_results_cons. cbn [filter].
    assert (Hm : ~ In m (keys results)).
    { apply NoDup_remove_2 in ND. intros H. apply ND, in_or_app. now left. }
    destruct (has_entry w m).
    + destruct (IH (dict_set m (reported_count w m) results)) as (K & V).
      { rewrite keys_dict_set_new by exact Hm. now rewrite <- app_assoc. }
      rewrite K, V, keys_dict_set_new, values_dict_set_new by exact Hm.
      cbn [map]. now rewrite <- !app_assoc.
    + apply IH. now apply NoDup_remove_1 in ND.
Qed.

Lemma models_to_check_NoDup : NoDup models_to_check.
Proof. repeat constructor; cbn; intuition discriminate. Qed.

Lemma forallb_over_map {A B} (f : B -> bool) (g : A -> B) l :
  forallb f (map g l) = forallb (fun x => f (g x)) l.
Proof. induction l as [| x l IH]; cbn; [reflexivity | now rewrite IH]. Qed.

Lemma check_dbt_models_decision w s :
  fst (check_dbt_models w s) =
  Ret (Some (forallb (fun model => (0 <? reported_count w model)%Z)
               (filter (has_entry w) models_to_check))).
Proof.
  rewrite check_dbt_models_value.
  destruct (model_results_entries w models_to_check []) as (_ & V).
  { exact models_to_check_NoDup. }
  rewrite V. cbn [values map app]. now rewrite forallb_over_map.
Qed.

(** C9. The check of the dbt models yields Passed exactly when each of
    the three named downstream tables reports a strictly positive row
    count; a table whose query fails counts as a table with zero rows,
    which makes the check yield Failed, never Error.  (A count query
    answers with at least one row.) *)
Theorem dbt_models_pass_iff_all_tables_have_rows : forall w s,
  (forall model, In model models_to_check -> q_model_count w model <> Ok []) ->
  models_to_check
  = ["stg_cdo_challenge"; "int_daily_metrics"; "mart_business_insights"]
  /\ exists v,
       fst (check_dbt_models w s) = Ret v
       /\ (status_of v = Passed <->
           forall model, In model models_to_check ->
                         (0 < reported_count w model)%Z)
       /\ (status_of v = Passed \/ status_of v = Failed)
       /\ (forall model msg,
             In model models_to_check ->
             q_model_count w model = Fails msg ->
             reported_count w model = 0%Z /\ status_of v = Failed).
Proof.
  intros w s Rows. split; [reflexivity |].
  eexists. split; [apply check_dbt_models_decision |].
  assert (All : filter (has_entry w) models_to_check = models_to_check).
  { apply forallb_filter_id, forallb_forall. intros m Hm.
    unfold has_entry. specialize (Rows m Hm).
    destruct (q_model_count w m) as [[| c rows] | msg]; congruence. }
  rewrite All.
  assert (Iff : status_of
                  (Some (forallb (fun model => (0 <? reported_count w model)%Z)
                           models_to_check)) = Passed <->
                forall model, In model models_to_check ->
                              (0 < reported_count w model)%Z).
  { unfold status_of, truthy.
    destruct (forallb _ models_to_check) eqn:F.
    - split; [intros _ | reflexivity].
      rewrite forallb_forall in F. intros m Hm. now apply Z.ltb_lt, F.
    - split; [discriminate |]. intros H. exfalso.
      assert (T : forallb (fun model => (0 <? reported_count w model)%Z)
                    models_to_check = true).
      { apply forallb_forall. intros m Hm. now apply Z.ltb_lt, H. }
      congruence. }
  split; [exact Iff |]. split.
  - unfold status_of. destruct (truthy _); auto.
  - intros model msg Hm Hq.
    assert (Z0 : reported_count w model = 0%Z).
    { unfold reported_count. now rewrite Hq. }
    split; [exact Z0 |].
    unfold status_of in *. destruct (truthy _); [| reflexivity].
    exfalso. destruct Iff as [I _]. specialize (I eq_refl model Hm). lia.
Qed.

Lemma dbt_models_pass_iff_all_tables_have_rows_witness :
  exists v,
    fst (check_dbt_models healthy initial_state) = Ret v
    /\ (status_of v = Passed <->
        forall model, In model models_to_check ->
                      (0 < reported_count healthy model)%Z)
    /\ (status_of v = Passed \/ status_of v = Failed)
    /\ (forall model msg,
          In model models_to_check ->
          q_model_count healthy model = Fails msg ->
          reported_count healthy model = 0%Z /\ status_of v = Failed).
Proof.
  apply (dbt_models_pass_iff_all_tables_have_rows healthy initial_state).
  intros model _. discriminate.
Defined.

(** ** Exceptions inside the checks *)




(** ** Completeness *)





(** ** Saving the report *)

Lemma log_summary_returns r : returns (log_summary r).
Proof. unfold log_summary. settle. Qed.

Lemma generate_after_assembly w s r s1 :
  assemble_report w s = (Ret r, s1) ->
  generate_quality_report w s =
  match fs_makedirs w, fs_write w with
  | Ok _, Ok _ =>
      (Ret r,
       snd (log_summary r
              (mkState (S (clock s1)) (polls s1)
                 (Log INFO "Reporte de calidad guardado"
                  :: WriteJson (clock s1) r :: Makedirs "reports" :: trace s1))))
  | Ok _, Fails msg =>
      (Raise msg,
       mkState (S (clock s1)) (polls s1)
         (WriteJson (clock s1) r :: Makedirs "reports" :: trace s1))
  | Fails msg, _ =>
      (Raise msg, mkState (clock s1) (polls s1) (Makedirs "reports" :: trace s1))
  end.
Proof.
  intros A.
  unfold generate_quality_report, generate_quality_report_with.
  unfold assemble_report in A. rewrite (bind_Ret _ _ _ _ _ A).
  unfold save_report, external, bind, emit, now, log. cbn -[log_summary].
  destruct (fs_makedirs w) as [[] | m1]; cbn -[log_summary]; [| reflexivity].
  destruct (fs_write w) as [[] | m2]; cbn -[log_summary]; [| reflexivity].
  match goal with |- context [log_summary r ?st] =>
    destruct (log_summary_returns r st) as ([] & s2 & E); rewrite E end.
  reflexivity.
Qed.

Lemma generate_raises_when_saving_fails w s msg :
  fs_makedirs w = Fails msg \/ (fs_makedirs w = Ok tt /\ fs_write w = Fails msg) ->
  fst (generate_quality_report w s) = Raise msg.
Proof.
  intros H.
  destruct (registered_entries w s) as (r & s1 & A).
  destruct A as (_ & _ & _ & _ & _ & _ & _ & _ & _ & _ & _ & _ & A & _).
  rewrite (generate_after_assembly w s r s1 A).
  destruct H as [-> | [-> ->]]; reflexivity.
Qed.

(** C4, shown false as stated: on a full disk the report is assembled,
    the write raises, and the caller receives the exception instead of
    the report. *)
Lemma write_failure_returns_no_report :
  fs_write disk_full = Fails "No space left on device"
  /\ (exists r, fst (assemble_report disk_full initial_state) = Ret r)
  /\ fst (generate_quality_report disk_full initial_state)
     = Raise "No space left on device".
Proof.
  split; [reflexivity |]. split.
  - destruct (registered_entries disk_full initial_state) as (r & s1 & A).
    exists r.
    destruct A as (_ & _ & _ & _ & _ & _ & _ & _ & _ & _ & _ & _ & A & _).
    now rewrite A.
  - vm_compute. reflexivity.
Qed.

(** C4, as the code has it. generate_quality_report returns the
    assembled in-memory report to its caller when creating the directory
    and writing the JSON file both succeed, the file holding that very
    report.  When one of them fails the exception is not caught: it
    reaches the caller in place of the report, and main, which logs it
    and raises it again, ends with a non-zero exit status. *)
Theorem report_returned_only_when_saved : forall w s,
  exists r s1,
    assemble_report w s = (Ret r, s1)
    /\ (fs_makedirs w = Ok tt -> fs_write w = Ok tt ->
        exists s', generate_quality_report w s = (Ret r, s')
                   /\ In (WriteJson (clock s1) r) (trace s'))
    /\ (forall msg,
          fs_makedirs w = Fails msg
          \/ (fs_makedirs w = Ok tt /\ fs_write w = Fails msg) ->
          fst (generate_quality_report w s) = Raise msg
          /\ (forall s0, client_init w = Ok tt ->
                exit_code (fst (DataQualityCheck.main w s0)) = Some 1%Z)).
Proof.
  intros w s.
  destruct (registered_entries w s) as (r & s1 & A).
  destruct A as (_ & _ & _ & _ & _ & _ & _ & _ & _ & _ & _ & _ & A & _).
  exists r, s1. split; [exact A |]. split.
  - intros Hm Hw. rewrite (generate_after_assembly w s r s1 A), Hm, Hw.
    eexists. split; [reflexivity |].
    match goal with |- context [log_summary r ?st] =>
      assert (T : exists l, trace (snd (log_summary r st)) = (l ++ trace st)%list) end.
    { unfold log_summary, bind, log, emit. cbn.
      destruct (Qle_bool 80 (overall_score r)); cbn;
        [| destruct (Qle_bool 60 (overall_score r)); cbn];
        match goal with |- exists l, ?a :: ?b :: ?c :: ?d :: ?t = _ =>
          now exists [a; b; c; d] end. }
    destruct T as (l & ->). apply in_or_app. right. cbn. tauto.
  - intros msg H. split.
    + now apply generate_raises_when_saving_fails.
    + intros s0 Hc. unfold DataQualityCheck.main.
      unfold bind at 1, log at 1, emit at 1. unfold try_except.
      unfold bind at 1. unfold DataQualityChecker, try_except, external, bind,
        emit, log. rewrite Hc. cbn.
      match goal with |- context [generate_quality_report w ?st] =>
        pose proof (generate_raises_when_saving_fails w st msg H) as G;
        destruct (generate_quality_report w st) as [[r0 | e | ] s2] end;
        cbn in G; inversion G; subst. reflexivity.
Qed.

(* ================================================================== *)
(** * The loader *)

(** ** The polling loop *)

Lemma wait_for_job_terminal job n :
  forall fuel s,
    (n < fuel)%nat ->
    (forall k, (k < n)%nat -> LoadData.done_at job (polls s + k) = Ok false) ->
    LoadData.done_at job (polls s + n) = Ok true ->
    LoadData.wait_for_job fuel job s = (Ret tt, polled n s).
Proof.
  induction n as [| n IH]; intros fuel s Hf Hk Hn;
    (destruct fuel as [| fuel]; [lia |]);
    cbn [LoadData.wait_for_job polled];
    unfold LoadData.job_done, external, bind, emit; cbn.
  - rewrite Nat.add_0_r in Hn. rewrite Hn. reflexivity.
  - pose proof (Hk 0%nat ltac:(lia)) as H0. rewrite Nat.add_0_r in H0.
    rewrite H0. cbn.
    apply IH; cbn.
    + lia.
    + intros k Hlt. replace (S (polls s + k)) with (polls s + S k)%nat by lia.
      apply Hk. lia.
    + now replace (S (polls s + n)) with (polls s + S n)%nat by lia.
Qed.

Lemma polled_trace n :
  forall s e,
    In e (trace (polled n s)) ->
    e = JobDone \/ e = Sleep 30 \/ e = Log INFO "Estado" \/ In e (trace s).
Proof.
  induction n as [| n IH]; intros s e; cbn.
  - intros [<- | H]; auto.
  - intros H. apply IH in H. cbn in H. intuition auto.
Qed.


(** ** The load step *)

Lemma load_with_terminal_job fuel c table_id job_config s job n :
  LoadData.load_table_from_uri c = Ok job ->
  (n < fuel)%nat ->
  (forall k, (k < n)%nat -> LoadData.done_at job (polls s + k) = Ok false) ->
  LoadData.done_at job (polls s + n) = Ok true ->
  LoadData.load_data_from_gcs fuel c table_id job_config s =
  match LoadData.job_errors job, LoadData.get_table_loaded c with
  | _ :: _, _ =>
      (Ret false, push [Log ERROR "Errores en la carga"] (load_polled n s))
  | [], Ok _ =>
      (Ret true,
       push [ Log INFO "Tamano de tabla"; Log INFO "Registros cargados";
              Log INFO "Carga completada exitosamente!"; GetTable ]
         (load_polled n s))
  | [], Fails _ =>
      (Ret false,
       push [Log ERROR "Error en la carga de datos"; GetTable] (load_polled n s))
  end.
Proof.
  intros Hj Hf Hk Hn.
  unfold LoadData.load_data_from_gcs, try_except.
  unfold bind at 1, log at 1, emit at 1.
  unfold bind at 1, log at 1, emit at 1.
  unfold bind at 1, external at 1, bind at 1, emit at 1. rewrite Hj.
  unfold ret at 1. unfold bind at 1, log at 1, emit at 1.
  unfold bind at 1. cbn [clock polls trace].
  pose proof (wait_for_job_terminal job n fuel
                (push [ Log INFO "Monitoreando progreso de la carga..."; LoadSubmit;
                        Log INFO "Este proceso puede tomar varias horas";
                        Log INFO "Iniciando carga de datos" ] s) Hf Hk Hn) as W.
  fold (load_polled n s) in W. unfold push in W. cbn [app] in W.
  rewrite W.
  destruct (LoadData.job_errors job) as [| e es].
  - unfold external, bind, emit, log.
    destruct (LoadData.get_table_loaded c) as [t | msg]; reflexivity.
  - reflexivity.
Qed.

Lemma load_never_raises fuel c table_id job_config s msg :
  fst (LoadData.load_data_from_gcs fuel c table_id job_config s) <> Raise msg.
Proof.
  unfold LoadData.load_data_from_gcs, try_except.
  match goal with |- context [let (_, _) := ?body s in _] =>
    destruct (body s) as [[b | e | ] s1] end; discriminate.
Qed.

(** ** Traces only grow *)

Lemma grows_ret {A} (a : A) : grows (ret a).
Proof. intros s e H. exact H. Qed.

Lemma grows_raise {A} msg : grows (@raise A msg).
Proof. intros s e H. exact H. Qed.

Lemma grows_emit ev : grows (emit ev).
Proof. intros s e H. cbn. now right. Qed.

Lemma grows_log lvl text : grows (log lvl text).
Proof. apply grows_emit. Qed.

Lemma grows_bind {A B} (c : M A) (k : A -> M B) :
  grows c -> (forall a, grows (k a)) -> grows (bind c k).
Proof.
  intros Hc Hk s e H. unfold bind. specialize (Hc s e H).
  destruct (c s) as [[a | msg | ] s']; cbn in *; auto.
  now apply Hk.
Qed.

Lemma grows_try {A} (c : M A) (h : string -> M A) :
  grows c -> (forall msg, grows (h msg)) -> grows (try_except c h).
Proof.
  intros Hc Hh s e H. unfold try_except. specialize (Hc s e H).
  destruct (c s) as [[a | msg | ] s']; cbn in *; auto.
  now apply Hh.
Qed.

Lemma grows_external {A} ev (reply : answer A) : grows (external ev reply).
Proof.
  unfold external. apply grows_bind; [apply grows_emit |].
  intros _. destruct reply; [apply grows_ret | apply grows_raise].
Qed.

Lemma grows_log_rows rows : grows (LoadData.log_rows rows).
Proof.
  induction rows as [| r rows IH]; cbn; [apply grows_ret |].
  repeat (apply grows_bind; [apply grows_log | intros _]). exact IH.
Qed.

Lemma grows_log_each {A} lvl text (xs : list A) :
  grows (LoadData.log_each lvl text xs).
Proof.
  induction xs as [| x xs IH]; cbn; [apply grows_ret |].
  apply grows_bind; [apply grows_log | intros _; exact IH].
Qed.

Lemma returns_log_rows rows : returns (LoadData.log_rows rows).
Proof.
  induction rows as [| r rows IH]; cbn; [apply returns_ret |].
  repeat (apply returns_bind; [apply returns_log | intros _]). exact IH.
Qed.

Lemma returns_log_each {A} lvl text (xs : list A) :
  returns (LoadData.log_each lvl text xs).
Proof.
  induction xs as [| x xs IH]; cbn; [apply returns_ret |].
  apply returns_bind; [apply returns_log | intros _; exact IH].
Qed.

(** ** The validation step *)

Lemma validate_data_quality_runs c table_id s :
  exists b s',
    LoadData.validate_data_quality c table_id s = (Ret b, s')
    /\ validation_ran s'
    /\ (forall e, In e (trace s) -> In e (trace s')).
Proof.
  assert (R : returns (LoadData.validate_data_quality c table_id)).
  { unfold LoadData.validate_data_quality. settle.
    - apply returns_settles, returns_log_rows.
    - apply returns_settles, returns_log_each. }
  destruct (R s) as (b & s' & E). exists b, s'. split; [exact E |].
  assert (G : forall s0 e, In e (trace s0) ->
                In e (trace (snd (LoadData.validate_data_quality c table_id s0)))).
  { unfold LoadData.validate_data_quality.
    apply grows_try.
    - repeat first [ apply grows_log | apply grows_external | apply grows_ret
                   | apply grows_log_rows | apply grows_log_each
                   | apply grows_bind; [| intros ?] ].
    - intros msg. apply grows_bind; [apply grows_log | intros _; apply grows_ret]. }
  split.
  - unfold validation_ran.
    unfold LoadData.validate_data_quality, try_except in E.
    unfold bind at 1, log at 1, emit at 1 in E.
    unfold bind at 1, external at 1, bind at 1, emit at 1 in E.
    cbn [clock polls trace] in E.
    destruct (LoadData.q_validation c) as [rows | msg].
    + unfold ret at 1 in E.
      match type of E with
      | context [bind ?c0 ?k0 ?st] =>
          assert (G0 : grows (bind c0 k0));
          [ repeat first [ apply grows_log | apply grows_external | apply grows_ret
                         | apply grows_log_rows | apply grows_log_each
                         | apply grows_bind; [| intros ?] ]
          | specialize (G0 st (Query "validation") (or_introl eq_refl));
            destruct (bind c0 k0 st) as [[b0 | m0 | ] s1] ]
      end; cbn in G0.
      * inversion E; subst. exact G0.
      * cbn in E. inversion E; subst. cbn. now right.
      * discriminate.
    + cbn in E. inversion E; subst. cbn. auto.
  - intros e He. specialize (G s e He). now rewrite E in G.
Qed.

(** ** The driver *)

Lemma main_after_setup fuel c s :
  LoadData.new_client c = Ok tt ->
  LoadData.create_dataset c = Ok tt ->
  LoadData.main fuel c s =
  match LoadData.load_data_from_gcs fuel c (table_id_of c) the_job_config
          (before_load s) with
  | (Ret true, s1) =>
      (Ret tt,
       push [Log INFO "Proceso de carga completado exitosamente!"]
         (snd (LoadData.validate_data_quality c (table_id_of c) s1)))
  | (Ret false, s1) => (Ret tt, push [Log ERROR "Fallo en el proceso de carga"] s1)
  | (Raise msg, s1) => (Raise msg, push [Log ERROR "Error critico"] s1)
  | (Unfinished, s1) => (Unfinished, s1)
  end.
Proof.
  intros Hc Hd.
  unfold LoadData.main, LoadData.create_bigquery_client,
    LoadData.create_dataset_and_table.
  unfold bind at 1, log at 1, emit at 1. unfold try_except at 1.
  unfold bind at 1. unfold try_except at 1, external at 1, bind at 1 2, emit at 1.
  rewrite Hc. unfold ret at 1, bind at 1, log at 1, emit at 1, ret at 1.
  unfold bind at 1. unfold try_except at 1, external at 1, bind at 1 2, emit at 1.
  rewrite Hd. unfold ret at 1.
  unfold bind at 1, log at 1, emit at 1. unfold bind at 1, log at 1, emit at 1.
  unfold ret at 1. cbn [clock polls trace].
  unfold bind at 1.
  change (LoadData.load_data_from_gcs fuel c _ _ _)
    with (LoadData.load_data_from_gcs fuel c (table_id_of c) the_job_config
            (before_load s)).
  destruct (LoadData.load_data_from_gcs fuel c (table_id_of c) the_job_config
              (before_load s)) as [[[|] | msg | ] s1]; try reflexivity.
  unfold bind. fold (table_id_of c).
  destruct (validate_data_quality_runs c (table_id_of c) s1) as (b & s2 & E & _).
  rewrite E. reflexivity.
Qed.

Lemma main_without_client c msg fuel s :
  LoadData.new_client c = Fails msg ->
  LoadData.main fuel c s =
  (Raise msg,
   push [ Log ERROR "Error critico"; Log ERROR "Error creando cliente BigQuery";
          ClientInit; Log INFO "Iniciando proceso de carga de datos..." ] s).
Proof.
  intros H.
  unfold LoadData.main, LoadData.create_bigquery_client, try_except, external,
    bind, log, emit, raise. rewrite H. reflexivity.
Qed.

Lemma main_without_dataset c msg fuel s :
  LoadData.new_client c = Ok tt ->
  LoadData.create_dataset c = Fails msg ->
  LoadData.main fuel c s =
  (Raise msg,
   push [ Log ERROR "Error critico"; Log ERROR "Error creando dataset/tabla";
          CreateDataset; Log INFO "Cliente BigQuery creado"; ClientInit;
          Log INFO "Iniciando proceso de carga de datos..." ] s).
Proof.
  intros Hc H.
  unfold LoadData.main, LoadData.create_bigquery_client,
    LoadData.create_dataset_and_table, try_except, external,
    bind, log, emit, raise. rewrite Hc. cbn. rewrite H. reflexivity.
Qed.

Lemma wait_for_job_failing job n msg :
  forall fuel s,
    (n < fuel)%nat ->
    (forall k, (k < n)%nat -> LoadData.done_at job (polls s + k) = Ok false) ->
    LoadData.done_at job (polls s + n) = Fails msg ->
    exists s', LoadData.wait_for_job fuel job s = (Raise msg, s').
Proof.
  induction n as [| n IH]; intros fuel s Hf Hk Hn;
    (destruct fuel as [| fuel]; [lia |]);
    cbn [LoadData.wait_for_job];
    unfold LoadData.job_done, external, bind, emit; cbn.
  - rewrite Nat.add_0_r in Hn. rewrite Hn. cbn. eauto.
  - pose proof (Hk 0%nat ltac:(lia)) as H0. rewrite Nat.add_0_r in H0.
    rewrite H0. cbn.
    apply IH; cbn.
    + lia.
    + intros k Hlt. replace (S (polls s + k)) with (polls s + S k)%nat by lia.
      apply Hk. lia.
    + now replace (S (polls s + n)) with (polls s + S n)%nat by lia.
Qed.

Lemma load_refused fuel c table_id job_config s msg :
  LoadData.load_table_from_uri c = Fails msg ->
  fst (LoadData.load_data_from_gcs fuel c table_id job_config s) = Ret false.
Proof.
  intros H.
  unfold LoadData.load_data_from_gcs, try_except, external, bind, log, emit, raise.
  rewrite H. reflexivity.
Qed.

Lemma load_polling_fails fuel c table_id job_config s job n msg :
  LoadData.load_table_from_uri c = Ok job ->
  (n < fuel)%nat ->
  (forall k, (k < n)%nat -> LoadData.done_at job (polls s + k) = Ok false) ->
  LoadData.done_at job (polls s + n) = Fails msg ->
  fst (LoadData.load_data_from_gcs fuel c table_id job_config s) = Ret false.
Proof.
  intros Hj Hf Hk Hn.
  unfold LoadData.load_data_from_gcs, try_except.
  unfold bind at 1, log at 1, emit at 1.
  unfold bind at 1, log at 1, emit at 1.
  unfold bind at 1, external at 1, bind at 1, emit at 1. rewrite Hj.
  unfold ret at 1. unfold bind at 1, log at 1, emit at 1.
  unfold bind at 1. cbn [clock polls trace].
  destruct (wait_for_job_failing job n msg fuel
              (push [ Log INFO "Monitoreando progreso de la carga..."; LoadSubmit;
                      Log INFO "Este proceso puede tomar varias horas";
                      Log INFO "Iniciando carga de datos" ] s) Hf Hk Hn) as (s' & W).
  unfold push in W. cbn [app] in W. rewrite W. reflexivity.
Qed.

(** C5, shown false as stated: a refused submission, and a job that
    ends with errors, both leave main returning normally, exit code 0. *)
Lemma failed_load_exits_with_zero :
  LoadData.load_table_from_uri refused_submission = Fails "403 Access Denied"
  /\ exit_code (fst (LoadData.main 10 refused_submission initial_state)) = Some 0%Z
  /\ LoadData.job_errors (job_with ["Too many bad records"]) <> []
  /\ exit_code (fst (LoadData.main 10 rejected_load initial_state)) = Some 0%Z.
Proof.
  split; [reflexivity |]. split; [vm_compute; reflexivity |].
  split; [discriminate | vm_compute; reflexivity].
Qed.

(** C5, as the code has it. In the loader a failure while the client or
    the dataset is created is logged and raised again, and main ends with
    a non-zero exit status.  A failure of the load step (an exception
    while the job is submitted or polled, or a job that ends with errors)
    is logged and becomes the return value False: main then logs the
    failure and returns normally, so the exit status is 0; once client
    and dataset exist main never ends with an exception. *)
Theorem loader_failures_and_exit_status : forall fuel c s,
  (forall msg,
     LoadData.new_client c = Fails msg
     \/ (LoadData.new_client c = Ok tt /\ LoadData.create_dataset c = Fails msg) ->
     fst (LoadData.main fuel c s) = Raise msg
     /\ exit_code (fst (LoadData.main fuel c s)) = Some 1%Z
     /\ logged ERROR "Error critico" (snd (LoadData.main fuel c s)))
  /\ (LoadData.new_client c = Ok tt -> LoadData.create_dataset c = Ok tt ->
      let load := LoadData.load_data_from_gcs fuel c (table_id_of c)
                    the_job_config (before_load s) in
      (forall msg, fst (LoadData.main fuel c s) <> Raise msg)
      /\ (fst load = Ret false ->
          exit_code (fst (LoadData.main fuel c s)) = Some 0%Z
          /\ logged ERROR "Fallo en el proceso de carga"
               (snd (LoadData.main fuel c s)))
      /\ (forall msg, LoadData.load_table_from_uri c = Fails msg ->
          fst load = Ret false)
      /\ (forall job n msg,
            LoadData.load_table_from_uri c = Ok job ->
            (n < fuel)%nat ->
            (forall k, (k < n)%nat ->
                       LoadData.done_at job (polls s + k) = Ok false) ->
            LoadData.done_at job (polls s + n) = Fails msg ->
            fst load = Ret false)
      /\ (forall job n,
            LoadData.load_table_from_uri c = Ok job ->
            (n < fuel)%nat ->
            (forall k, (k < n)%nat ->
                       LoadData.done_at job (polls s + k) = Ok false) ->
            LoadData.done_at job (polls s + n) = Ok true ->
            LoadData.job_errors job <> [] ->
            fst load = Ret false)).
Proof.
  intros fuel c s. split.
  - intros msg [H | [Hc H]].
    + rewrite (main_without_client c msg fuel s H).
      repeat split. unfold logged. cbn. auto.
    + rewrite (main_without_dataset c msg fuel s Hc H).
      repeat split. unfold logged. cbn. auto.
  - intros Hc Hd load.
    pose proof (main_after_setup fuel c s Hc Hd) as Main. fold load in Main.
    pose proof (load_never_raises fuel c (table_id_of c) the_job_config
                  (before_load s)) as NR. fold load in NR.
    repeat split.
    + intros msg. rewrite Main.
      destruct load as [[[|] | e | ] s1]; cbn in *; try discriminate.
      intros _. now apply (NR e).
    + rewrite Main. destruct load as [[[|] | e | ] s1]; cbn in *;
        try discriminate; reflexivity.
    + rewrite Main. destruct load as [[[|] | e | ] s1]; cbn in *;
        try discriminate. unfold logged. cbn. auto.
    + intros msg H.
      exact (load_refused fuel c (table_id_of c) the_job_config (before_load s) msg H).
    + intros job n msg Hj Hf Hk Hn.
      exact (load_polling_fails fuel c (table_id_of c) the_job_config
               (before_load s) job n msg Hj Hf Hk Hn).
    + intros job n Hj Hf Hk Hn He.
      unfold load.
      rewrite (load_with_terminal_job fuel c (table_id_of c) the_job_config
                 (before_load s) job n Hj Hf Hk Hn).
      destruct (LoadData.job_errors job); [congruence | reflexivity].
Qed.

Lemma job_with_terminal errors : terminal_after (job_with errors) 2.
Proof.
  split; [reflexivity |].
  intros k Hk. destruct k as [| [| k]]; [reflexivity | reflexivity | lia].
Defined.

Lemma no_validation_while_loading n e :
  In e (trace (load_polled n (before_load initial_state))) ->
  e <> Query "validation".
Proof.
  intros H. unfold load_polled in H. apply polled_trace in H.
  cbn in H. intuition (subst; discriminate).
Qed.

(** C8, shown false as stated: the job ends with an empty error list,
    the lookup of the table that follows raises, the load step returns
    False and the validation step does not run. *)
Lemma clean_job_without_validation :
  LoadData.load_table_from_uri lookup_failure = Ok (job_with [])
  /\ terminal_after (job_with []) 2
  /\ LoadData.job_errors (job_with []) = []
  /\ fst (LoadData.load_data_from_gcs 10 lookup_failure
            (table_id_of lookup_failure) the_job_config
            (before_load initial_state)) = Ret false
  /\ fst (LoadData.main 10 lookup_failure initial_state) = Ret tt
  /\ ~ validation_ran (snd (LoadData.main 10 lookup_failure initial_state)).
Proof.
  split; [reflexivity |]. split; [apply job_with_terminal |].
  split; [reflexivity |]. split; [vm_compute; reflexivity |].
  split; [vm_compute; reflexivity |].
  unfold validation_ran. vm_compute. intuition discriminate.
Qed.

(** C8, as the code has it. In the loader pipeline, when the load job
    reaches its terminal state with a non-empty error list, the load step
    returns False and main logs the failure and stops before the
    validation step.  When the error list is empty and the lookup of the
    loaded table succeeds, the load step returns True and the validation
    step runs; when that lookup raises, the load step returns False and
    the validation step does not run. *)
Theorem load_errors_halt_before_validation : forall fuel c job n,
  LoadData.new_client c = Ok tt ->
  LoadData.create_dataset c = Ok tt ->
  LoadData.load_table_from_uri c = Ok job ->
  terminal_after job n ->
  (n < fuel)%nat ->
  let load := LoadData.load_data_from_gcs fuel c (table_id_of c) the_job_config
                (before_load initial_state) in
  let run := LoadData.main fuel c initial_state in
  (LoadData.job_errors job <> [] ->
   fst load = Ret false
   /\ fst run = Ret tt
   /\ ~ validation_ran (snd run)
   /\ logged ERROR "Errores en la carga" (snd run)
   /\ logged ERROR "Fallo en el proceso de carga" (snd run))
  /\ (LoadData.job_errors job = [] ->
      (forall table, LoadData.get_table_loaded c = Ok table ->
         fst load = Ret true /\ fst run = Ret tt /\ validation_ran (snd run))
      /\ (forall msg, LoadData.get_table_loaded c = Fails msg ->
            fst load = Ret false /\ ~ validation_ran (snd run))).
Proof.
  intros fuel c job n Hc Hd Hj [Hn Hk] Hf load run.
  pose proof (main_after_setup fuel c initial_state Hc Hd) as Main.
  pose proof (load_with_terminal_job fuel c (table_id_of c) the_job_config
                (before_load initial_state) job n Hj Hf Hk Hn) as Load.
  fold load in Main, Load. fold run in Main.
  split.
  - intros He.
    destruct (LoadData.job_errors job) as [| e es]; [congruence |].
    rewrite Load in Main. rewrite Main, Load. cbn [fst snd].
    repeat split.
    + unfold validation_ran. cbn. intros [H | [H | H]]; try discriminate.
      now apply (no_validation_while_loading n _ H).
    + unfold logged. cbn. auto.
    + unfold logged. cbn. auto.
  - intros He. rewrite He in Load. split.
    + intros table Ht. rewrite Ht in Load. rewrite Load in Main.
      rewrite Main, Load. cbn [fst snd]. repeat split.
      match goal with |- context [LoadData.validate_data_quality c ?t ?st] =>
        destruct (validate_data_quality_runs c t st) as (b & s2 & E & V & _);
        rewrite E end.
      unfold validation_ran in *. cbn. now right.
    + intros msg Ht. rewrite Ht in Load. rewrite Load in Main.
      rewrite Main, Load. cbn [fst snd]. split; [reflexivity |].
      unfold validation_ran. cbn. intros [H | [H | [H | H]]]; try discriminate.
      now apply (no_validation_while_loading n _ H).
Qed.

Lemma load_errors_halt_before_validation_witness :
  (LoadData.job_errors (job_with ["Too many bad records"]) <> [] ->
   fst (LoadData.load_data_from_gcs 10 rejected_load (table_id_of rejected_load)
          the_job_config (before_load initial_state)) = Ret false
   /\ fst (LoadData.main 10 rejected_load initial_state) = Ret tt
   /\ ~ validation_ran (snd (LoadData.main 10 rejected_load initial_state))
   /\ logged ERROR "Errores en la carga"
        (snd (LoadData.main 10 rejected_load initial_state))
   /\ logged ERROR "Fallo en el proceso de carga"
        (snd (LoadData.main 10 rejected_load initial_state)))
  /\ (LoadData.job_errors (job_with ["Too many bad records"]) = [] ->
      (forall table, LoadData.get_table_loaded rejected_load = Ok table ->
         fst (LoadData.load_data_from_gcs 10 rejected_load
                (table_id_of rejected_load) the_job_config
                (before_load initial_state)) = Ret true
         /\ fst (LoadData.main 10 rejected_load initial_state) = Ret tt
         /\ validation_ran (snd (LoadData.main 10 rejected_load initial_state)))
      /\ (forall msg, LoadData.get_table_loaded rejected_load = Fails msg ->
            fst (LoadData.load_data_from_gcs 10 rejected_load
                   (table_id_of rejected_load) the_job_config
                   (before_load initial_state)) = Ret false
            /\ ~ validation_ran
                 (snd (LoadData.main 10 rejected_load initial_state)))).
Proof.
  apply (load_errors_halt_before_validation 10 rejected_load
           (job_with ["Too many bad records"]) 2).
  - reflexivity.
  - reflexivity.
  - reflexivity.
  - apply job_with_terminal.
  - lia.
Defined.

(* ================================================================== *)
(** * Consistency *)

Local Open Scope R_scope.

Lemma R_neg_true x : R_neg x = true <-> x < 0.
Proof. unfold R_neg. destruct (Rlt_dec x 0); split; auto; discriminate. Qed.

Lemma R_zero_true x : R_zero x = true <-> x = 0.
Proof. unfold R_zero. destruct (Req_dec_T x 0); split; auto; discriminate. Qed.

Lemma R_neg_false x : 0 <= x -> R_neg x = false.
Proof. intros H. unfold R_neg. destruct (Rlt_dec x 0); [lra | reflexivity]. Qed.

Lemma R_zero_false x : x <> 0 -> R_zero x = false.
Proof. intros H. unfold R_zero. destruct (Req_dec_T x 0); [contradiction | reflexivity]. Qed.

Lemma series_mean_real xs :
  xs <> [] -> series_mean xs = Fin (sample_mean xs).
Proof. destruct xs; [congruence | reflexivity]. Qed.

Lemma series_std_real xs :
  (2 <= length xs)%nat -> series_std xs = Fin (sample_std xs).
Proof.
  destruct xs as [| x [| y xs]]; cbn [length]; try lia. reflexivity.
Qed.


Lemma sample_std_nonneg xs : 0 <= sample_std xs.
Proof. apply sqrt_pos. Qed.

(** The comparison the check makes, in terms of the real coefficient
    of variation. *)
Lemma cv_comparison df :
  df <> [] ->
  np_lt (coefficient_variation df) (Fin 50) = true <->
  cv_defined (column df) /\ cv_percent (column df) < 50.
Proof.
  intros NE. unfold coefficient_variation, cv_defined. fold (column df).
  assert (NEc : column df <> []) by (destruct df; [congruence | discriminate]).
  rewrite (series_mean_real _ NEc).
  destruct (le_lt_dec 2 (length (column df))) as [L | L].
  - rewrite (series_std_real _ L). cbn [np_div].
    destruct (Req_dec_T (sample_mean (column df)) 0) as [Z0 | NZ].
    + rewrite (proj2 (R_zero_true _) Z0).
      split; [| intros [[_ H] _]; contradiction].
      destruct (R_zero (sample_std (column df))); cbn; [discriminate |].
      rewrite (R_neg_false _ (sample_std_nonneg _)). cbn.
      rewrite R_zero_false by lra. rewrite R_neg_false by lra. discriminate.
    + rewrite (R_zero_false _ NZ). cbn. unfold cv_percent.
      destruct (Rlt_dec _ 50) as [H | H]; split; auto; try discriminate.
      intros [_ H']. contradiction.
  - assert (E : exists x, column df = [x]).
    { destruct (column df) as [| x [| y l]]; cbn in L; try lia;
        [congruence | now exists x]. }
    destruct E as (x & E). rewrite E. cbn.
    split; [discriminate | intros [[H _] _]; lia].
Qed.


(** ** The comparison decided on integers *)

Lemma Rsum_squares_nonneg (f : Z -> R) xs :
  0 <= Rsum (map (fun x => f x * f x) xs).
Proof.
  unfold Rsum. induction xs as [| x xs IH]; cbn; [lra |].
  pose proof (Rle_0_sqr (f x)) as Sq. unfold Rsqr in Sq. lra.
Qed.

Lemma scaled_deviations_real n t xs :
  IZR n <> 0 ->
  Rsum (map (fun x => (IZR x - IZR t / IZR n) * (IZR x - IZR t / IZR n)) xs)
  * (IZR n * IZR n)
  = IZR (scaled_deviations n t xs).
Proof.
  intros N. unfold Rsum, scaled_deviations.
  induction xs as [| x xs IH]; cbn; [ring |].
  rewrite plus_IZR, mult_IZR, minus_IZR, mult_IZR, <- IH. field. exact N.
Qed.

Lemma scaled_quotient_lt q m : 0 < m -> (q / m * 100 < 50 <-> q < m / 2).
Proof.
  intros M. replace q with (q / m * m) at 2 by (field; lra).
  split; intros H; nra.
Qed.

Lemma sqrt_below v c : 0 <= v -> 0 < c -> (sqrt v < c <-> v < c * c).
Proof.
  intros V C. split; intros H.
  - rewrite <- (sqrt_sqrt v V). pose proof (sqrt_pos v). nra.
  - rewrite <- (sqrt_square c) by lra. apply sqrt_lt_1_alt. lra.
Qed.

Lemma positive_quotient x d : 0 < d -> (0 < x / d <-> 0 < x).
Proof.
  intros D. split; intros H.
  - replace x with (x / d * d) by (field; lra). nra.
  - now apply Rdiv_lt_0_compat.
Qed.

Lemma cv_below_50_real xs :
  cv_below_50 xs = true <-> cv_defined xs /\ cv_percent xs < 50.
Proof.
  unfold cv_below_50, cv_defined, cv_percent, sample_std, sample_mean.
  rewrite INR_IZR_INZ.
  set (n := Z.of_nat (length xs)). set (t := Zsum xs).
  rewrite andb_true_iff, orb_true_iff, andb_true_iff, Z.leb_le, !Z.ltb_lt.
  destruct (Z.le_gt_cases 2 n) as [L | L]; [| split; intros [H _]; lia].
  assert (Rn : 2 <= IZR n) by now apply IZR_le.
  assert (Nn : IZR n <> 0) by lra.
  pose proof (scaled_deviations_real n t xs Nn) as D.
  pose proof (Rsum_squares_nonneg (fun x => IZR x - IZR t / IZR n) xs) as P.
  set (sigma2 := Rsum (map (fun x => (IZR x - IZR t / IZR n)
                                      * (IZR x - IZR t / IZR n)) xs)) in *.
  assert (V : 0 <= sigma2 / (IZR n - 1)).
  { apply Rmult_le_pos; [exact P |]. left. apply Rinv_0_lt_compat. lra. }
  assert (Key : 0 < IZR t ->
                (sqrt (sigma2 / (IZR n - 1)) / (IZR t / IZR n) * 100 < 50 <->
                 (4 * scaled_deviations n t xs < (n - 1) * t * t)%Z)).
  { intros PS.
    assert (M : 0 < IZR t / IZR n) by (apply Rdiv_lt_0_compat; lra).
    rewrite (scaled_quotient_lt _ _ M).
    rewrite (sqrt_below _ _ V) by lra.
    assert (E : IZR t / IZR n / 2 * (IZR t / IZR n / 2) - sigma2 / (IZR n - 1)
                = ((IZR n - 1) * IZR t * IZR t - 4 * (sigma2 * (IZR n * IZR n)))
                  / (4 * (IZR n * IZR n) * (IZR n - 1))).
    { field. lra. }
    rewrite D in E.
    assert (Den : 0 < 4 * (IZR n * IZR n) * (IZR n - 1)) by nra.
    pose proof (positive_quotient
                  ((IZR n - 1) * IZR t * IZR t
                   - 4 * IZR (scaled_deviations n t xs)) _ Den) as Pq.
    rewrite <- E in Pq.
    split; intros H.
    - apply lt_IZR. rewrite !mult_IZR, minus_IZR.
      assert (0 < (IZR n - 1) * IZR t * IZR t
                  - 4 * IZR (scaled_deviations n t xs)) by (apply Pq; lra).
      lra.
    - apply IZR_lt in H. rewrite !mult_IZR, minus_IZR in H.
      assert (0 < IZR t / IZR n / 2 * (IZR t / IZR n / 2)
                  - sigma2 / (IZR n - 1)) by (apply Pq; lra).
      lra. }
  split.
  - intros [_ [Neg | [Pos H]]].
    + assert (NS : IZR t < 0) by now apply (IZR_lt t 0).
      assert (M : IZR t / IZR n < 0).
      { pose proof (Rinv_0_lt_compat (IZR n) ltac:(lra)) as In.
        unfold Rdiv. nra. }
      split; [split; [lia | lra] |].
      pose proof (sqrt_pos (sigma2 / (IZR n - 1))) as SP.
      assert (I : / (IZR t / IZR n) < 0) by now apply Rinv_lt_0_compat.
      unfold Rdiv at 1. nra.
    + assert (PS : 0 < IZR t) by now apply (IZR_lt 0 t).
      assert (M : 0 < IZR t / IZR n) by (apply Rdiv_lt_0_compat; lra).
      split; [split; [lia | lra] |]. now apply Key.
  - intros [[_ NZ] H]. split; [exact L |].
    destruct (Z.lt_trichotomy t 0) as [Neg | [Z0 | Pos]].
    + now left.
    + exfalso. apply NZ. rewrite Z0. unfold Rdiv. ring.
    + right. split; [lia |]. apply Key; [now apply (IZR_lt 0 t) | exact H].
Qed.

(** The value the check returns, computed on integers. *)
Lemma check_data_consistency_decided w s df :
  q_consistency w = Ok df ->
  fst (check_data_consistency w s) = Ret (Some (cv_below_50 (column df))).
Proof.
  intros E. rewrite check_data_consistency_value, E.
  destruct df as [| row df]; [reflexivity |].
  cbn [length Nat.eqb]. do 2 f_equal.
  apply eq_true_iff_eq.
  rewrite cv_below_50_real. apply cv_comparison. discriminate.
Qed.

Example steady_series_passes :
  cv_below_50 [100; 110; 90; 105; 95]%Z = true.
Proof. reflexivity. Qed.

Example erratic_series_fails :
  cv_below_50 [10; 200; 5; 400]%Z = false.
Proof. reflexivity. Qed.

Example single_day_fails : cv_below_50 [120]%Z = false.
Proof. reflexivity. Qed.

Example steady_window_is_consistent w s :
  q_consistency w = Ok (daily [100; 110; 90; 105; 95]%Z) ->
  fst (check_data_consistency w s) = Ret (Some true).
Proof. intros E. now rewrite (check_data_consistency_decided w s _ E). Qed.

(* ================================================================== *)
(** * Runs of the scenarios *)

Local Close Scope R_scope.

Example healthy_report_statuses :
  match fst (assemble_report healthy initial_state) with
  | Ret r =>
      map (fun e => (fst e, status (snd e))) (checks r)
      = [ ("data_freshness", Passed); ("data_completeness", Passed);
          ("data_consistency", Failed); ("dbt_models", Passed) ]
      /\ Qeq_bool (overall_score r) 75 = true
  | _ => False
  end.
Proof. vm_compute. split; reflexivity. Qed.

Example healthy_report_is_saved :
  exists r,
    fst (generate_quality_report healthy initial_state) = Ret r
    /\ fst (assemble_report healthy initial_state) = Ret r.
Proof. eexists. split; vm_compute; reflexivity. Qed.

Example good_load_is_validated :
  fst (LoadData.main 10 good_cloud initial_state) = Ret tt
  /\ validation_ran (snd (LoadData.main 10 good_cloud initial_state)).
Proof.
  split; [vm_compute; reflexivity |].
  unfold validation_ran. vm_compute. tauto.
Qed.

Example no_credentials_ends_with_an_error :
  exit_code (fst (LoadData.main 10 no_credentials initial_state)) = Some 1%Z.
Proof. vm_compute. reflexivity. Qed.

Example slow_job_is_still_polled :
  fst (LoadData.main 2 good_cloud initial_state) = Unfinished.
Proof. vm_compute. reflexivity. Qed.

(** The percentages of the completeness examples and the scores of the
    report, evaluated on binary64 floats: they agree with the rationals. *)
Example completeness_examples_in_binary64 :
  PrimFloat.ltb 95 (binary64_pct 96 100) = true
  /\ PrimFloat.ltb 95 (binary64_pct 94 100) = false
  /\ PrimFloat.ltb 95 (binary64_pct 95 100) = false.
Proof. repeat split; vm_compute; reflexivity. Qed.

Example scores_in_binary64 :
  map (fun passed => binary64_pct passed 4) [0; 1; 2; 3; 4]%float
  = [0; 25; 50; 75; 100]%float.
Proof. vm_compute. reflexivity. Qed.

(* ================================================================== *)
(** * Further properties of the code *)

(** ** Freshness *)

(** X1. The freshness check passes exactly when the first row of the
    answer carries a number of hours since the last update that is
    strictly below 24 (24 itself fails).  A row whose hours are NULL (a
    table without partitions) makes the check return False, and an
    answer without rows makes it return None, recorded as failed. *)
Theorem freshness_passes_iff_updated_within_24_hours : forall w s,
  exists v,
    fst (check_data_freshness w s) = Ret v
    /\ (status_of v = Passed <->
        exists row rest h,
          q_freshness w = Ok (row :: rest)
          /\ hours_since_update row = Some h
          /\ (h < 24)%Z)
    /\ (forall row rest,
          q_freshness w = Ok (row :: rest) ->
          hours_since_update row = None -> v = Some false)
    /\ (q_freshness w = Ok [] -> v = None /\ status_of v = Failed)
    /\ (forall msg, q_freshness w = Fails msg -> v = Some false).
Proof.
  intros w s. eexists. split; [apply check_data_freshness_value |].
  destruct (q_freshness w) as [[| row rest] | msg].
  - repeat split; try discriminate.
    intros (row & rest & h & E & _). discriminate.
  - destruct (hours_since_update row) as [h |] eqn:H.
    + repeat split; try discriminate.
      * unfold status_of, truthy. destruct (Z.ltb_spec h 24); [| discriminate].
        intros _. exists row, rest, h. repeat split; assumption.
      * intros (row' & rest' & h' & E & H' & L).
        inversion E; subst row' rest'. rewrite H in H'. inversion H'; subst h'.
        unfold status_of, truthy. destruct (Z.ltb_spec h 24); [reflexivity | lia].
      * intros row' rest' E H'. inversion E; subst row' rest'. congruence.
    + repeat split; try discriminate.
      intros (row' & rest' & h' & E & H' & _).
      inversion E; subst row' rest'. congruence.
  - repeat split; try discriminate.
    intros (row & rest & h & E & _). discriminate.
Qed.

(** ** The tier of the summary *)





(** ** Completeness at the edges *)

(** X3. The completeness check reads the first row only and tests two
    of its three counts: two answers whose first rows agree on the total,
    on the non-null timestamps and on the non-null file names give the
    same result, whatever the non-null load times and the other rows. *)
Theorem completeness_ignores_load_times :
  forall w w' s s' row row' rest rest',
    q_completeness w = Ok (row :: rest) ->
    q_completeness w' = Ok (row' :: rest') ->
    total_records row = total_records row' ->
    valid_timestamps row = valid_timestamps row' ->
    valid_filenames row = valid_filenames row' ->
    fst (check_data_completeness w s) = fst (check_data_completeness w' s').
Proof.
  intros w w' s s' row row' rest rest' E E' Ht Hv Hf.
  rewrite !check_data_completeness_value, E, E', Ht, Hv, Hf. reflexivity.
Qed.

Lemma completeness_ignores_load_times_witness :
  fst (check_data_completeness healthy initial_state)
  = fst (check_data_completeness no_load_times initial_state).
Proof.
  apply (completeness_ignores_load_times healthy no_load_times
           initial_state initial_state
           (mkCompletenessRow 100 96 96 96) (mkCompletenessRow 100 96 96 0)
           [] []); reflexivity.
Defined.

(** X4. On a table without records the percentages cannot be computed:
    the division by zero is caught by the check, which logs the error
    (not the threshold warning) and returns False. *)
Theorem completeness_of_an_empty_table : forall w s row rest,
  q_completeness w = Ok (row :: rest) ->
  total_records row = 0%Z ->
  check_data_completeness w s =
  (Ret (Some false),
   push [ Log ERROR "Error verificando completitud"; Query "data_completeness";
          Log INFO "Verificando completitud de los datos..." ] s).
Proof.
  intros w s row rest E Z0.
  unfold check_data_completeness, external, try_except, bind, log, emit. cbn.
  rewrite E. cbn. unfold completeness_pct, py_truediv, bind. rewrite Z0.
  reflexivity.
Qed.

Lemma completeness_of_an_empty_table_witness :
  check_data_completeness empty_table initial_state =
  (Ret (Some false),
   push [ Log ERROR "Error verificando completitud"; Query "data_completeness";
          Log INFO "Verificando completitud de los datos..." ] initial_state).
Proof.
  apply (completeness_of_an_empty_table empty_table initial_state
           (mkCompletenessRow 0 0 0 0) []); reflexivity.
Defined.

(** ** The exit status of the checker *)

Lemma quality_main_after_init w s :
  client_init w = Ok tt ->
  DataQualityCheck.main w s =
  match generate_quality_report w
          (push [ Log INFO "Cliente BigQuery inicializado"; ClientInit;
                  Log INFO "Iniciando verificacion de calidad de datos..." ] s) with
  | (Ret _, s1) => (Ret tt, push [Log INFO "Verificacion de calidad completada"] s1)
  | (Raise msg, s1) => (Raise msg, push [Log ERROR "Error critico"] s1)
  | (Unfinished, s1) => (Unfinished, s1)
  end.
Proof.
  intros Hc.
  unfold DataQualityCheck.main.
  unfold bind at 1, log at 1, emit at 1. unfold try_except at 1.
  unfold bind at 1. unfold DataQualityChecker at 1.
  unfold try_except at 1, bind at 1, external at 1, bind at 1, emit at 1.
  rewrite Hc. unfold ret at 1, log at 1, emit at 1.
  cbn [clock polls trace]. unfold bind at 1.
  change (mkState (clock s) (polls s)
            (Log INFO "Cliente BigQuery inicializado" :: ClientInit
             :: Log INFO "Iniciando verificacion de calidad de datos..." :: trace s))
    with (push [ Log INFO "Cliente BigQuery inicializado"; ClientInit;
                 Log INFO "Iniciando verificacion de calidad de datos..." ] s).
  destruct (generate_quality_report w _) as [[r | msg | ] s1]; reflexivity.
Qed.

(** X5. The exit status of the quality checker does not depend on what
    the checks find: main ends normally (exit status 0) exactly when the
    client is created, the directory of the reports exists or is made and
    the report is written; every other run ends with an exception (exit
    status 1).  When the client cannot be created no query is sent and
    nothing is written. *)
Theorem checker_exit_status : forall w s,
  (exit_code (fst (DataQualityCheck.main w s)) = Some 0%Z <->
   client_init w = Ok tt /\ fs_makedirs w = Ok tt /\ fs_write w = Ok tt)
  /\ (exit_code (fst (DataQualityCheck.main w s)) = Some 0%Z
      \/ exit_code (fst (DataQualityCheck.main w s)) = Some 1%Z)
  /\ (forall msg,
        client_init w = Fails msg ->
        DataQualityCheck.main w s =
        (Raise msg,
         push [ Log ERROR "Error critico"; Log ERROR "Error inicializando BigQuery";
                ClientInit;
                Log INFO "Iniciando verificacion de calidad de datos..." ] s)).
Proof.
  intros w s.
  destruct (client_init w) as [[] | msg0] eqn:Hc.
  - rewrite (quality_main_after_init w s Hc).
    set (s0 := push _ s).
    destruct (registered_entries w s0) as (r & s1 & A).
    destruct A as (_ & _ & _ & _ & _ & _ & _ & _ & _ & _ & _ & _ & A & _).
    rewrite (generate_after_assembly w s0 r s1 A).
    destruct (fs_makedirs w) as [[] | m1]; [destruct (fs_write w) as [[] | m2] |];
      cbn; (split; [| split]); try (intros; discriminate); auto;
      split; intros H; try discriminate; try tauto;
      destruct H as (_ & H1 & H2); discriminate.
  - assert (M : DataQualityCheck.main w s =
                (Raise msg0,
                 push [ Log ERROR "Error critico";
                        Log ERROR "Error inicializando BigQuery"; ClientInit;
                        Log INFO "Iniciando verificacion de calidad de datos..." ] s)).
    { unfold DataQualityCheck.main, DataQualityChecker, try_except, external,
        bind, log, emit, raise. rewrite Hc. reflexivity. }
    rewrite M. cbn. split; [| split].
    + split; [discriminate | intros (H & _); discriminate].
    + now right.
    + intros msg H. now inversion H.
Qed.

(** X6. When the directory of the reports cannot be made, the run stops
    there: the report has been assembled, no file is written, nothing
    more is logged, and the exception of os.makedirs reaches the caller. *)
Theorem no_write_without_directory : forall w s msg,
  fs_makedirs w = Fails msg ->
  generate_quality_report w s =
  (Raise msg, push [Makedirs "reports"] (snd (assemble_report w s))).
Proof.
  intros w s msg H.
  destruct (registered_entries w s) as (r & s1 & A).
  destruct A as (_ & _ & _ & _ & _ & _ & _ & _ & _ & _ & _ & _ & A & _).
  rewrite (generate_after_assembly w s r s1 A), H, A. reflexivity.
Qed.

Lemma no_write_without_directory_witness :
  generate_quality_report read_only_disk initial_state =
  (Raise "Read-only file system",
   push [Makedirs "reports"] (snd (assemble_report read_only_disk initial_state))).
Proof.
  apply (no_write_without_directory read_only_disk initial_state). reflexivity.
Defined.

(** ** The queries of a run *)

Lemma freshness_queries w s :
  queries_of (trace (snd (check_data_freshness w s)))
  = (queries_of (trace s) ++ ["data_freshness"])%list.
Proof.
  unfold check_data_freshness, external, try_except, bind, log, emit. cbn.
  destruct (q_freshness w) as [[| row rest] | msg]; cbn; try reflexivity.
  destruct (hours_since_update row) as [h |]; cbn; try reflexivity.
  destruct (h <? 24)%Z; reflexivity.
Qed.

Lemma completeness_queries w s :
  queries_of (trace (snd (check_data_completeness w s)))
  = (queries_of (trace s) ++ ["data_completeness"])%list.
Proof.
  unfold check_data_completeness, external, try_except, bind, log, emit. cbn.
  destruct (q_completeness w) as [[| row rest] | msg]; cbn; try reflexivity.
  unfold completeness_pct, py_truediv, bind.
  destruct (total_records row =? 0)%Z; cbn; try reflexivity.
  match goal with |- context [if ?b then _ else _] => destruct b end; reflexivity.
Qed.

Lemma consistency_queries w s :
  queries_of (trace (snd (check_data_consistency w s)))
  = (queries_of (trace s) ++ ["data_consistency"])%list.
Proof.
  unfold check_data_consistency, external, try_except, bind, log, emit. cbn.
  destruct (q_consistency w) as [df | msg]; cbn; try reflexivity.
  destruct (length df =? 0)%nat; cbn; try reflexivity.
  destruct (np_lt (coefficient_variation df) (Fin 50)); reflexivity.
Qed.

Lemma record_counts_queries model rows :
  forall results s,
    queries_of (trace (snd (record_counts model rows results s)))
    = queries_of (trace s).
Proof.
  induction rows as [| c rows IH]; intros results s; [reflexivity |].
  cbn [record_counts]. unfold bind, log, emit. rewrite IH. reflexivity.
Qed.

Lemma check_model_queries w model results s :
  queries_of (trace (snd (check_model w model results s)))
  = (queries_of (trace s) ++ [model])%list.
Proof.
  unfold check_model, external, try_except, bind at 1 2, emit.
  destruct (q_model_count w model) as [rows | msg]; cbn -[record_counts].
  - pose proof (record_counts_queries model rows results
                  (mkState (clock s) (polls s) (Query model :: trace s))) as Q.
    destruct (record_counts_returns model rows results
                (mkState (clock s) (polls s) (Query model :: trace s)))
      as (r & s1 & E).
    unfold ret at 1. rewrite E in *. exact Q.
  - reflexivity.
Qed.

Lemma check_models_queries w models :
  forall results s,
    queries_of (trace (snd (check_models w models results s)))
    = (queries_of (trace s) ++ models)%list.
Proof.
  induction models as [| m models IH]; intros results s.
  - cbn. now rewrite app_nil_r.
  - cbn [check_models]. unfold bind.
    pose proof (check_model_queries w m results s) as Q.
    destruct (check_model_returns w m results s) as (r & s1 & E).
    rewrite E in *. cbn [snd] in Q. rewrite IH, Q, <- app_assoc. reflexivity.
Qed.

Lemma dbt_models_queries w s :
  queries_of (trace (snd (check_dbt_models w s)))
  = (queries_of (trace s) ++ models_to_check)%list.
Proof.
  unfold check_dbt_models. unfold bind at 1, log at 1, emit at 1.
  unfold bind at 1.
  pose proof (check_models_queries w models_to_check []
                (mkState (clock s) (polls s)
                   (Log INFO "Verificando modelos dbt..." :: trace s))) as Q.
  destruct (check_models_returns w models_to_check []
              (mkState (clock s) (polls s)
                 (Log INFO "Verificando modelos dbt..." :: trace s)))
    as (r & s1 & E).
  rewrite E in *. cbn [snd] in Q. cbn [trace queries_of] in Q.
  destruct (forallb _ _); cbn; exact Q.
Qed.

Lemma run_check_queries name f d s qs :
  returns f ->
  (forall s0, queries_of (trace (snd (f s0)))
              = (queries_of (trace s0) ++ qs)%list) ->
  exists d' s',
    run_check (name, f) d s = (Ret d', s')
    /\ queries_of (trace s') = (queries_of (trace s) ++ qs)%list.
Proof.
  intros R Q. destruct (R s) as (v & s1 & E).
  eexists. eexists. split; [exact (run_check_Ret name f d s v s1 E) |].
  specialize (Q s). rewrite E in Q. exact Q.
Qed.

(** X7. Whatever the warehouse answers, assembling the report sends it
    exactly six queries, always in the same order: freshness,
    completeness, consistency, then one count for each of the three dbt
    tables.  A query that fails does not keep the later ones from being
    sent. *)
Theorem report_sends_six_queries : forall w s,
  queries_of (trace (snd (assemble_report w s)))
  = (queries_of (trace s)
     ++ [ "data_freshness"; "data_completeness"; "data_consistency";
          "stg_cdo_challenge"; "int_daily_metrics"; "mart_business_insights" ])%list.
Proof.
  intros w s.
  destruct (assemble_report_with_settled w (registered_checks w) s)
    as (d & s' & R & _ & A);
    [discriminate | apply registered_NoDup | apply registered_settle |].
  unfold assemble_report. rewrite A. cbn [snd].
  revert R. set (s0 := tick _).
  assert (Q0 : queries_of (trace s0) = queries_of (trace s)) by reflexivity.
  unfold registered_checks.
  destruct (run_check_queries "data_freshness" (check_data_freshness w) [] s0 _
              (check_data_freshness_returns w) (freshness_queries w))
    as (d1 & s1 & E1 & Q1).
  destruct (run_check_queries "data_completeness" (check_data_completeness w) d1 s1 _
              (check_data_completeness_returns w) (completeness_queries w))
    as (d2 & s2 & E2 & Q2).
  destruct (run_check_queries "data_consistency" (check_data_consistency w) d2 s2 _
              (check_data_consistency_returns w) (consistency_queries w))
    as (d3 & s3 & E3 & Q3).
  destruct (run_check_queries "dbt_models" (check_dbt_models w) d3 s3 _
              (check_dbt_models_returns w) (dbt_models_queries w))
    as (d4 & s4 & E4 & Q4).
  rewrite run_checks_cons, E1, run_checks_cons, E2, run_checks_cons, E3,
    run_checks_cons, E4.
  cbn [run_checks]. unfold ret. intros [= _ <-].
  rewrite Q4, Q3, Q2, Q1, Q0, <- !app_assoc. reflexivity.
Qed.

(** ** The verdict on the dbt tables in general *)

(** X8. A count query that answers with no row leaves its table out of
    the verdict of check_dbt_models: the check passes exactly when every
    table either answered with no row or reported a positive count in
    its last row, so it passes when all three answers are empty. *)
Theorem dbt_models_skip_empty_answers : forall w s,
  exists v,
    fst (check_dbt_models w s) = Ret v
    /\ (status_of v = Passed <->
        forall model, In model models_to_check ->
                      q_model_count w model = Ok []
                      \/ (0 < reported_count w model)%Z)
    /\ ((forall model, In model models_to_check -> q_model_count w model = Ok []) ->
        v = Some true).
Proof.
  intros w s. eexists. split; [apply check_dbt_models_decision |].
  assert (E : forall model, has_entry w model = false <-> q_model_count w model = Ok []).
  { intros model. unfold has_entry.
    destruct (q_model_count w model) as [[| c rows] | msg];
      split; congruence. }
  assert (Iff : forallb (fun model => (0 <? reported_count w model)%Z)
                  (filter (has_entry w) models_to_check) = true <->
                forall model, In model models_to_check ->
                              q_model_count w model = Ok []
                              \/ (0 < reported_count w model)%Z).
  { rewrite forallb_forall. split.
    - intros H model Hm. destruct (has_entry w model) eqn:He.
      + right. apply Z.ltb_lt, H, filter_In. now split.
      + left. now apply E.
    - intros H model Hm. apply filter_In in Hm. destruct Hm as (Hm & He).
      destruct (H model Hm) as [H0 | H0]; [| now apply Z.ltb_lt].
      apply E in H0. congruence. }
  split.
  - rewrite <- Iff. unfold status_of, truthy.
    destruct (forallb _ _); split; congruence.
  - intros H. do 2 f_equal. apply Iff. intros model Hm. left. now apply H.
Qed.

(** ** What the consistency verdict depends on *)











Lemma Zsum_repeat c n : Zsum (repeat c n) = (Z.of_nat n * c)%Z.
Proof.
  unfold Zsum. induction n as [| n IH]; [reflexivity |].
  cbn [repeat fold_right]. rewrite IH. lia.
Qed.

Lemma scaled_deviations_constant n t c m :
  (n * c = t)%Z -> scaled_deviations n t (repeat c m) = 0%Z.
Proof.
  intros E. unfold scaled_deviations.
  induction m as [| m IH]; [reflexivity |].
  cbn [repeat fold_right]. rewrite IH. nia.
Qed.

(** X11. A window of a single day fails the consistency check whatever
    its count (the sample standard deviation of one value is nan), and a
    window of two days or more whose counts are all the same positive
    number passes it. *)
Theorem consistency_of_short_and_constant_windows : forall w s,
  (forall row, q_consistency w = Ok [row] ->
               fst (check_data_consistency w s) = Ret (Some false))
  /\ (forall df c n,
        q_consistency w = Ok df ->
        column df = repeat c n ->
        (0 < c)%Z -> (2 <= n)%nat ->
        fst (check_data_consistency w s) = Ret (Some true)).
Proof.
  intros w s. split.
  - intros row E. rewrite (check_data_consistency_decided w s _ E). reflexivity.
  - intros df c n E C Hc Hn.
    rewrite (check_data_consistency_decided w s _ E), C.
    do 2 f_equal. unfold cv_below_50.
    rewrite repeat_length, Zsum_repeat.
    rewrite (scaled_deviations_constant (Z.of_nat n) (Z.of_nat n * c) c n eq_refl).
    apply andb_true_iff. split; [apply Z.leb_le; lia |].
    apply orb_true_iff. right. apply andb_true_iff.
    split; apply Z.ltb_lt; nia.
Qed.

(** ** The summary of the report *)


(* ================================================================== *)
(** * Further properties of the loader *)

(** ** Sleeping and polling *)

Lemma quiet_ret {A} (a : A) : quiet (ret a).
Proof. intros s. now split. Qed.

Lemma quiet_raise {A} msg : quiet (@raise A msg).
Proof. intros s. now split. Qed.

Lemma quiet_emit e : silent e -> quiet (emit e).
Proof. intros H s. destruct e; cbn in *; try contradiction; now split. Qed.

Lemma quiet_log lvl text : quiet (log lvl text).
Proof. apply quiet_emit. exact I. Qed.

Lemma quiet_bind {A B} (c : M A) (k : A -> M B) :
  quiet c -> (forall a, quiet (k a)) -> quiet (bind c k).
Proof.
  intros Hc Hk s. unfold bind. specialize (Hc s).
  destruct (c s) as [[a | msg | ] s']; cbn [snd] in *; auto.
  destruct (Hk a s') as (H1 & H2). destruct Hc as (H3 & H4).
  split; congruence.
Qed.

Lemma quiet_try {A} (c : M A) (h : string -> M A) :
  quiet c -> (forall msg, quiet (h msg)) -> quiet (try_except c h).
Proof.
  intros Hc Hh s. unfold try_except. specialize (Hc s).
  destruct (c s) as [[a | msg | ] s']; cbn [snd] in *; auto.
  destruct (Hh msg s') as (H1 & H2). destruct Hc as (H3 & H4).
  split; congruence.
Qed.

Lemma quiet_external {A} e (reply : answer A) :
  silent e -> quiet (external e reply).
Proof.
  intros H. unfold external. apply quiet_bind; [now apply quiet_emit |].
  intros _. destruct reply; [apply quiet_ret | apply quiet_raise].
Qed.

Lemma quiet_log_rows rows : quiet (LoadData.log_rows rows).
Proof.
  induction rows as [| r rows IH]; cbn; [apply quiet_ret |].
  repeat (apply quiet_bind; [apply quiet_log | intros _]). exact IH.
Qed.

Lemma quiet_log_each {A} lvl text (xs : list A) :
  quiet (LoadData.log_each lvl text xs).
Proof.
  induction xs as [| x xs IH]; cbn; [apply quiet_ret |].
  apply quiet_bind; [apply quiet_log | intros _; exact IH].
Qed.

Lemma quiet_validate c table_id : quiet (LoadData.validate_data_quality c table_id).
Proof.
  unfold LoadData.validate_data_quality.
  apply quiet_try.
  - repeat first [ apply quiet_log | apply quiet_external; exact I | apply quiet_ret
                 | apply quiet_log_rows | apply quiet_log_each
                 | apply quiet_bind; [| intros ?] ].
  - intros msg. apply quiet_bind; [apply quiet_log | intros _; apply quiet_ret].
Qed.

Lemma polled_sleeps n :
  forall s,
    slept (trace (polled n s)) = (30 * n + slept (trace s))%nat
    /\ done_calls (trace (polled n s)) = (S n + done_calls (trace s))%nat.
Proof.
  induction n as [| n IH]; intros s; cbn [polled].
  - cbn. split; lia.
  - destruct (IH (mkState (clock s) (S (polls s))
                    (Log INFO "Estado" :: Sleep 30 :: JobDone :: trace s)))
      as (H1 & H2).
    rewrite H1, H2. cbn. split; lia.
Qed.

Lemma load_polled_sleeps n :
  slept (trace (load_polled n (before_load initial_state))) = (30 * n)%nat
  /\ done_calls (trace (load_polled n (before_load initial_state))) = S n.
Proof.
  unfold load_polled.
  destruct (polled_sleeps n
              (push [ Log INFO "Monitoreando progreso de la carga..."; LoadSubmit;
                      Log INFO "Este proceso puede tomar varias horas";
                      Log INFO "Iniciando carga de datos" ]
                 (before_load initial_state))) as (H1 & H2).
  rewrite H1, H2. cbn. split; lia.
Qed.

(** X13. When the load job reaches its terminal state at its call
    number n of done() (counting from 0), the loader has called done()
    n + 1 times and slept 30 seconds after each of the n calls that
    answered "not done": 30 * n seconds in all, and none once the job is
    done, whatever the job's errors and whatever follows. *)
Theorem loader_sleeps_between_polls : forall fuel c job n,
  LoadData.new_client c = Ok tt ->
  LoadData.create_dataset c = Ok tt ->
  LoadData.load_table_from_uri c = Ok job ->
  terminal_after job n ->
  (n < fuel)%nat ->
  slept (trace (snd (LoadData.main fuel c initial_state))) = (30 * n)%nat
  /\ done_calls (trace (snd (LoadData.main fuel c initial_state))) = S n.
Proof.
  intros fuel c job n Hc Hd Hj [Hn Hk] Hf.
  rewrite (main_after_setup fuel c initial_state Hc Hd).
  rewrite (load_with_terminal_job fuel c (table_id_of c) the_job_config
             (before_load initial_state) job n Hj Hf Hk Hn).
  destruct (load_polled_sleeps n) as (S1 & D1).
  destruct (LoadData.job_errors job) as [| e es].
  - destruct (LoadData.get_table_loaded c) as [t | msg].
    + cbn [snd push trace app slept done_calls].
      match goal with |- context [LoadData.validate_data_quality c ?t ?st] =>
        destruct (quiet_validate c t st) as (Q1 & Q2) end.
      rewrite Q1, Q2. cbn. now split.
    + cbn. now split.
  - cbn. now split.
Qed.

Lemma loader_sleeps_between_polls_witness :
  slept (trace (snd (LoadData.main 10 good_cloud initial_state))) = (30 * 2)%nat
  /\ done_calls (trace (snd (LoadData.main 10 good_cloud initial_state))) = 3%nat.
Proof.
  apply (loader_sleeps_between_polls 10 good_cloud (job_with []) 2).
  - reflexivity.
  - reflexivity.
  - reflexivity.
  - apply job_with_terminal.
  - lia.
Defined.

(** ** A job that never ends *)

Lemma wait_for_endless_job job :
  (forall k, LoadData.done_at job k = Ok false) ->
  forall fuel s,
    fst (LoadData.wait_for_job fuel job s) = Unfinished
    /\ slept (trace (snd (LoadData.wait_for_job fuel job s)))
       = (30 * fuel + slept (trace s))%nat.
Proof.
  intros H. induction fuel as [| fuel IH]; intros s.
  - cbn. now split.
  - cbn [LoadData.wait_for_job].
    unfold LoadData.job_done, external, bind, emit. cbn. rewrite H. cbn.
    match goal with |- context [LoadData.wait_for_job fuel job ?st] =>
      destruct (IH st) as (I1 & I2);
      assert (St : slept (trace st) = (30 + slept (trace s))%nat) by reflexivity;
      destruct (LoadData.wait_for_job fuel job st) as [[[] | e | ] s1] end;
      cbn [fst snd] in *; try discriminate.
    split; [reflexivity | lia].
Qed.

(** X14. The loader has no timeout: when the job never reports that it
    is done, main is still polling after any number of calls to done(),
    having slept 30 seconds after each of them; it neither returns nor
    raises, and the validation step is never reached. *)
Theorem loader_polls_for_ever : forall fuel c job,
  LoadData.new_client c = Ok tt ->
  LoadData.create_dataset c = Ok tt ->
  LoadData.load_table_from_uri c = Ok job ->
  (forall k, LoadData.done_at job k = Ok false) ->
  fst (LoadData.main fuel c initial_state) = Unfinished
  /\ exit_code (fst (LoadData.main fuel c initial_state)) = None
  /\ slept (trace (snd (LoadData.main fuel c initial_state))) = (30 * fuel)%nat.
Proof.
  intros fuel c job Hc Hd Hj H.
  assert (L : exists s1,
             LoadData.load_data_from_gcs fuel c (table_id_of c) the_job_config
               (before_load initial_state) = (Unfinished, s1)
             /\ slept (trace s1) = (30 * fuel)%nat).
  { unfold LoadData.load_data_from_gcs, try_except.
    unfold bind at 1, log at 1, emit at 1.
    unfold bind at 1, log at 1, emit at 1.
    unfold bind at 1, external at 1, bind at 1, emit at 1. rewrite Hj.
    unfold ret at 1. unfold bind at 1, log at 1, emit at 1.
    unfold bind at 1. cbn [clock polls trace].
    match goal with |- context [LoadData.wait_for_job fuel job ?st] =>
      destruct (wait_for_endless_job job H fuel st) as (W1 & W2);
      destruct (LoadData.wait_for_job fuel job st) as [[[] | e | ] s1] end;
      cbn [fst] in W1; try discriminate.
    exists s1. split; [reflexivity |].
    cbn [snd] in W2. rewrite W2.
    cbn [trace slept before_load push app initial_state]. lia. }
  destruct L as (s1 & L & Sl).
  rewrite (main_after_setup fuel c initial_state Hc Hd), L.
  cbn [fst snd exit_code]. auto.
Qed.

Lemma loader_polls_for_ever_witness :
  fst (LoadData.main 500 stuck_load initial_state) = Unfinished
  /\ exit_code (fst (LoadData.main 500 stuck_load initial_state)) = None
  /\ slept (trace (snd (LoadData.main 500 stuck_load initial_state)))
     = (30 * 500)%nat.
Proof.
  apply (loader_polls_for_ever 500 stuck_load endless_job); reflexivity.
Defined.

(** ** The validation step and what main makes of it *)

Lemma validate_data_quality_value c table_id s :
  fst (LoadData.validate_data_quality c table_id s) =
  Ret (match LoadData.q_validation c, LoadData.get_table_validated c with
       | Ok _, Ok _ => true
       | _, _ => false
       end).
Proof.
  unfold LoadData.validate_data_quality, try_except.
  unfold bind at 1, log at 1, emit at 1.
  unfold bind at 1, external at 1, bind at 1, emit at 1.
  destruct (LoadData.q_validation c) as [rows | msg]; [| reflexivity].
  unfold ret at 1. unfold bind at 1. cbn [clock polls trace].
  match goal with |- context [LoadData.log_rows rows ?st] =>
    destruct (returns_log_rows rows st) as ([] & s1 & E); rewrite E end.
  unfold bind at 1, external at 1, bind at 1, emit at 1.
  destruct (LoadData.get_table_validated c) as [t | msg]; [| reflexivity].
  unfold ret at 1. unfold bind at 1, log at 1, emit at 1.
  unfold bind at 1. cbn [clock polls trace].
  match goal with |- context [LoadData.log_each ?l ?t0 ?xs ?st] =>
    destruct (returns_log_each l t0 xs st) as ([] & s2 & E2); rewrite E2 end.
  reflexivity.
Qed.

Lemma validate_data_quality_run c table_id s :
  exists s',
    LoadData.validate_data_quality c table_id s =
    (Ret (match LoadData.q_validation c, LoadData.get_table_validated c with
          | Ok _, Ok _ => true
          | _, _ => false
          end), s')
    /\ (match LoadData.q_validation c, LoadData.get_table_validated c with
        | Ok _, Ok _ => true
        | _, _ => false
        end = false ->
        exists rest, trace s' = Log ERROR "Error en validacion" :: rest).
Proof.
  unfold LoadData.validate_data_quality, try_except.
  unfold bind at 1, log at 1, emit at 1.
  unfold bind at 1, external at 1, bind at 1, emit at 1.
  destruct (LoadData.q_validation c) as [rows | msg];
    [| eexists; split; [reflexivity | intros _; eexists; reflexivity]].
  unfold ret at 1. unfold bind at 1. cbn [clock polls trace].
  match goal with |- context [LoadData.log_rows rows ?st] =>
    destruct (returns_log_rows rows st) as ([] & s1 & E); rewrite E end.
  unfold bind at 1, external at 1, bind at 1, emit at 1.
  destruct (LoadData.get_table_validated c) as [t | msg];
    [| eexists; split; [reflexivity | intros _; eexists; reflexivity]].
  unfold ret at 1. unfold bind at 1, log at 1, emit at 1.
  unfold bind at 1. cbn [clock polls trace].
  match goal with |- context [LoadData.log_each ?l ?t0 ?xs ?st] =>
    destruct (returns_log_each l t0 xs st) as ([] & s2 & E2); rewrite E2 end.
  eexists. split; [reflexivity | discriminate].
Qed.

Lemma validate_failure_is_logged c table_id s :
  fst (LoadData.validate_data_quality c table_id s) = Ret false ->
  exists rest,
    trace (snd (LoadData.validate_data_quality c table_id s))
    = Log ERROR "Error en validacion" :: rest.
Proof.
  destruct (validate_data_quality_run c table_id s) as (s' & E & L).
  rewrite E. cbn [fst snd]. intros [= H]. now apply L.
Qed.

(** X15. validate_data_quality never raises: it returns True exactly
    when its query and the lookup of the table both answer, and False,
    after logging the error, otherwise.  When the query fails the table
    is not looked up. *)
Theorem validation_returns_whether_it_succeeded : forall c table_id s,
  fst (LoadData.validate_data_quality c table_id s) =
  Ret (match LoadData.q_validation c, LoadData.get_table_validated c with
       | Ok _, Ok _ => true
       | _, _ => false
       end)
  /\ (fst (LoadData.validate_data_quality c table_id s) = Ret false ->
      exists rest,
        trace (snd (LoadData.validate_data_quality c table_id s))
        = Log ERROR "Error en validacion" :: rest)
  /\ (forall msg,
        LoadData.q_validation c = Fails msg ->
        LoadData.validate_data_quality c table_id s =
        (Ret false,
         push [ Log ERROR "Error en validacion"; Query "validation";
                Log INFO "Validando calidad de los datos..." ] s)).
Proof.
  intros c table_id s. split; [apply validate_data_quality_value |].
  split; [apply validate_failure_is_logged |].
  intros msg H.
  unfold LoadData.validate_data_quality, try_except, external, bind, log, emit.
  rewrite H. reflexivity.
Qed.

(** X16. main does not look at what the validation step returns: once
    the load step has returned True, main logs that the process ended
    successfully and returns normally (exit status 0) even when the
    validation failed, its error being in the log just before. *)
Theorem failed_validation_is_reported_as_success : forall fuel c job n table,
  LoadData.new_client c = Ok tt ->
  LoadData.create_dataset c = Ok tt ->
  LoadData.load_table_from_uri c = Ok job ->
  terminal_after job n ->
  (n < fuel)%nat ->
  LoadData.job_errors job = [] ->
  LoadData.get_table_loaded c = Ok table ->
  let run := LoadData.main fuel c initial_state in
  exit_code (fst run) = Some 0%Z
  /\ (exists rest,
        trace (snd run)
        = Log INFO "Proceso de carga completado exitosamente!" :: rest)
  /\ (forall msg,
        LoadData.q_validation c = Fails msg
        \/ LoadData.get_table_validated c = Fails msg ->
        exists rest,
          trace (snd run)
          = Log INFO "Proceso de carga completado exitosamente!"
            :: Log ERROR "Error en validacion" :: rest).
Proof.
  intros fuel c job n table Hc Hd Hj [Hn Hk] Hf He Ht run. unfold run.
  rewrite (main_after_setup fuel c initial_state Hc Hd).
  rewrite (load_with_terminal_job fuel c (table_id_of c) the_job_config
             (before_load initial_state) job n Hj Hf Hk Hn), He, Ht.
  cbn [fst snd exit_code push trace app].
  split; [reflexivity |]. split; [eexists; reflexivity |].
  intros msg H.
  match goal with |- context [LoadData.validate_data_quality c ?t ?st] =>
    destruct (validate_failure_is_logged c t st) as (rest & Tr) end.
  - rewrite validate_data_quality_value.
    destruct H as [-> | ->]; [reflexivity |].
    now destruct (LoadData.q_validation c).
  - rewrite Tr. eexists. reflexivity.
Qed.

Lemma failed_validation_is_reported_as_success_witness :
  exit_code (fst (LoadData.main 10 validation_outage initial_state)) = Some 0%Z
  /\ (exists rest,
        trace (snd (LoadData.main 10 validation_outage initial_state))
        = Log INFO "Proceso de carga completado exitosamente!" :: rest)
  /\ (forall msg,
        LoadData.q_validation validation_outage = Fails msg
        \/ LoadData.get_table_validated validation_outage = Fails msg ->
        exists rest,
          trace (snd (LoadData.main 10 validation_outage initial_state))
          = Log INFO "Proceso de carga completado exitosamente!"
            :: Log ERROR "Error en validacion" :: rest).
Proof.
  apply (failed_validation_is_reported_as_success 10 validation_outage
           (job_with []) 2 loaded_table).
  - reflexivity.
  - reflexivity.
  - reflexivity.
  - apply job_with_terminal.
  - lia.
  - reflexivity.
  - reflexivity.
Defined.

(** ** The order of the pipeline *)

Lemma grows_job_done job : grows (LoadData.job_done job).
Proof.
  unfold LoadData.job_done. apply grows_bind.
  - intros s e H. exact H.
  - intros n. apply grows_external.
Qed.

Lemma grows_wait_for_job fuel job : grows (LoadData.wait_for_job fuel job).
Proof.
  induction fuel as [| fuel IH]; cbn [LoadData.wait_for_job].
  - intros s e H. exact H.
  - apply grows_bind; [apply grows_job_done |].
    intros [|]; [apply grows_ret |].
    apply grows_bind; [apply grows_emit | intros _].
    apply grows_bind; [apply grows_log | intros _; exact IH].
Qed.

Lemma load_always_submits fuel c table_id job_config s :
  In LoadSubmit (trace (snd (LoadData.load_data_from_gcs fuel c table_id job_config s))).
Proof.
  unfold LoadData.load_data_from_gcs, try_except.
  unfold bind at 1, log at 1, emit at 1.
  unfold bind at 1, log at 1, emit at 1.
  unfold bind at 1, external at 1, bind at 1, emit at 1.
  destruct (LoadData.load_table_from_uri c) as [job | msg]; [| cbn; auto].
  unfold ret at 1. cbn [clock polls trace].
  match goal with |- context [bind ?c0 ?k0 ?st] =>
    assert (G : grows (bind c0 k0));
    [ apply grows_bind; [apply grows_log | intros _];
      apply grows_bind; [apply grows_wait_for_job | intros _];
      destruct (LoadData.job_errors job);
      repeat first [ apply grows_log | apply grows_external | apply grows_ret
                   | apply grows_bind; [| intros ?] ]
    | specialize (G st LoadSubmit (or_introl eq_refl));
      destruct (bind c0 k0 st) as [[b | e | ] s1] ]
  end; cbn in *; auto.
Qed.

(** X17. The steps of the loader are strictly sequential: started in
    the initial state, main asks for the dataset only when the client
    was created, and submits the load job exactly when client and
    dataset were both created; a load job is never submitted after a
    failed setup. *)
Theorem load_is_submitted_iff_setup_succeeded : forall fuel c,
  (In CreateDataset (trace (snd (LoadData.main fuel c initial_state))) <->
   LoadData.new_client c = Ok tt)
  /\ (In LoadSubmit (trace (snd (LoadData.main fuel c initial_state))) <->
      LoadData.new_client c = Ok tt /\ LoadData.create_dataset c = Ok tt).
Proof.
  intros fuel c.
  destruct (LoadData.new_client c) as [[] | m1] eqn:Hc.
  - destruct (LoadData.create_dataset c) as [[] | m2] eqn:Hd.
    + rewrite (main_after_setup fuel c initial_state Hc Hd).
      pose proof (load_always_submits fuel c (table_id_of c) the_job_config
                    (before_load initial_state)) as Sub.
      assert (Cd : In CreateDataset
                     (trace (snd (LoadData.load_data_from_gcs fuel c (table_id_of c)
                                    the_job_config (before_load initial_state))))).
      { assert (G : grows (LoadData.load_data_from_gcs fuel c (table_id_of c)
                             the_job_config)).
        { unfold LoadData.load_data_from_gcs. apply grows_try.
          - repeat (apply grows_bind; [apply grows_log | intros _]).
            apply grows_bind; [apply grows_external | intros job].
            apply grows_bind; [apply grows_log | intros _].
            apply grows_bind; [apply grows_wait_for_job | intros _].
            destruct (LoadData.job_errors job);
              repeat first [ apply grows_log | apply grows_external | apply grows_ret
                           | apply grows_bind; [| intros ?] ].
          - intros msg. apply grows_bind; [apply grows_log | intros _; apply grows_ret]. }
        apply G. cbn. tauto. }
      destruct (LoadData.load_data_from_gcs fuel c (table_id_of c) the_job_config
                  (before_load initial_state)) as [[[|] | e | ] s1];
        cbn [snd push trace app] in *.
      * destruct (validate_data_quality_runs c (table_id_of c) s1)
          as (b & s2 & E & _ & K).
        rewrite E. cbn [snd].
        split; (split; [auto | intros _; right; now apply K]).
      * split; (split; [auto | intros _; now right]).
      * split; (split; [auto | intros _; now right]).
      * split; (split; [auto | intros _; assumption]).
    + rewrite (main_without_dataset c m2 fuel initial_state Hc Hd). cbn.
      split.
      * split; [auto | intros _; tauto].
      * split; [| intros (_ & H); discriminate].
        intros H. exfalso. repeat destruct H as [H | H]; try discriminate; exact H.
  - rewrite (main_without_client c m1 fuel initial_state Hc). cbn.
    split.
    * split; [| discriminate].
      intros H. exfalso. repeat destruct H as [H | H]; try discriminate; exact H.
    * split; [| intros (H & _); discriminate].
      intros H. exfalso. repeat destruct H as [H | H]; try discriminate; exact H.
Qed.

(* ================================================================== *)
(** * The exploratory analysis *)

(** ** The scan of the columns *)

Lemma percentage_run count total s :
  EdaAnalysis.percentage count total s = (Ret (pct count total), s).
Proof.
  unfold EdaAnalysis.percentage, pct, py_truediv, bind.
  destruct (Z.ltb_spec 0 total) as [P | N]; [| reflexivity].
  destruct (Z.eqb_spec total 0); [lia | reflexivity].
Qed.

Lemma record_rows_run column rows :
  forall metrics s,
    exists s',
      EdaAnalysis.record_rows column rows metrics s
      = (Ret (fold_left (fun m row => dict_set column (column_metrics row) m)
                rows metrics), s')
      /\ queries_of (trace s') = queries_of (trace s).
Proof.
  induction rows as [| row rows IH]; intros metrics s.
  - exists s. now split.
  - cbn [EdaAnalysis.record_rows fold_left].
    unfold bind at 1. rewrite percentage_run.
    unfold bind at 1. rewrite percentage_run.
    unfold bind at 1, log at 1, emit at 1.
    match goal with |- context [EdaAnalysis.record_rows column rows ?m ?st] =>
      destruct (IH m st) as (s' & E & Q) end.
    exists s'. split; [exact E | exact Q].
Qed.

Lemma last_of_nonempty {A} (l : list A) :
  forall x d d', last (x :: l) d = last (x :: l) d'.
Proof.
  induction l as [| y l IH]; intros x d d'; [reflexivity |].
  change (last (y :: l) d = last (y :: l) d'). apply IH.
Qed.

Lemma record_all_column_rows column row rows metrics :
  fold_left (fun m r => dict_set column (column_metrics r) m) (row :: rows) metrics
  = dict_set column (column_metrics (last (row :: rows) row)) metrics.
Proof.
  revert row metrics. induction rows as [| r rows IH]; intros row metrics.
  - reflexivity.
  - change (fold_left _ (row :: r :: rows) metrics)
      with (fold_left (fun m r0 => dict_set column (column_metrics r0) m)
              (r :: rows) (dict_set column (column_metrics row) metrics)).
    rewrite IH, dict_set_twice.
    change (last (row :: r :: rows) row) with (last (r :: rows) row).
    now rewrite (last_of_nonempty rows r r row).
Qed.

Lemma analyze_column_run w column metrics s :
  exists s',
    EdaAnalysis.analyze_column w column metrics s
    = (Ret (match analysed w column with
            | Some v => dict_set column v metrics
            | None => metrics
            end), s')
    /\ queries_of (trace s') = (queries_of (trace s) ++ [column])%list.
Proof.
  unfold EdaAnalysis.analyze_column, try_except, analysed.
  unfold bind at 1, external at 1, bind at 1, emit at 1.
  destruct (EdaAnalysis.q_column w column) as [rows | msg].
  - unfold ret at 1. cbn [clock polls trace].
    match goal with |- context [EdaAnalysis.record_rows column rows metrics ?st] =>
      destruct (record_rows_run column rows metrics st) as (s' & E & Q);
      rewrite E end.
    exists s'. split; [| exact Q].
    destruct rows as [| row rows]; [reflexivity |].
    now rewrite record_all_column_rows.
  - eexists. split; reflexivity.
Qed.

Lemma analyze_columns_run w columns :
  forall metrics s,
    exists s',
      EdaAnalysis.analyze_columns w columns metrics s
      = (Ret (scanned w columns metrics), s')
      /\ queries_of (trace s') = (queries_of (trace s) ++ columns)%list.
Proof.
  induction columns as [| c columns IH]; intros metrics s.
  - exists s. split; [reflexivity | now rewrite app_nil_r].
  - cbn [EdaAnalysis.analyze_columns]. unfold bind.
    destruct (analyze_column_run w c metrics s) as (s1 & E & Q). rewrite E.
    destruct (IH (match analysed w c with
                  | Some v => dict_set c v metrics
                  | None => metrics
                  end) s1) as (s2 & E2 & Q2).
    exists s2. split; [exact E2 |].
    rewrite Q2, Q, <- app_assoc. reflexivity.
Qed.

Lemma analyze_data_quality_run w s :
  match EdaAnalysis.get_table w with
  | Ok t =>
      exists s',
        EdaAnalysis.analyze_data_quality w s
        = (Ret (scanned w (scanned_columns t) []), s')
        /\ queries_of (trace s') = (queries_of (trace s) ++ scanned_columns t)%list
  | Fails msg =>
      EdaAnalysis.analyze_data_quality w s =
      (Raise msg,
       push [GetTable; Log INFO "Analizando calidad de los datos..."] s)
  end.
Proof.
  unfold EdaAnalysis.analyze_data_quality.
  unfold bind at 1, log at 1, emit at 1.
  unfold bind at 1, external at 1, bind at 1, emit at 1.
  destruct (EdaAnalysis.get_table w) as [t | msg]; [| reflexivity].
  unfold ret at 1. cbn [clock polls trace].
  match goal with |- context [EdaAnalysis.analyze_columns w ?cols [] ?st] =>
    destruct (analyze_columns_run w cols [] st) as (s' & E & Q) end.
  exists s'. split; [exact E | exact Q].
Qed.

Lemma scanned_cons w c columns metrics :
  scanned w (c :: columns) metrics
  = scanned w columns (match analysed w c with
                       | Some v => dict_set c v metrics
                       | None => metrics
                       end).
Proof. reflexivity. Qed.

Lemma scanned_elsewhere w columns :
  forall metrics col,
    ~ In col columns ->
    dict_get col (scanned w columns metrics) = dict_get col metrics.
Proof.
  induction columns as [| c columns IH]; intros metrics col N; [reflexivity |].
  rewrite scanned_cons, IH by (intros H; apply N; now right).
  destruct (analysed w c); [| reflexivity].
  apply dict_get_set_other. intros ->. apply N. now left.
Qed.

Lemma scanned_lookup w columns :
  forall metrics col,
    In col columns ->
    dict_get col (scanned w columns metrics)
    = match analysed w col with
      | Some v => Some v
      | None => dict_get col metrics
      end.
Proof.
  induction columns as [| c columns IH]; intros metrics col H; [destruct H |].
  rewrite scanned_cons.
  destruct (in_dec string_dec col columns) as [I | N].
  - rewrite (IH _ col I).
    destruct (analysed w col) as [v |] eqn:A; [reflexivity |].
    destruct (string_dec c col) as [-> | D]; [now rewrite A |].
    destruct (analysed w c); [now apply dict_get_set_other | reflexivity].
  - rewrite (scanned_elsewhere w columns _ col N).
    destruct H as [-> | H]; [| contradiction].
    destruct (analysed w col) as [v |]; [apply dict_get_set_same | reflexivity].
Qed.

Lemma length_dict_set {V} k (v : V) d :
  (length (dict_set k v d) <= S (length d))%nat.
Proof.
  induction d as [| [k' v'] d IH]; cbn; [lia |].
  destruct (String.eqb k k'); cbn; lia.
Qed.

Lemma scanned_length w columns :
  forall metrics,
    (length (scanned w columns metrics) <= length metrics + length columns)%nat.
Proof.
  induction columns as [| c columns IH]; intros metrics; [cbn; lia |].
  rewrite scanned_cons. etransitivity; [apply IH |].
  destruct (analysed w c); cbn [length]; [| lia].
  pose proof (length_dict_set c c0 metrics). lia.
Qed.

(** X18. The scan of the data quality looks at the first ten columns of
    the schema only: it sends one query for each of them, in the order of
    the schema, whichever of these queries fail, and none for a later
    column; the metrics it returns hold at most ten entries, all of them
    for columns among those ten. *)
Theorem eda_scan_covers_the_first_ten_columns : forall w s t,
  EdaAnalysis.get_table w = Ok t ->
  exists metrics s',
    EdaAnalysis.analyze_data_quality w s = (Ret metrics, s')
    /\ queries_of (trace s')
       = (queries_of (trace s)
          ++ firstn 10 (map EdaAnalysis.name (EdaAnalysis.schema t)))%list
    /\ (length metrics <= 10)%nat
    /\ (forall col, In col (keys metrics) ->
                    In col (firstn 10 (map EdaAnalysis.name (EdaAnalysis.schema t))))
    /\ (forall col,
          ~ In col (firstn 10 (map EdaAnalysis.name (EdaAnalysis.schema t))) ->
          dict_get col metrics = None).
Proof.
  intros w s t Ht.
  pose proof (analyze_data_quality_run w s) as R. rewrite Ht in R.
  destruct R as (s' & E & Q).
  exists (scanned w (scanned_columns t) []), s'.
  split; [exact E |]. split; [exact Q |].
  assert (Out : forall col, ~ In col (scanned_columns t) ->
                  dict_get col (scanned w (scanned_columns t) []) = None).
  { intros col N. now rewrite scanned_elsewhere. }
  split; [| split; [| exact Out]].
  - etransitivity; [apply scanned_length |]. cbn [length].
    unfold scanned_columns. rewrite length_firstn. lia.
  - intros col H. apply dict_get_in_keys in H.
    destruct (in_dec string_dec col (scanned_columns t)) as [I | N]; [exact I |].
    now rewrite (Out col N) in H.
Qed.

Lemma eda_scan_covers_the_first_ten_columns_witness :
  exists metrics s',
    EdaAnalysis.analyze_data_quality steel_table initial_state = (Ret metrics, s')
    /\ queries_of (trace s')
       = (queries_of (trace initial_state)
          ++ firstn 10 (map EdaAnalysis.name (EdaAnalysis.schema twelve_columns)))%list
    /\ (length metrics <= 10)%nat
    /\ (forall col, In col (keys metrics) ->
          In col (firstn 10 (map EdaAnalysis.name (EdaAnalysis.schema twelve_columns))))
    /\ (forall col,
          ~ In col (firstn 10 (map EdaAnalysis.name (EdaAnalysis.schema twelve_columns))) ->
          dict_get col metrics = None).
Proof.
  apply (eda_scan_covers_the_first_ten_columns steel_table initial_state
           twelve_columns).
  reflexivity.
Defined.

(** X19. Looking a scanned column up in the metrics gives what its
    query answered: the counts and percentages of the last row of the
    answer, and nothing (the column is missing from the metrics, the
    scan went on) when the query failed or answered with no row. *)
Theorem eda_metrics_of_a_scanned_column : forall w s t metrics col,
  EdaAnalysis.get_table w = Ok t ->
  fst (EdaAnalysis.analyze_data_quality w s) = Ret metrics ->
  In col (firstn 10 (map EdaAnalysis.name (EdaAnalysis.schema t))) ->
  dict_get col metrics = analysed w col
  /\ (forall msg, EdaAnalysis.q_column w col = Fails msg ->
                  dict_get col metrics = None)
  /\ (EdaAnalysis.q_column w col = Ok [] -> dict_get col metrics = None)
  /\ (forall row, EdaAnalysis.q_column w col = Ok [row] ->
                  dict_get col metrics = Some (column_metrics row)).
Proof.
  intros w s t metrics col Ht E I.
  pose proof (analyze_data_quality_run w s) as R. rewrite Ht in R.
  destruct R as (s' & E' & _). rewrite E' in E. cbn [fst] in E.
  injection E as <-.
  assert (L : dict_get col (scanned w (scanned_columns t) []) = analysed w col).
  { unfold scanned_columns. rewrite (scanned_lookup w _ [] col I).
    now destruct (analysed w col). }
  split; [exact L |]. rewrite L. unfold analysed.
  split; [| split].
  - intros msg ->. reflexivity.
  - intros ->. reflexivity.
  - intros row ->. reflexivity.
Qed.

Lemma eda_metrics_of_a_scanned_column_witness :
  dict_get "c02" (scanned steel_table (scanned_columns twelve_columns) [])
  = analysed steel_table "c02"
  /\ (forall msg, EdaAnalysis.q_column steel_table "c02" = Fails msg ->
        dict_get "c02" (scanned steel_table (scanned_columns twelve_columns) [])
        = None)
  /\ (EdaAnalysis.q_column steel_table "c02" = Ok [] ->
      dict_get "c02" (scanned steel_table (scanned_columns twelve_columns) [])
      = None)
  /\ (forall row, EdaAnalysis.q_column steel_table "c02" = Ok [row] ->
        dict_get "c02" (scanned steel_table (scanned_columns twelve_columns) [])
        = Some (column_metrics row)).
Proof.
  apply (eda_metrics_of_a_scanned_column steel_table initial_state twelve_columns
           (scanned steel_table (scanned_columns twelve_columns) []) "c02").
  - reflexivity.
  - vm_compute. reflexivity.
  - vm_compute. tauto.
Defined.

(** ** The percentages of the scan *)





(** ** A run of the whole analysis *)

Lemma settles_untraced {A} (reply : answer A) : settles (EdaAnalysis.untraced reply).
Proof. destruct reply; cbn; auto with monad. Qed.

Lemma settles_days_between l e : settles (EdaAnalysis.days_between l e).
Proof. destruct l, e; cbn; auto with monad. Qed.

Lemma get_data_overview_returns w : returns (EdaAnalysis.get_data_overview w).
Proof.
  unfold EdaAnalysis.get_data_overview. settle.
  destruct a0; settle. apply settles_days_between.
Qed.

Lemma analyze_schema_returns w : returns (EdaAnalysis.analyze_schema w).
Proof.
  unfold EdaAnalysis.analyze_schema. settle.
  apply returns_settles, returns_log_each.
Qed.

Lemma analyze_temporal_patterns_returns w :
  returns (EdaAnalysis.analyze_temporal_patterns w).
Proof.
  unfold EdaAnalysis.analyze_temporal_patterns. settle;
    apply settles_untraced.
Qed.

Lemma analyze_schema_value w s :
  fst (EdaAnalysis.analyze_schema w s) =
  Ret (match EdaAnalysis.get_table w with
       | Ok t => Some (EdaAnalysis.schema t)
       | Fails _ => None
       end).
Proof.
  unfold EdaAnalysis.analyze_schema.
  unfold bind at 1, log at 1, emit at 1. unfold try_except.
  unfold bind at 1, external at 1, bind at 1, emit at 1.
  destruct (EdaAnalysis.get_table w) as [t | msg]; [| reflexivity].
  unfold ret at 1. unfold bind at 1, log at 1, emit at 1.
  unfold bind at 1. cbn [clock polls trace].
  match goal with |- context [LoadData.log_each ?l ?t0 ?xs ?st] =>
    destruct (returns_log_each l t0 xs st) as ([] & s2 & E2); rewrite E2 end.
  reflexivity.
Qed.

Lemma run_complete_eda_without_table w s msg :
  EdaAnalysis.get_table w = Fails msg ->
  fst (EdaAnalysis.run_complete_eda w s) = Raise msg.
Proof.
  intros H. unfold EdaAnalysis.run_complete_eda.
  unfold bind at 1, log at 1, emit at 1. unfold try_except.
  match goal with |- context [bind (EdaAnalysis.get_data_overview w) ?k ?st] =>
    destruct (get_data_overview_returns w st) as (v1 & s1 & E1);
    rewrite (bind_Ret (EdaAnalysis.get_data_overview w) k st v1 s1 E1) end.
  match goal with |- context [bind (EdaAnalysis.analyze_schema w) ?k ?st] =>
    destruct (analyze_schema_returns w st) as (v2 & s2 & E2);
    rewrite (bind_Ret (EdaAnalysis.analyze_schema w) k st v2 s2 E2) end.
  match goal with |- context [bind (EdaAnalysis.analyze_temporal_patterns w) ?k ?st] =>
    destruct (analyze_temporal_patterns_returns w st) as (v3 & s3 & E3);
    rewrite (bind_Ret (EdaAnalysis.analyze_temporal_patterns w) k st v3 s3 E3) end.
  match goal with |- context [bind (EdaAnalysis.analyze_data_quality w) ?k ?st] =>
    pose proof (analyze_data_quality_run w st) as R; rewrite H in R;
    rewrite (bind_Raise (EdaAnalysis.analyze_data_quality w) k st msg _ R) end.
  reflexivity.
Qed.

(** X21. The two lookups of the table differ in how they fail.  When
    the table cannot be looked up, analyze_schema logs the error and
    returns None, but analyze_data_quality, whose lookup is outside its
    try, raises: run_complete_eda then logs and raises the exception
    again, no summary is produced, and main ends with exit status 1. *)
Theorem eda_stops_when_the_table_is_missing : forall w s msg,
  EdaAnalysis.get_table w = Fails msg ->
  fst (EdaAnalysis.analyze_schema w s) = Ret None
  /\ EdaAnalysis.analyze_data_quality w s
     = (Raise msg, push [GetTable; Log INFO "Analizando calidad de los datos..."] s)
  /\ fst (EdaAnalysis.generate_summary_report w s) = Raise msg
  /\ fst (EdaAnalysis.run_complete_eda w s) = Raise msg
  /\ (EdaAnalysis.client_init w = Ok tt ->
      fst (EdaAnalysis.main w s) = Raise msg
      /\ exit_code (fst (EdaAnalysis.main w s)) = Some 1%Z).
Proof.
  intros w s msg H.
  split; [rewrite analyze_schema_value, H; reflexivity |].
  split; [pose proof (analyze_data_quality_run w s) as R; now rewrite H in R |].
  split; [| split; [now apply run_complete_eda_without_table |]].
  - unfold EdaAnalysis.generate_summary_report.
    unfold bind at 1, log at 1, emit at 1. unfold bind at 1, now at 1.
    cbn [clock polls trace].
    match goal with |- context [bind (EdaAnalysis.get_data_overview w) ?k ?st] =>
      destruct (get_data_overview_returns w st) as (v1 & s1 & E1);
      rewrite (bind_Ret (EdaAnalysis.get_data_overview w) k st v1 s1 E1) end.
    assert (P : exists o s1',
               match v1 with
               | Some row =>
                   days <- EdaAnalysis.days_between (EdaAnalysis.latest_date row)
                             (EdaAnalysis.earliest_date row) ;;
                   ret (Some (EdaAnalysis.mkOverview (EdaAnalysis.total_records row)
                                (EdaAnalysis.unique_dates row)
                                (EdaAnalysis.earliest_date row,
                                 EdaAnalysis.latest_date row)
                                (inject_Z days / 365)%Q))
               | None => ret None
               end s1 = (Ret o, s1') \/
               match v1 with
               | Some row =>
                   days <- EdaAnalysis.days_between (EdaAnalysis.latest_date row)
                             (EdaAnalysis.earliest_date row) ;;
                   ret (Some (EdaAnalysis.mkOverview (EdaAnalysis.total_records row)
                                (EdaAnalysis.unique_dates row)
                                (EdaAnalysis.earliest_date row,
                                 EdaAnalysis.latest_date row)
                                (inject_Z days / 365)%Q))
               | None => ret None
               end s1 = (Raise "unsupported operand type(s) for -", s1')).
    { destruct v1 as [row |]; [| exists None, s1; now left].
      destruct (EdaAnalysis.latest_date row) as [l |],
        (EdaAnalysis.earliest_date row) as [e |]; cbn;
        [ eexists; eexists; left; reflexivity
        | exists None, s1; right; reflexivity ..]. }
    destruct P as (o & s1' & [P | P]).
    + rewrite (bind_Ret _ _ _ _ _ P).
      match goal with |- context [bind (EdaAnalysis.analyze_schema w) ?k ?st] =>
        destruct (analyze_schema_returns w st) as (v2 & s2 & E2);
        rewrite (bind_Ret (EdaAnalysis.analyze_schema w) k st v2 s2 E2) end.
      match goal with |- context [bind (EdaAnalysis.analyze_data_quality w) ?k ?st] =>
        pose proof (analyze_data_quality_run w st) as R; rewrite H in R;
        rewrite (bind_Raise (EdaAnalysis.analyze_data_quality w) k st msg _ R) end.
      reflexivity.
    + exfalso.
      destruct v1 as [row |]; [| discriminate].
      pose proof (f_equal fst E1) as V. cbn [fst] in V.
      revert V P.
      unfold EdaAnalysis.get_data_overview, try_except, external, bind, log, emit.
      cbn.
      destruct (EdaAnalysis.q_overview w) as [[| r0 rest] | m0]; cbn;
        try discriminate.
      destruct (EdaAnalysis.latest_date r0) as [l0 |] eqn:L0,
        (EdaAnalysis.earliest_date r0) as [e0 |] eqn:E0; cbn; try discriminate.
      intros [= <-]. rewrite L0, E0. cbn. discriminate.
  - intros Hc.
    assert (Main : fst (EdaAnalysis.main w s) = Raise msg).
    { unfold EdaAnalysis.main.
      unfold bind at 1, log at 1, emit at 1. unfold try_except at 1.
      unfold bind at 1. unfold EdaAnalysis.SteelCompanyEDA at 1.
      unfold try_except at 1, bind at 1, external at 1, bind at 1, emit at 1.
      rewrite Hc. unfold ret at 1, log at 1, emit at 1.
      cbn [clock polls trace].
      match goal with |- context [EdaAnalysis.run_complete_eda w ?st] =>
        pose proof (run_complete_eda_without_table w st msg H) as R;
        destruct (EdaAnalysis.run_complete_eda w st) as [[[] | e | ] s1] end;
        cbn in R; inversion R; subst. reflexivity. }
    rewrite Main. now split.
Qed.

Lemma eda_stops_when_the_table_is_missing_witness :
  fst (EdaAnalysis.analyze_schema missing_table initial_state) = Ret None
  /\ EdaAnalysis.analyze_data_quality missing_table initial_state
     = (Raise "404 Not found: Table",
        push [GetTable; Log INFO "Analizando calidad de los datos..."] initial_state)
  /\ fst (EdaAnalysis.generate_summary_report missing_table initial_state)
     = Raise "404 Not found: Table"
  /\ fst (EdaAnalysis.run_complete_eda missing_table initial_state)
     = Raise "404 Not found: Table"
  /\ (EdaAnalysis.client_init missing_table = Ok tt ->
      fst (EdaAnalysis.main missing_table initial_state)
      = Raise "404 Not found: Table"
      /\ exit_code (fst (EdaAnalysis.main missing_table initial_state)) = Some 1%Z).
Proof.
  apply (eda_stops_when_the_table_is_missing missing_table initial_state).
  reflexivity.
Defined.

(** ** The queries of the analysis *)

Lemma mute_ret {A} (a : A) : mute (ret a).
Proof. intros s. reflexivity. Qed.

Lemma mute_raise {A} msg : mute (@raise A msg).
Proof. intros s. reflexivity. Qed.

Lemma mute_log lvl text : mute (log lvl text).
Proof. intros s. reflexivity. Qed.

Lemma mute_now : mute now.
Proof. intros s. reflexivity. Qed.

Lemma mute_bind {A B} (c : M A) (k : A -> M B) :
  mute c -> (forall a, mute (k a)) -> mute (bind c k).
Proof.
  intros Hc Hk s. unfold bind. specialize (Hc s).
  destruct (c s) as [[a | msg | ] s']; cbn [snd] in *; auto.
  now rewrite Hk.
Qed.

Lemma mute_try {A} (c : M A) (h : string -> M A) :
  mute c -> (forall msg, mute (h msg)) -> mute (try_except c h).
Proof.
  intros Hc Hh s. unfold try_except. specialize (Hc s).
  destruct (c s) as [[a | msg | ] s']; cbn [snd] in *; auto.
  now rewrite Hh.
Qed.

Lemma mute_untraced {A} (reply : answer A) : mute (EdaAnalysis.untraced reply).
Proof. destruct reply; [apply mute_ret | apply mute_raise]. Qed.

Lemma mute_get_table {A} (reply : answer A) : mute (external GetTable reply).
Proof. intros s. unfold external, bind, emit. destruct reply; reflexivity. Qed.

Lemma mute_log_each {A} lvl text (xs : list A) :
  mute (LoadData.log_each lvl text xs).
Proof.
  induction xs as [| x xs IH]; cbn; [apply mute_ret |].
  apply mute_bind; [apply mute_log | intros _; exact IH].
Qed.

Lemma mute_days_between l e : mute (EdaAnalysis.days_between l e).
Proof. destruct l, e; cbn; first [apply mute_ret | apply mute_raise]. Qed.

Lemma mute_analyze_schema w : mute (EdaAnalysis.analyze_schema w).
Proof.
  unfold EdaAnalysis.analyze_schema.
  apply mute_bind; [apply mute_log | intros _].
  apply mute_try.
  - apply mute_bind; [apply mute_get_table | intros t].
    apply mute_bind; [apply mute_log | intros _].
    apply mute_bind; [apply mute_log_each | intros _; apply mute_ret].
  - intros msg. apply mute_bind; [apply mute_log | intros _; apply mute_ret].
Qed.

Lemma asks_then_mute {A B} what (reply : answer A) (k : A -> M B) s :
  (forall a, mute (k a)) ->
  queries_of (trace (snd (bind (external (Query what) reply) k s)))
  = (queries_of (trace s) ++ [what])%list.
Proof.
  intros Hk. unfold bind at 1, external, bind, emit.
  destruct reply as [a | msg]; cbn [ret raise snd fst]; [| reflexivity].
  now rewrite Hk.
Qed.

Lemma get_data_overview_queries w s :
  queries_of (trace (snd (EdaAnalysis.get_data_overview w s)))
  = (queries_of (trace s) ++ ["data_overview"])%list.
Proof.
  unfold EdaAnalysis.get_data_overview.
  unfold bind at 1, log at 1, emit at 1. unfold try_except.
  match goal with |- context [bind (external (Query ?q) ?r) ?k ?st] =>
    pose proof (asks_then_mute q r k st) as Q;
    destruct (bind (external (Query q) r) k st) as [[v | msg | ] s1] end;
    cbn [snd] in *.
  - apply Q. intros [| row rest]; [apply mute_ret |].
    repeat (apply mute_bind; [apply mute_log | intros _]).
    apply mute_bind; [apply mute_days_between | intros _].
    apply mute_bind; [apply mute_log | intros _; apply mute_ret].
  - cbn. apply Q. intros [| row rest]; [apply mute_ret |].
    repeat (apply mute_bind; [apply mute_log | intros _]).
    apply mute_bind; [apply mute_days_between | intros _].
    apply mute_bind; [apply mute_log | intros _; apply mute_ret].
  - apply Q. intros [| row rest]; [apply mute_ret |].
    repeat (apply mute_bind; [apply mute_log | intros _]).
    apply mute_bind; [apply mute_days_between | intros _].
    apply mute_bind; [apply mute_log | intros _; apply mute_ret].
Qed.

Lemma analyze_temporal_patterns_queries w s :
  queries_of (trace (snd (EdaAnalysis.analyze_temporal_patterns w s)))
  = (queries_of (trace s) ++ ["temporal_patterns"])%list.
Proof.
  unfold EdaAnalysis.analyze_temporal_patterns.
  unfold bind at 1, log at 1, emit at 1. unfold try_except.
  assert (K : forall df : list EdaAnalysis.TemporalRow,
             mute (EdaAnalysis.untraced (EdaAnalysis.plot_temporal w) ;;
                   log INFO "Grafico de patrones temporales guardado" ;;
                   EdaAnalysis.untraced (EdaAnalysis.plot_monthly w) ;;
                   ret (Some df))).
  { intros df.
    apply mute_bind; [apply mute_untraced | intros _].
    apply mute_bind; [apply mute_log | intros _].
    apply mute_bind; [apply mute_untraced | intros _; apply mute_ret]. }
  match goal with |- context [bind (external (Query ?q) ?r) ?k ?st] =>
    pose proof (asks_then_mute q r k st K) as Q;
    destruct (bind (external (Query q) r) k st) as [[v | msg | ] s1] end;
    cbn [snd] in *; exact Q.
Qed.

(** ** The summary report *)

Lemma get_data_overview_value w s :
  fst (EdaAnalysis.get_data_overview w s) =
  Ret (match EdaAnalysis.q_overview w with
       | Ok (row :: _) =>
           match EdaAnalysis.latest_date row, EdaAnalysis.earliest_date row with
           | Some _, Some _ => Some row
           | _, _ => None
           end
       | _ => None
       end).
Proof.
  unfold EdaAnalysis.get_data_overview, try_except, external, bind, log, emit.
  cbn.
  destruct (EdaAnalysis.q_overview w) as [[| row rest] | msg]; cbn;
    try reflexivity.
  destruct (EdaAnalysis.latest_date row), (EdaAnalysis.earliest_date row);
    reflexivity.
Qed.

Lemma overview_part_run w s v1 s1 :
  EdaAnalysis.get_data_overview w s = (Ret v1, s1) ->
  match v1 with
  | Some row =>
      days <- EdaAnalysis.days_between (EdaAnalysis.latest_date row)
                (EdaAnalysis.earliest_date row) ;;
      ret (Some (EdaAnalysis.mkOverview (EdaAnalysis.total_records row)
                   (EdaAnalysis.unique_dates row)
                   (EdaAnalysis.earliest_date row, EdaAnalysis.latest_date row)
                   (inject_Z days / 365)%Q))
  | None => ret None
  end s1 = (Ret (overview_of w), s1).
Proof.
  intros E. pose proof (get_data_overview_value w s) as V.
  rewrite E in V. cbn [fst] in V. injection V as ->.
  unfold overview_of.
  destruct (EdaAnalysis.q_overview w) as [[| row rest] | msg]; try reflexivity.
  destruct (EdaAnalysis.latest_date row) as [l |] eqn:L,
    (EdaAnalysis.earliest_date row) as [e |] eqn:Ea; try reflexivity.
  unfold bind. rewrite L, Ea. reflexivity.
Qed.

Lemma schema_part_of t :
  match Some (EdaAnalysis.schema t) with
  | Some (f :: fs) =>
      Some (EdaAnalysis.mkSchemaSummary (Z.of_nat (length (f :: fs)))
              (map EdaAnalysis.name (f :: fs)))
  | _ => None
  end = schema_of t.
Proof. unfold schema_of. now destruct (EdaAnalysis.schema t). Qed.

Lemma quality_part_of w t :
  match scanned w (scanned_columns t) [] with
  | [] => None
  | _ :: _ => Some (scanned w (scanned_columns t) [])
  end = quality_of w t.
Proof. unfold quality_of. now destruct (scanned w (scanned_columns t) []). Qed.

(** What generate_summary_report gives once the table is found. *)
Lemma generate_summary_report_run w s t :
  EdaAnalysis.get_table w = Ok t ->
  exists s',
    EdaAnalysis.generate_summary_report w s =
    (match EdaAnalysis.write_summary w with
     | Ok _ =>
         Ret (EdaAnalysis.mkSummaryReport (clock s) (EdaAnalysis.PROJECT_ID w)
                EdaAnalysis.DATASET_NAME EdaAnalysis.TABLE_NAME
                (overview_of w) (schema_of t) (quality_of w t))
     | Fails msg => Raise msg
     end, s')
    /\ queries_of (trace s')
       = (queries_of (trace s) ++ "data_overview" :: scanned_columns t)%list.
Proof.
  intros Ht. unfold EdaAnalysis.generate_summary_report.
  unfold bind at 1, log at 1, emit at 1. unfold bind at 1, now at 1.
  cbn [clock polls trace].
  match goal with |- context [bind (EdaAnalysis.get_data_overview w) ?k ?st] =>
    destruct (get_data_overview_returns w st) as (v1 & s1 & E1);
    pose proof (get_data_overview_queries w st) as Q1;
    rewrite (bind_Ret (EdaAnalysis.get_data_overview w) k st v1 s1 E1) end.
  rewrite E1 in Q1. cbn [snd trace queries_of] in Q1.
  rewrite (bind_Ret _ _ _ _ _ (overview_part_run w _ v1 s1 E1)).
  match goal with |- context [bind (EdaAnalysis.analyze_schema w) ?k ?st] =>
    destruct (analyze_schema_returns w st) as (v2 & s2 & E2);
    pose proof (analyze_schema_value w st) as V2;
    pose proof (mute_analyze_schema w st) as Q2;
    rewrite (bind_Ret (EdaAnalysis.analyze_schema w) k st v2 s2 E2) end.
  rewrite E2, Ht in V2. cbn [fst] in V2. injection V2 as ->.
  rewrite E2 in Q2. cbn [snd] in Q2.
  match goal with |- context [bind (EdaAnalysis.analyze_data_quality w) ?k ?st] =>
    pose proof (analyze_data_quality_run w st) as R; rewrite Ht in R;
    destruct R as (s3 & E3 & Q3);
    rewrite (bind_Ret (EdaAnalysis.analyze_data_quality w) k st _ s3 E3) end.
  rewrite schema_part_of, quality_part_of.
  unfold bind at 1.
  destruct (EdaAnalysis.write_summary w) as [[] | msg]; cbn.
  - eexists. split; [reflexivity |]. cbn.
    rewrite Q3, Q2, Q1, <- app_assoc. reflexivity.
  - eexists. split; [reflexivity |].
    rewrite Q3, Q2, Q1, <- app_assoc. reflexivity.
Qed.

Lemma nothing_scanned w columns :
  scanned w columns [] = [] <->
  (forall col, In col columns -> analysed w col = None).
Proof.
  split.
  - intros E col I.
    pose proof (scanned_lookup w columns [] col I) as L. rewrite E in L.
    cbn in L. destruct (analysed w col); [discriminate | reflexivity].
  - induction columns as [| c columns IH]; intros H; [reflexivity |].
    rewrite scanned_cons, (H c (or_introl eq_refl)).
    apply IH. intros col I. apply H. now right.
Qed.

(** X22. When the table is found and the summary file is written,
    generate_summary_report returns a report whose three optional parts
    are decided by the answers alone: data_overview is present exactly
    when the overview query gave a row with both dates, schema exactly
    when the schema has a column, and data_quality exactly when the scan
    of at least one of the first ten columns gave metrics.  A failing
    overview query or failing scans do not stop the report; a failure to
    write the file raises. *)
Theorem summary_report_from_the_answers : forall w s t,
  EdaAnalysis.get_table w = Ok t ->
  (EdaAnalysis.write_summary w = Ok tt ->
   exists s',
     EdaAnalysis.generate_summary_report w s =
     (Ret (EdaAnalysis.mkSummaryReport (clock s) (EdaAnalysis.PROJECT_ID w)
             "acero_analysis" "cdo_challenge"
             (overview_of w) (schema_of t) (quality_of w t)), s'))
  /\ (forall msg, EdaAnalysis.write_summary w = Fails msg ->
                  fst (EdaAnalysis.generate_summary_report w s) = Raise msg)
  /\ (overview_of w <> None <->
      exists row rest l e,
        EdaAnalysis.q_overview w = Ok (row :: rest)
        /\ EdaAnalysis.latest_date row = Some l
        /\ EdaAnalysis.earliest_date row = Some e)
  /\ (schema_of t = None <-> EdaAnalysis.schema t = [])
  /\ (quality_of w t = None <->
      forall col,
        In col (firstn 10 (map EdaAnalysis.name (EdaAnalysis.schema t))) ->
        analysed w col = None).
Proof.
  intros w s t Ht.
  destruct (generate_summary_report_run w s t Ht) as (s' & E & _).
  split; [| split; [| split; [| split]]].
  - intros Hw. rewrite Hw in E. now exists s'.
  - intros msg Hw. rewrite Hw in E. now rewrite E.
  - unfold overview_of.
    destruct (EdaAnalysis.q_overview w) as [[| row rest] | msg].
    + split; [congruence | intros (? & ? & ? & ? & H & _); discriminate].
    + destruct (EdaAnalysis.latest_date row) as [l |] eqn:L,
        (EdaAnalysis.earliest_date row) as [e |] eqn:Ea.
      * split; [intros _ | discriminate].
        exists row, rest, l, e. repeat split; assumption.
      * split; [congruence |].
        intros (r & ? & ? & ? & H & _ & H'). inversion H; subst. congruence.
      * split; [congruence |].
        intros (r & ? & ? & ? & H & H' & _). inversion H; subst. congruence.
      * split; [congruence |].
        intros (r & ? & ? & ? & H & H' & _). inversion H; subst. congruence.
    + split; [congruence | intros (? & ? & ? & ? & H & _); discriminate].
  - unfold schema_of. destruct (EdaAnalysis.schema t); split; congruence.
  - rewrite <- (nothing_scanned w (firstn 10 _)). unfold quality_of.
    fold (scanned_columns t).
    destruct (scanned w (scanned_columns t) []); split; congruence.
Qed.

Lemma summary_report_from_the_answers_witness :
  (EdaAnalysis.write_summary steel_table = Ok tt ->
   exists s',
     EdaAnalysis.generate_summary_report steel_table initial_state =
     (Ret (EdaAnalysis.mkSummaryReport (clock initial_state)
             (EdaAnalysis.PROJECT_ID steel_table)
             "acero_analysis" "cdo_challenge"
             (overview_of steel_table) (schema_of twelve_columns)
             (quality_of steel_table twelve_columns)), s'))
  /\ (forall msg, EdaAnalysis.write_summary steel_table = Fails msg ->
        fst (EdaAnalysis.generate_summary_report steel_table initial_state)
        = Raise msg)
  /\ (overview_of steel_table <> None <->
      exists row rest l e,
        EdaAnalysis.q_overview steel_table = Ok (row :: rest)
        /\ EdaAnalysis.latest_date row = Some l
        /\ EdaAnalysis.earliest_date row = Some e)
  /\ (schema_of twelve_columns = None <-> EdaAnalysis.schema twelve_columns = [])
  /\ (quality_of steel_table twelve_columns = None <->
      forall col,
        In col (firstn 10 (map EdaAnalysis.name (EdaAnalysis.schema twelve_columns))) ->
        analysed steel_table col = None).
Proof.
  apply (summary_report_from_the_answers steel_table initial_state twelve_columns).
  reflexivity.
Defined.

(** X23. A complete run of the analysis sends the overview query and
    the scan of the first ten columns twice: once by the steps of
    run_complete_eda and once more inside generate_summary_report.  Once
    the table is found the queries are, in this order: the overview, the
    daily series, the ten columns, the overview again, the ten columns
    again, whether or not any of them fails and whether or not the
    summary file can be written. *)
Theorem complete_eda_repeats_its_queries : forall w s t,
  EdaAnalysis.get_table w = Ok t ->
  queries_of (trace (snd (EdaAnalysis.run_complete_eda w s)))
  = (queries_of (trace s)
     ++ ["data_overview"; "temporal_patterns"]
     ++ firstn 10 (map EdaAnalysis.name (EdaAnalysis.schema t))
     ++ ["data_overview"]
     ++ firstn 10 (map EdaAnalysis.name (EdaAnalysis.schema t)))%list.
Proof.
  intros w s t Ht. unfold EdaAnalysis.run_complete_eda.
  unfold bind at 1, log at 1, emit at 1. unfold try_except.
  match goal with |- context [bind (EdaAnalysis.get_data_overview w) ?k ?st] =>
    destruct (get_data_overview_returns w st) as (v1 & s1 & E1);
    pose proof (get_data_overview_queries w st) as Q1;
    rewrite (bind_Ret (EdaAnalysis.get_data_overview w) k st v1 s1 E1) end.
  rewrite E1 in Q1. cbn [snd trace queries_of] in Q1.
  match goal with |- context [bind (EdaAnalysis.analyze_schema w) ?k ?st] =>
    destruct (analyze_schema_returns w st) as (v2 & s2 & E2);
    pose proof (mute_analyze_schema w st) as Q2;
    rewrite (bind_Ret (EdaAnalysis.analyze_schema w) k st v2 s2 E2) end.
  rewrite E2 in Q2. cbn [snd] in Q2.
  match goal with |- context [bind (EdaAnalysis.analyze_temporal_patterns w) ?k ?st] =>
    destruct (analyze_temporal_patterns_returns w st) as (v3 & s3 & E3);
    pose proof (analyze_temporal_patterns_queries w st) as Q3;
    rewrite (bind_Ret (EdaAnalysis.analyze_temporal_patterns w) k st v3 s3 E3) end.
  rewrite E3 in Q3. cbn [snd] in Q3.
  match goal with |- context [bind (EdaAnalysis.analyze_data_quality w) ?k ?st] =>
    pose proof (analyze_data_quality_run w st) as R; rewrite Ht in R;
    destruct R as (s4 & E4 & Q4);
    rewrite (bind_Ret (EdaAnalysis.analyze_data_quality w) k st _ s4 E4) end.
  destruct (generate_summary_report_run w s4 t Ht) as (s5 & E5 & Q5).
  unfold bind at 1. rewrite E5.
  assert (Q : queries_of (trace s5)
              = (queries_of (trace s)
                 ++ ["data_overview"; "temporal_patterns"]
                 ++ scanned_columns t ++ ["data_overview"] ++ scanned_columns t)%list).
  { rewrite Q5, Q4, Q3, Q2, Q1. rewrite <- !app_assoc. reflexivity. }
  destruct (EdaAnalysis.write_summary w) as [[] | msg]; cbn; exact Q.
Qed.

Lemma complete_eda_repeats_its_queries_witness :
  queries_of (trace (snd (EdaAnalysis.run_complete_eda steel_table initial_state)))
  = (queries_of (trace initial_state)
     ++ ["data_overview"; "temporal_patterns"]
     ++ firstn 10 (map EdaAnalysis.name (EdaAnalysis.schema twelve_columns))
     ++ ["data_overview"]
     ++ firstn 10 (map EdaAnalysis.name (EdaAnalysis.schema twelve_columns)))%list.
Proof.
  apply (complete_eda_repeats_its_queries steel_table initial_state twelve_columns).
  reflexivity.
Defined.

(** ** The exit status of the analysis *)

Lemma run_complete_eda_value w s t :
  EdaAnalysis.get_table w = Ok t ->
  fst (EdaAnalysis.run_complete_eda w s)
  = match EdaAnalysis.write_summary w with
    | Ok _ => Ret tt
    | Fails msg => Raise msg
    end.
Proof.
  intros Ht. unfold EdaAnalysis.run_complete_eda.
  unfold bind at 1, log at 1, emit at 1. unfold try_except.
  match goal with |- context [bind (EdaAnalysis.get_data_overview w) ?k ?st] =>
    destruct (get_data_overview_returns w st) as (v1 & s1 & E1);
    rewrite (bind_Ret (EdaAnalysis.get_data_overview w) k st v1 s1 E1) end.
  match goal with |- context [bind (EdaAnalysis.analyze_schema w) ?k ?st] =>
    destruct (analyze_schema_returns w st) as (v2 & s2 & E2);
    rewrite (bind_Ret (EdaAnalysis.analyze_schema w) k st v2 s2 E2) end.
  match goal with |- context [bind (EdaAnalysis.analyze_temporal_patterns w) ?k ?st] =>
    destruct (analyze_temporal_patterns_returns w st) as (v3 & s3 & E3);
    rewrite (bind_Ret (EdaAnalysis.analyze_temporal_patterns w) k st v3 s3 E3) end.
  match goal with |- context [bind (EdaAnalysis.analyze_data_quality w) ?k ?st] =>
    pose proof (analyze_data_quality_run w st) as R; rewrite Ht in R;
    destruct R as (s4 & E4 & Q4);
    rewrite (bind_Ret (EdaAnalysis.analyze_data_quality w) k st _ s4 E4) end.
  destruct (generate_summary_report_run w s4 t Ht) as (s5 & E5 & _).
  unfold bind at 1. rewrite E5.
  destruct (EdaAnalysis.write_summary w) as [[] | msg]; reflexivity.
Qed.

Lemma eda_main_after_init w s :
  EdaAnalysis.client_init w = Ok tt ->
  fst (EdaAnalysis.main w s)
  = fst (EdaAnalysis.run_complete_eda w
           (push [ Log INFO "Cliente BigQuery inicializado"; ClientInit;
                   Log INFO "Iniciando analisis EDA para empresa de aceros..." ] s)).
Proof.
  intros Hc. unfold EdaAnalysis.main.
  unfold bind at 1, log at 1, emit at 1. unfold try_except at 1.
  unfold bind at 1. unfold EdaAnalysis.SteelCompanyEDA at 1.
  unfold try_except at 1, bind at 1, external at 1, bind at 1, emit at 1.
  rewrite Hc. unfold ret at 1, log at 1, emit at 1.
  cbn [clock polls trace].
  change (mkState (clock s) (polls s)
            (Log INFO "Cliente BigQuery inicializado" :: ClientInit
             :: Log INFO "Iniciando analisis EDA para empresa de aceros..."
             :: trace s))
    with (push [ Log INFO "Cliente BigQuery inicializado"; ClientInit;
                 Log INFO "Iniciando analisis EDA para empresa de aceros..." ] s).
  destruct (EdaAnalysis.run_complete_eda w _) as [[[] | e | ] s1]; reflexivity.
Qed.

(** X24. The steps of the analysis are best effort, but not all of
    them: main ends normally (exit status 0) exactly when the client is
    created, the table is found and the summary file is written, and
    with an exception (exit status 1) otherwise.  A failing overview
    query, a failing daily series or chart, and failing column scans are
    logged and do not change the exit status. *)
Theorem eda_exit_status : forall w s,
  (exit_code (fst (EdaAnalysis.main w s)) = Some 0%Z <->
   EdaAnalysis.client_init w = Ok tt
   /\ (exists t, EdaAnalysis.get_table w = Ok t)
   /\ EdaAnalysis.write_summary w = Ok tt)
  /\ (exit_code (fst (EdaAnalysis.main w s)) = Some 0%Z
      \/ exit_code (fst (EdaAnalysis.main w s)) = Some 1%Z).
Proof.
  intros w s.
  destruct (EdaAnalysis.client_init w) as [[] | m0] eqn:Hc.
  - rewrite (eda_main_after_init w s Hc).
    destruct (EdaAnalysis.get_table w) as [t | m1] eqn:Ht.
    + rewrite (run_complete_eda_value w _ t Ht).
      destruct (EdaAnalysis.write_summary w) as [[] | m2]; cbn.
      * split; [| now left]. split; [intros _ | reflexivity].
        repeat split. now exists t.
      * split; [| now right].
        split; [discriminate | intros (_ & _ & H); discriminate].
    + rewrite (run_complete_eda_without_table w _ m1 Ht). cbn.
      split; [| now right].
      split; [discriminate | intros (_ & (t & H) & _); discriminate].
  - assert (M : fst (EdaAnalysis.main w s) = Raise m0).
    { unfold EdaAnalysis.main, EdaAnalysis.SteelCompanyEDA, try_except,
        external, bind, log, emit, raise. rewrite Hc. reflexivity. }
    rewrite M. cbn. split; [| now right].
    split; [discriminate | intros (H & _); discriminate].
Qed.
